(** * FXRP gasless payment relayer: the relay engine of [relayer/index.ts]

    A shallow embedding of the class [GaslessRelayer] and of the properties
    its specification states.  The engine talks to a ledger through asynchronous calls; every
    such call is an interaction with a world the engine does not control, so
    the embedding threads a trace of interactions through a small
    reader/state/exception monad and the world answers each call as a
    function of the number of interactions issued so far. *)

From Stdlib Require Import ZArith List String Ascii Bool Lia.
From Stdlib Require Import Decimal DecimalString DecimalZ DecimalPos.
Import ListNotations.

#[local] Open Scope string_scope.
#[local] Open Scope Z_scope.

(* ================================================================== *)
(** ** JavaScript built-ins used by the engine

    Strings are sequences of code units below 256, the Latin-1 range,
    which holds what addresses, decimal amounts and hex signatures consist
    of; the built-ins below follow ECMAScript on every such code unit. *)

Module JS.

(** [String.prototype.toLowerCase]: the capital letters below 256 are
    [A]-[Z] and U+00C0-U+00DE without the multiplication sign U+00D7; each
    has its small form 32 code units further. *)
Definition lowerChar (c : ascii) : ascii :=
  let n := nat_of_ascii c in
  if ((65 <=? n) && (n <=? 90)
      || (192 <=? n) && (n <=? 214)
      || (216 <=? n) && (n <=? 222))%nat
  then ascii_of_nat (n + 32) else c.

Fixpoint toLowerCase (s : string) : string :=
  match s with
  | EmptyString => EmptyString
  | String c r => String (lowerChar c) (toLowerCase r)
  end.

(** [s.startsWith(p)]. *)
Definition startsWith (s p : string) : bool := String.prefix p s.

(** Truthiness of a possibly absent string: [undefined] and [""] are falsy. *)
Definition truthy (o : option string) : bool :=
  match o with
  | Some (String _ _) => true
  | _ => false
  end.

(** [StrWhiteSpaceChar] below 256: TAB, LF, VT, FF, CR, SP and the
    no-break space U+00A0. *)
Definition isWhiteSpace (c : ascii) : bool :=
  let n := nat_of_ascii c in
  ((9 <=? n) && (n <=? 13) || (n =? 32) || (n =? 160))%nat.

Fixpoint trimStart (s : string) : string :=
  match s with
  | String c r => if isWhiteSpace c then trimStart r else s
  | EmptyString => EmptyString
  end.

Fixpoint rev (s : string) : string :=
  match s with
  | EmptyString => EmptyString
  | String c r => rev r ++ String c EmptyString
  end.

Definition trim (s : string) : string := rev (trimStart (rev (trimStart s))).

(** Value of one digit in a non-decimal literal. *)
Definition digitValue (c : ascii) : option Z :=
  let n := nat_of_ascii c in
  if ((48 <=? n) && (n <=? 57))%nat then Some (Z.of_nat (n - 48))
  else if ((97 <=? n) && (n <=? 102))%nat then Some (Z.of_nat (n - 87))
  else if ((65 <=? n) && (n <=? 70))%nat then Some (Z.of_nat (n - 55))
  else None.

Fixpoint digitsAcc (base acc : Z) (s : string) : option Z :=
  match s with
  | EmptyString => Some acc
  | String c r =>
      match digitValue c with
      | Some d => if d <? base then digitsAcc base (acc * base + d) r else None
      | None => None
      end
  end.

(** [NonDecimalIntegerLiteral] digits: at least one digit of the base. *)
Definition nonDecimalDigits (base : Z) (s : string) : option Z :=
  match s with
  | EmptyString => None
  | _ => digitsAcc base 0 s
  end.

(** [DecimalDigits]: at least one decimal digit. *)
Definition decimalDigits (s : string) : option Z :=
  match s with
  | EmptyString => None
  | _ => option_map Z.of_uint (NilEmpty.uint_of_string s)
  end.

(** [StringToBigInt]: surrounding white space is dropped, the empty string
    is [0n], a literal is either a signed decimal or an unsigned [0x], [0o]
    or [0b] literal; anything else is [undefined] (and [BigInt] throws a
    [SyntaxError]). *)
Definition StringToBigInt (s : string) : option Z :=
  match trim s with
  | EmptyString => Some 0
  | String "+" r => decimalDigits r
  | String "-" r => option_map Z.opp (decimalDigits r)
  | String "0" (String c r) as t =>
      if ((c =? "x") || (c =? "X"))%char then nonDecimalDigits 16 r
      else if ((c =? "o") || (c =? "O"))%char then nonDecimalDigits 8 r
      else if ((c =? "b") || (c =? "B"))%char then nonDecimalDigits 2 r
      else decimalDigits t
  | t => decimalDigits t
  end.

(** Every code unit of [s] satisfies [p]. *)
Fixpoint allb (p : ascii -> bool) (s : string) : bool :=
  match s with
  | EmptyString => true
  | String c r => p c && allb p r
  end.

Definition isDecimalDigit (c : ascii) : bool :=
  let n := nat_of_ascii c in ((48 <=? n) && (n <=? 57))%nat.

(** The code units [toString] produces: decimal digits and [-]. *)
Definition signChar (c : ascii) : bool := isDecimalDigit c || (c =? "-")%char.

(** [BigInt.prototype.toString()], also [String(n)] for an integral
    number [n]: decimal digits, a leading [-] for negatives. *)
Definition toString (z : Z) : string := NilZero.string_of_int (Z.to_int z).

End JS.

(* ================================================================== *)
(** ** Data model *)

(** The shape of the errors thrown by ethers, viem and the runtime, as far
    as the engine inspects it: [message], [reason], [data], [revert?.name]. *)
Record JsError := mkJsError {
  message : string;
  reason : option string;
  data : option string;
  revert_name : option string;
}.

Definition plainError (msg : string) : JsError :=
  {| message := msg; reason := None; data := None; revert_name := None |}.

(** Outcome of a promise (or of a library call that may throw). *)
Inductive Settled (A : Type) : Type :=
| Resolved (a : A)
| Rejected (e : JsError).
Arguments Resolved {A} a.
Arguments Rejected {A} e.

(** [interface RelayerConfig]. *)
Record RelayerConfig := mkConfig {
  relayerPrivateKey : string;
  forwarderAddress : string;
  rpcUrl : option string;
}.

(** [interface PaymentRequest].  [deadline] is a number holding an integral
    timestamp. *)
Record PaymentRequest := mkRequest {
  from : string;
  to : string;
  amount : string;
  fee : string;
  deadline : Z;
  signature : string;
}.

(** [interface ExecuteResult]. *)
Record ExecuteResult := mkResult {
  success : bool;
  transactionHash : string;
  blockNumber : option Z;
  gasUsed : string;
}.

(** [interface BatchExecuteResult extends ExecuteResult]. *)
Record BatchExecuteResult := mkBatchResult {
  base : ExecuteResult;
  paymentsProcessed : nat;
}.

(** The EIP-712 domain: [EIP712_DOMAIN] with the chain id and the verifying
    contract filled in. *)
Record TypedDataDomain := mkDomain {
  name : string;
  version : string;
  chainId : Z;
  verifyingContract : string;
}.

(** A value of the [PaymentRequest] typed-data struct of
    [PAYMENT_REQUEST_TYPES]. *)
Record PaymentMessage := mkMessage {
  m_from : string;
  m_to : string;
  m_amount : Z;
  m_fee : Z;
  m_nonce : Z;
  m_deadline : Z;
}.

Definition EIP712_name : string := "GaslessPaymentForwarder".
Definition EIP712_version : string := "1".

(** Arguments of the contract method [executePayment]. *)
Record PaymentArgs := mkArgs {
  a_from : string;
  a_to : string;
  a_amount : Z;
  a_fee : Z;
  a_deadline : Z;
  a_signature : string;
}.

Record Block := mkBlock { timestamp : Z }.

Record TransactionResponse := mkTx { hash : string }.

Record TransactionReceipt := mkReceipt {
  r_blockNumber : Z;
  r_gasUsed : option Z;
}.

(** ** Library functions the engine calls

    [ethers.getAddress], viem's [recoverTypedDataAddress],
    [ethers.formatUnits] and [Interface.parseError] of the generated
    forwarder interface are not part of the repository; the engine is
    verified for every implementation of them. *)
Class Externals := {
  (** checksummed address, or throws *)
  getAddress : string -> Settled string;
  (** recovered signer of the typed data, or throws *)
  recoverTypedDataAddress :
    TypedDataDomain -> PaymentMessage -> string -> Settled string;
  (** decimal rendering of [value] with [decimals] fractional digits *)
  formatUnits : Z -> Z -> string;
  (** name of the custom error encoded by the revert data, [null] when the
      selector is not in the forwarder's catalog, or throws *)
  parseError : string -> Settled (option string);
}.

(** ** The world: ledger client and local clock

    Every field answers the call issued as interaction number [t] of the
    current run; answers may differ from one interaction to the next, as
    ledger state changes independently of the engine. *)
Record World := mkWorld {
  w_getNetwork : nat -> Settled Z;
  w_getNonce : nat -> string -> Settled Z;
  w_getBlock : nat -> Settled (option Block);
  w_dateNow : nat -> Z;
  w_fxrp : nat -> Settled string;
  w_decimals : nat -> string -> Settled Z;
  w_balanceOf : nat -> string -> string -> Settled Z;
  w_allowance : nat -> string -> string -> string -> Settled Z;
  w_relayerFee : nat -> Settled Z;
  w_staticCall : nat -> PaymentArgs -> Settled unit;
  w_estimateGas : nat -> PaymentArgs -> Settled Z;
  w_send : nat -> PaymentArgs -> Z -> Settled TransactionResponse;
  w_sendBatch : nat -> list PaymentRequest -> Z -> Settled TransactionResponse;
  w_wait : nat -> string -> Settled (option TransactionReceipt);
  w_getTransaction : nat -> string -> Settled (option string);
}.

(** One interaction: the call, its arguments and the answer received. *)
Inductive Event :=
| EvGetNetwork (r : Settled Z)
| EvGetNonce (owner : string) (r : Settled Z)
| EvGetBlock (r : Settled (option Block))
| EvDateNow (ms : Z)
| EvFxrp (r : Settled string)
| EvDecimals (token : string) (r : Settled Z)
| EvBalanceOf (token owner : string) (r : Settled Z)
| EvAllowance (token owner spender : string) (r : Settled Z)
| EvRelayerFee (r : Settled Z)
| EvStaticCall (args : PaymentArgs) (r : Settled unit)
| EvEstimateGas (args : PaymentArgs) (r : Settled Z)
| EvSend (args : PaymentArgs) (gasLimit : Z) (r : Settled TransactionResponse)
| EvSendBatch (reqs : list PaymentRequest) (gasLimit : Z)
              (r : Settled TransactionResponse)
| EvWait (txHash : string) (r : Settled (option TransactionReceipt))
| EvGetTransaction (txHash : string) (r : Settled (option string)).

Definition Trace := list Event.

(** ** Failures

    One constructor per [throw] site of [relayer/index.ts]; [Uncaught] is an
    exception or rejection the engine lets through unchanged. *)
Inductive Failure :=
| Uncaught (e : JsError)
| InvalidSignature                                          (* line 120 *)
| InvalidSignatureFormat (inner : string)                   (* line 159 *)
| SignerMismatch (recovered expected : string) (chain nonce : Z) (* line 164 *)
| SimulationFailed (msg : string)                           (* line 188 *)
| CounterRaceLost (was now : Z)                             (* line 194 *)
| EstimationFailed (msg : string)                           (* line 214 *)
| RequestExpired (deadline chainTime : Z)                   (* line 302 *)
| InsufficientBalance (required available decimals : Z)     (* line 316 *)
| InsufficientAllowance (required approved decimals : Z)    (* line 327 *)
| FeeTooLow (minFee decimals : Z)                           (* line 335 *)
| Enriched (phase msg hint : string).                       (* lines 353, 379 *)

(** ** The monad of asynchronous engine code *)

Inductive Outcome (A : Type) : Type :=
| Returned (a : A)
| Thrown (f : Failure).
Arguments Returned {A} a.
Arguments Thrown {A} f.

Definition Async (A : Type) : Type := World -> Trace -> Outcome A * Trace.

Definition ret {A} (a : A) : Async A := fun _ tr => (Returned a, tr).

Definition throw {A} (f : Failure) : Async A := fun _ tr => (Thrown f, tr).

Definition bind {A B} (m : Async A) (k : A -> Async B) : Async B :=
  fun w tr =>
    match m w tr with
    | (Returned a, tr') => k a w tr'
    | (Thrown f, tr') => (Thrown f, tr')
    end.

Declare Scope async_scope.
Delimit Scope async_scope with async.
Notation "x <- m ;; k" := (bind m (fun x => k))
  (at level 100, m at next level, right associativity) : async_scope.
Notation "m ;;; k" := (bind m (fun _ => k))
  (at level 100, right associativity) : async_scope.
#[local] Open Scope async_scope.

(** Issue one call: ask the world at the current interaction number and
    log the call with its answer. *)
Definition call {A} (oracle : World -> nat -> Settled A)
    (ev : Settled A -> Event) : Async (Settled A) :=
  fun w tr => let r := oracle w (List.length tr) in (Returned r, (tr ++ [ev r])%list).

(** A settled value outside [try]: a rejection propagates. *)
Definition unwrap {A} (r : Settled A) : Async A :=
  match r with
  | Resolved a => ret a
  | Rejected e => throw (Uncaught e)
  end.

(** [await call] outside [try]. *)
Definition await {A} (oracle : World -> nat -> Settled A)
    (ev : Settled A -> Event) : Async A :=
  r <- call oracle ev ;; unwrap r.

(** [Date.now()]. *)
Definition dateNow : Async Z :=
  fun w tr => let ms := w_dateNow w (List.length tr) in (Returned ms, (tr ++ [EvDateNow ms])%list).

(** [for (const x of xs) await body(x)]. *)
Fixpoint forOf {A} (xs : list A) (body : A -> Async unit) : Async unit :=
  match xs with
  | [] => ret tt
  | x :: rest => body x ;;; forOf rest body
  end.

(** [BigInt(s)] for a string [s]. *)
Definition BigInt (s : string) : Async Z :=
  match JS.StringToBigInt s with
  | Some z => ret z
  | None => throw (Uncaught (plainError ("Cannot convert " ++ s ++ " to a BigInt")))
  end.

(* ================================================================== *)
(** ** The engine: [class GaslessRelayer] *)

Section GaslessRelayer.

Context {ext : Externals}.
(** [this.config] *)
Variable config : RelayerConfig.

(** The [message] of the [Error] built at each throw site. *)
Definition failureMessage (f : Failure) : string :=
  match f with
  | Uncaught e => message e
  | InvalidSignature => "Invalid signature: must be a hex string"
  | InvalidSignatureFormat inner => "Invalid signature format: " ++ inner
  | SignerMismatch recovered expected chain nonce =>
      "Signature invalid: recovered " ++ recovered ++ " but expected "
      ++ expected ++ ". Check chainId (expected " ++ JS.toString chain
      ++ "), forwarder address, and nonce (expected " ++ JS.toString nonce
      ++ ")."
  | SimulationFailed msg => "Contract simulation failed: " ++ msg
  | CounterRaceLost was now =>
      "Nonce changed (was " ++ JS.toString was ++ ", now " ++ JS.toString now
      ++ "). Payment may have been submitted by another request. "
      ++ "Please create a new payment request."
  | EstimationFailed msg =>
      "Gas estimation failed (contract would revert): " ++ msg
  | RequestExpired deadline chainTime =>
      "Payment request has expired (deadline: " ++ JS.toString deadline
      ++ ", chain: " ++ JS.toString chainTime ++ ")"
  | InsufficientBalance required available decimals =>
      "Insufficient FXRP balance. Required: " ++ formatUnits required decimals
      ++ ", Available: " ++ formatUnits available decimals
  | InsufficientAllowance required approved decimals =>
      "Insufficient FXRP allowance. Required: "
      ++ formatUnits required decimals
      ++ ", Approved: " ++ formatUnits approved decimals
  | FeeTooLow minFee decimals =>
      "Fee too low. Minimum: " ++ formatUnits minFee decimals ++ " FXRP"
  | Enriched phase msg hint => phase ++ " failed: " ++ msg ++ hint
  end.

(** [validateRequest] (lines 295-339). *)
Definition validateRequest (request : PaymentRequest) : Async unit :=
  let from := from request in
  let amount := amount request in
  let fee := fee request in
  let deadline := deadline request in
  (* Check deadline against chain time *)
  block <- await w_getBlock EvGetBlock ;;
  chainTime <- match block with
               | Some b => ret (timestamp b)
               | None => ms <- dateNow ;; ret (ms / 1000)
               end ;;
  if deadline <=? chainTime then throw (RequestExpired deadline chainTime)
  else
  (* Get FXRP token from forwarder *)
  fxrpAddress <- await w_fxrp EvFxrp ;;
  decimals <- await (fun w t => w_decimals w t fxrpAddress)
                    (EvDecimals fxrpAddress) ;;
  (* Check sender's FXRP balance *)
  balance <- await (fun w t => w_balanceOf w t fxrpAddress from)
                   (EvBalanceOf fxrpAddress from) ;;
  a <- BigInt amount ;;
  f <- BigInt fee ;;
  let totalRequired := a + f in
  if balance <? totalRequired
  then throw (InsufficientBalance totalRequired balance decimals)
  else
  (* Check allowance *)
  allowance <- await (fun w t => w_allowance w t fxrpAddress from
                                   (forwarderAddress config))
                     (EvAllowance fxrpAddress from (forwarderAddress config)) ;;
  if allowance <? totalRequired
  then throw (InsufficientAllowance totalRequired allowance decimals)
  else
  (* Check minimum fee *)
  minFee <- await w_relayerFee EvRelayerFee ;;
  f' <- BigInt fee ;;
  if f' <? minFee then throw (FeeTooLow minFee decimals)
  else ret tt.

(** [parseRevertReason] (lines 382-401). *)
Definition parseRevertReason (e : JsError) : string :=
  let msg := message e in
  if JS.truthy (revert_name e) then
    match revert_name e with
    | Some n => "Contract reverted: " ++ n
    | None => msg
    end
  else
    match data e with
    | Some d =>
        if JS.truthy (Some d) && JS.startsWith d "0x" then
          match parseError d with
          | Resolved (Some n) => "Contract reverted: " ++ n
          | Resolved None => msg
          | Rejected _ => msg          (* catch: ignore *)
          end
        else msg
    | None => msg
    end.

Definition explorerHint (txHash : string) : string :=
  " Inspect tx: https://coston2-explorer.flare.network/tx/" ++ txHash.

(** [enrichRevertError] (lines 344-354); returns the [Error] to throw. *)
Definition enrichRevertError (err : JsError) (phase : string)
    (txHash : option string) : Failure :=
  let msg := parseRevertReason err in
  let hint := if JS.truthy txHash
              then match txHash with
                   | Some h => explorerHint h
                   | None => ""
                   end
              else "" in
  Enriched phase msg hint.

(** [enrichRevertErrorAsync] (lines 359-380); returns the [Error] to
    throw. *)
Definition enrichRevertErrorAsync (err : JsError) (phase txHash : string)
    : Async Failure :=
  let msg := parseRevertReason err in
  (* Fetch tx from chain to verify calldata *)
  fetched <- call (fun w t => w_getTransaction w t txHash)
                  (EvGetTransaction txHash) ;;
  let msg :=
    match fetched with
    | Resolved (Some d) =>
        if (d =? "0x")%string
        then msg ++ " [TX had no calldata - relayer bug]"
        else msg ++ " [calldata length: "
                 ++ JS.toString (Z.of_nat (String.length d)) ++ " chars]"
    | Resolved None => msg ++ " [TX had no calldata - relayer bug]"
    | Rejected _ => msg                (* catch: ignore fetch errors *)
    end in
  let hint := explorerHint txHash in
  ret (Enriched phase msg hint).

(** [executePayment] (lines 111-253). *)
Definition executePayment (request : PaymentRequest) : Async ExecuteResult :=
  (* Normalize and validate request format *)
  from <- unwrap (getAddress (from request)) ;;
  to <- unwrap (getAddress (to request)) ;;
  amount <- BigInt (amount request) ;;
  fee <- BigInt (fee request) ;;
  (* [Number(request.deadline)] of a number is the number itself *)
  let deadline := deadline request in
  let sig := signature request in
  (* [typeof sig !== "string"] is false for a [PaymentRequest] *)
  if (String.length sig <? 130)%nat then throw InvalidSignature
  else
  let signature := if JS.startsWith sig "0x" then sig else "0x" ++ sig in
  let normalizedRequest :=
    {| from := from; to := to;
       amount := JS.toString amount; fee := JS.toString fee;
       deadline := deadline; signature := signature |} in
  (* Verify EIP-712 signature off-chain *)
  chainId <- await w_getNetwork EvGetNetwork ;;
  nonce <- await (fun w t => w_getNonce w t from) (EvGetNonce from) ;;
  verifyingContract <- unwrap (getAddress (forwarderAddress config)) ;;
  (* [Number(chainId)] is [chainId] itself for a chain id, an integer far
     below 2^53 *)
  let domain :=
    {| name := EIP712_name; version := EIP712_version;
       chainId := chainId; verifyingContract := verifyingContract |} in
  let typedMessage :=
    {| m_from := from; m_to := to; m_amount := amount; m_fee := fee;
       m_nonce := nonce; m_deadline := deadline |} in
  recoveredAddress <-
    match recoverTypedDataAddress domain typedMessage signature with
    | Resolved r => ret r
    | Rejected e => throw (InvalidSignatureFormat (message e))
    end ;;
  if negb (JS.toLowerCase recoveredAddress =? JS.toLowerCase from)%string
  then throw (SignerMismatch recoveredAddress from chainId nonce)
  else
  (* Validate the request *)
  validateRequest normalizedRequest ;;;
  (* Simulate first *)
  let args :=
    {| a_from := from; a_to := to; a_amount := amount; a_fee := fee;
       a_deadline := deadline; a_signature := signature |} in
  sim <- call (fun w t => w_staticCall w t args) (EvStaticCall args) ;;
  match sim with
  | Rejected err =>
      let msg :=
        if JS.truthy (reason err) then
          match reason err with Some r => r | None => message err end
        else if JS.truthy (data err) then
          match data err with
          | Some d => "revert data: " ++ d
          | None => message err
          end
        else message err in
      throw (SimulationFailed msg)
  | Resolved _ =>
  (* Re-check nonce right before send *)
  nonceNow <- await (fun w t => w_getNonce w t from) (EvGetNonce from) ;;
  if negb (nonceNow =? nonce) then throw (CounterRaceLost nonce nonceNow)
  else
  (* Estimate gas *)
  est <- call (fun w t => w_estimateGas w t args) (EvEstimateGas args) ;;
  match est with
  | Rejected err => throw (EstimationFailed (message err))
  | Resolved estimated =>
  let gasLimit := Z.quot (estimated * 130) 100 in   (* 30% buffer *)
  (* Execute the payment *)
  sent <- call (fun w t => w_send w t args gasLimit) (EvSend args gasLimit) ;;
  match sent with
  | Rejected sendError =>
      throw (enrichRevertError sendError "sendTransaction" None)
  | Resolved tx =>
  (* Wait for confirmation *)
  waited <- call (fun w t => w_wait w t (hash tx)) (EvWait (hash tx)) ;;
  match waited with
  | Rejected waitError =>
      f <- enrichRevertErrorAsync waitError "transaction" (hash tx) ;;
      throw f
  | Resolved receipt =>
      ret {| success := true;
             transactionHash := hash tx;
             blockNumber := option_map r_blockNumber receipt;
             gasUsed := match receipt with
                        | Some r => match r_gasUsed r with
                                    | Some g => JS.toString g
                                    | None => "0"
                                    end
                        | None => "0"
                        end |}
  end end end end.

(** [executeBatchPayments] (lines 258-290). *)
Definition executeBatchPayments (requests : list PaymentRequest)
    : Async BatchExecuteResult :=
  (* Validate all requests *)
  forOf requests validateRequest ;;;
  (* Format requests for the contract *)
  let formattedRequests :=
    map (fun r => {| from := from r; to := to r; amount := amount r;
                     fee := fee r; deadline := deadline r;
                     signature := signature r |}) requests in
  (* Execute batch *)
  let gasLimit := 100000 * Z.of_nat (List.length requests) in
  tx <- await (fun w t => w_sendBatch w t formattedRequests gasLimit)
              (EvSendBatch formattedRequests gasLimit) ;;
  receipt <- await (fun w t => w_wait w t (hash tx)) (EvWait (hash tx)) ;;
  ret {| base := {| success := true;
                    transactionHash := hash tx;
                    blockNumber := option_map r_blockNumber receipt;
                    gasUsed := match receipt with
                               | Some r => match r_gasUsed r with
                                           | Some g => JS.toString g
                                           | None => "0"
                                           end
                               | None => "0"
                               end |};
         paymentsProcessed := List.length requests |}.

End GaslessRelayer.

(* ================================================================== *)
(** ** The signing side: [client/signer.ts] *)

(** [interface SignPaymentParams]. *)
Record SignPaymentParams := mkParams {
  p_forwarderAddress : string;
  p_to : string;
  p_amount : Z;
  p_fee : Z;
  p_nonce : Z;
  p_deadline : Z;
  p_chainId : Z;
}.

(** The domain [signPaymentRequest] signs under (lines 155-159). *)
Definition signedDomain (params : SignPaymentParams) : TypedDataDomain :=
  {| name := EIP712_name; version := EIP712_version;
     chainId := p_chainId params;
     verifyingContract := p_forwarderAddress params |}.

(** The message [signPaymentRequest] signs for the wallet at
    [walletAddress] (lines 162-169). *)
Definition signedMessage (walletAddress : string) (params : SignPaymentParams)
    : PaymentMessage :=
  {| m_from := walletAddress; m_to := p_to params;
     m_amount := p_amount params; m_fee := p_fee params;
     m_nonce := p_nonce params; m_deadline := p_deadline params |}.

(** The request [createPaymentRequest] hands to the relayer (lines
    234-240), for the signature [sig] obtained from [signPaymentRequest]. *)
Definition createdRequest (walletAddress : string) (params : SignPaymentParams)
    (sig : string) : PaymentRequest :=
  {| from := walletAddress; to := p_to params;
     amount := JS.toString (p_amount params);
     fee := JS.toString (p_fee params);
     deadline := p_deadline params; signature := sig |}.

(* ================================================================== *)
(** ** Vocabulary for statements about traces *)

(** The dry-run of the submission pipeline. *)
Definition isDryRun (e : Event) : bool :=
  match e with EvStaticCall _ _ => true | _ => false end.

(** The cost estimate. *)
Definition isEstimate (e : Event) : bool :=
  match e with EvEstimateGas _ _ => true | _ => false end.

(** A submission, single or batch. *)
Definition isSubmit (e : Event) : bool :=
  match e with EvSend _ _ _ | EvSendBatch _ _ _ => true | _ => false end.

(** A read of a replay counter. *)
Definition isNonceRead (e : Event) : bool :=
  match e with EvGetNonce _ _ => true | _ => false end.

(** The reads [validateRequest] issues. *)
Definition isValidationRead (e : Event) : bool :=
  match e with
  | EvGetBlock _ | EvDateNow _ | EvFxrp _ | EvDecimals _ _
  | EvBalanceOf _ _ _ | EvAllowance _ _ _ _ | EvRelayerFee _ => true
  | _ => false
  end.

(** No event of the trace satisfies [p]. *)
Definition never (p : Event -> bool) (tr : Trace) : Prop :=
  Forall (fun e => p e = false) tr.

(** The replay-counter values read successfully, in order. *)
Fixpoint nonceReads (tr : Trace) : list Z :=
  match tr with
  | [] => []
  | EvGetNonce _ (Resolved n) :: rest => n :: nonceReads rest
  | _ :: rest => nonceReads rest
  end.

(** A capital letter and its small form compare equal when case is
    ignored; so do equal code units, and no others. *)
Definition isCapital (c : ascii) : bool :=
  let n := nat_of_ascii c in
  ((65 <=? n) && (n <=? 90)
   || (192 <=? n) && (n <=? 214)
   || (216 <=? n) && (n <=? 222))%nat.

Definition sameLetter (c d : ascii) : bool :=
  let m := nat_of_ascii c in
  let n := nat_of_ascii d in
  ((m =? n) || isCapital c && (n =? m + 32) || isCapital d && (m =? n + 32))%nat.

(** Equality of two strings up to the case of their letters. *)
Fixpoint equalIgnoringCase (s t : string) : bool :=
  match s, t with
  | EmptyString, EmptyString => true
  | String c s', String d t' => sameLetter c d && equalIgnoringCase s' t'
  | _, _ => false
  end.

(** The same authorization with another signature. *)
Definition withSignature (s : string) (r : PaymentRequest) : PaymentRequest :=
  {| from := from r; to := to r; amount := amount r; fee := fee r;
     deadline := deadline r; signature := s |}.

(** The reads that fix the chain time of a validation: the latest block, or
    the local clock when the ledger has no block to give. *)
Definition chainTimeRead (evs : Trace) (chainTime : Z) : Prop :=
  (exists blk,
      evs = [EvGetBlock (Resolved (Some blk))] /\ chainTime = timestamp blk)
  \/ (exists ms,
        evs = [EvGetBlock (Resolved None); EvDateNow ms]
        /\ chainTime = ms / 1000).

(** The reads of a validation that passes, for one request, with the four
    checks they satisfy. *)
Definition passingValidation (config : RelayerConfig) (r : PaymentRequest)
    (evs : Trace) : Prop :=
  exists clock chainTime token decimals balance allowance minFee a f,
    chainTimeRead clock chainTime
    /\ evs = (clock ++
              [ EvFxrp (Resolved token);
                EvDecimals token (Resolved decimals);
                EvBalanceOf token (from r) (Resolved balance);
                EvAllowance token (from r) (forwarderAddress config)
                            (Resolved allowance);
                EvRelayerFee (Resolved minFee) ])%list
    /\ JS.StringToBigInt (amount r) = Some a
    /\ JS.StringToBigInt (fee r) = Some f
    /\ chainTime < deadline r
    /\ a + f <= balance
    /\ a + f <= allowance
    /\ minFee <= f.

(** The ceiling of a batch: [100000n * BigInt(requests.length)]. *)
Definition batchCeiling (requests : list PaymentRequest) : Z :=
  100000 * Z.of_nat (List.length requests).

(* ================================================================== *)
(** ** Sample collaborators, used to run the engine on concrete requests *)

Module Sample.

Definition isHexChar (c : ascii) : bool :=
  match JS.digitValue c with Some _ => true | None => false end.

(** Accepts [0x] followed by forty hex digits, returned unchanged. *)
Definition sampleGetAddress (s : string) : Settled string :=
  if JS.startsWith s "0x" && (String.length s =? 42)%nat
     && JS.allb isHexChar (substring 2 40 s)
  then Resolved s
  else Rejected (plainError ("invalid address: " ++ s)).

(** A stand-in for signature recovery: a signature of 132 characters
    names its signer in its first 42 characters and is bound to the
    counter by its last character being the counter's last decimal
    digit; shorter or longer strings are not signatures. *)
Definition sampleRecover (d : TypedDataDomain) (m : PaymentMessage)
    (sig : string) : Settled string :=
  if (String.length sig =? 132)%nat then
    if (substring 131 1 sig =? JS.toString (m_nonce m mod 10))%string
    then Resolved (substring 0 42 sig)
    else Resolved "0x000000000000000000000000000000000000dEaD"
  else Rejected (plainError "invalid signature length").

(** Digits of the value, then the number of fractional digits. *)
Definition sampleFormatUnits (value decimals : Z) : string :=
  JS.toString value ++ "e-" ++ JS.toString decimals.

(** A two-entry catalog keyed by the revert data itself. *)
Definition sampleParseError (d : string) : Settled (option string) :=
  if (d =? "0x8baa579f")%string then Resolved (Some "InvalidSignature")
  else if (d =? "0x756688fe")%string then Resolved (Some "InvalidNonce")
  else if (String.length d <? 10)%nat
       then Rejected (plainError "data too short")
       else Resolved None.

#[export] Instance externals : Externals := {
  getAddress := sampleGetAddress;
  recoverTypedDataAddress := sampleRecover;
  formatUnits := sampleFormatUnits;
  parseError := sampleParseError;
}.

Definition alice : string := "0xA11ce00000000000000000000000000000000001".
Definition bob : string := "0xB0b0000000000000000000000000000000000002".
Definition forwarder : string := "0xF0000000000000000000000000000000000000F0".
Definition token : string := "0x7000000000000000000000000000000000000007".

Definition config : RelayerConfig :=
  {| relayerPrivateKey := "0x01"; forwarderAddress := forwarder;
     rpcUrl := None |}.

Definition padding : string :=
  "00000000000000000000000000000000000000000000"
  ++ "000000000000000000000000000000000000000000000".

(** A signature by [alice] bound to counter 7. *)
Definition aliceSignature : string := alice ++ padding ++ "7".

(** A signature by [bob] bound to counter 7. *)
Definition bobSignature : string := bob ++ padding ++ "7".

(** The scenario of the specification: amount 80, fee 10. *)
Definition request : PaymentRequest :=
  {| from := alice; to := bob; amount := "80"; fee := "10";
     deadline := 2000; signature := aliceSignature |}.

Definition args : PaymentArgs :=
  {| a_from := alice; a_to := bob; a_amount := 80; a_fee := 10;
     a_deadline := 2000; a_signature := aliceSignature |}.

(** Balance 100, allowance 90, minimum fee 5, ledger time 1000, counter 7,
    estimate 21001; every call succeeds. *)
Definition world : World :=
  {| w_getNetwork := fun _ => Resolved 114;
     w_getNonce := fun _ _ => Resolved 7;
     w_getBlock := fun _ => Resolved (Some {| timestamp := 1000 |});
     w_dateNow := fun _ => 1000500;
     w_fxrp := fun _ => Resolved token;
     w_decimals := fun _ _ => Resolved 6;
     w_balanceOf := fun _ _ _ => Resolved 100;
     w_allowance := fun _ _ _ _ => Resolved 90;
     w_relayerFee := fun _ => Resolved 5;
     w_staticCall := fun _ _ => Resolved tt;
     w_estimateGas := fun _ _ => Resolved 21001;
     w_send := fun _ _ _ => Resolved {| hash := "0xabc" |};
     w_sendBatch := fun _ _ _ => Resolved {| hash := "0xdef" |};
     w_wait := fun _ _ =>
       Resolved (Some {| r_blockNumber := 42; r_gasUsed := Some 25000 |});
     w_getTransaction := fun _ _ => Resolved (Some "0x1234") |}.


(** [world] with another allowance. *)
Definition withAllowance (a : Z) (w : World) : World :=
  {| w_getNetwork := w_getNetwork w;
     w_getNonce := w_getNonce w;
     w_getBlock := w_getBlock w;
     w_dateNow := w_dateNow w;
     w_fxrp := w_fxrp w;
     w_decimals := w_decimals w;
     w_balanceOf := w_balanceOf w;
     w_allowance := fun _ _ _ _ => Resolved a;
     w_relayerFee := w_relayerFee w;
     w_staticCall := w_staticCall w;
     w_estimateGas := w_estimateGas w;
     w_send := w_send w;
     w_sendBatch := w_sendBatch w;
     w_wait := w_wait w;
     w_getTransaction := w_getTransaction w |}.

(** [world] with another balance. *)
Definition withBalance (b : Z) (w : World) : World :=
  {| w_getNetwork := w_getNetwork w;
     w_getNonce := w_getNonce w;
     w_getBlock := w_getBlock w;
     w_dateNow := w_dateNow w;
     w_fxrp := w_fxrp w;
     w_decimals := w_decimals w;
     w_balanceOf := fun _ _ _ => Resolved b;
     w_allowance := w_allowance w;
     w_relayerFee := w_relayerFee w;
     w_staticCall := w_staticCall w;
     w_estimateGas := w_estimateGas w;
     w_send := w_send w;
     w_sendBatch := w_sendBatch w;
     w_wait := w_wait w;
     w_getTransaction := w_getTransaction w |}.

(** [world] with another timestamp on the latest block. *)
Definition withBlockTime (t : Z) (w : World) : World :=
  {| w_getNetwork := w_getNetwork w;
     w_getNonce := w_getNonce w;
     w_getBlock := fun _ => Resolved (Some {| timestamp := t |});
     w_dateNow := w_dateNow w;
     w_fxrp := w_fxrp w;
     w_decimals := w_decimals w;
     w_balanceOf := w_balanceOf w;
     w_allowance := w_allowance w;
     w_relayerFee := w_relayerFee w;
     w_staticCall := w_staticCall w;
     w_estimateGas := w_estimateGas w;
     w_send := w_send w;
     w_sendBatch := w_sendBatch w;
     w_wait := w_wait w;
     w_getTransaction := w_getTransaction w |}.


(** An authorization that expired at 500, carrying bob's signature under
    alice's name. *)
Definition forgedExpired : PaymentRequest :=
  {| from := alice; to := bob; amount := "80"; fee := "10";
     deadline := 500; signature := bobSignature |}.

(** The same expired authorization, signed by alice. *)
Definition expired : PaymentRequest :=
  {| from := alice; to := bob; amount := "80"; fee := "10";
     deadline := 500; signature := aliceSignature |}.



(** A failure as ethers reports a revert with undecoded data. *)
Definition revertWithData : JsError :=
  {| message := "execution reverted"; reason := None;
     data := Some "0x8baa579f"; revert_name := None |}.

End Sample.

(* ================================================================== *)
(** ** More vocabulary for traces *)

(** The wait for inclusion. *)
Definition isWait (e : Event) : bool :=
  match e with EvWait _ _ => true | _ => false end.

(** The fetch of a submitted transaction by hash. *)
Definition isFetch (e : Event) : bool :=
  match e with EvGetTransaction _ _ => true | _ => false end.

(** The request [executePayment] validates for the arguments it submits:
    [normalizedRequest] of lines 124-131. *)
Definition normalizedOf (args : PaymentArgs) : PaymentRequest :=
  {| from := a_from args; to := a_to args;
     amount := JS.toString (a_amount args); fee := JS.toString (a_fee args);
     deadline := a_deadline args; signature := a_signature args |}.

(** ** More sample worlds *)

Module Scenario.

(** The sample world with its latest block, dry-run, estimate, submission,
    wait and fetch answered as given. *)
Definition worldWith (block : option Block) (sim : Settled unit)
    (est : Settled Z) (sent : Settled TransactionResponse)
    (waited : Settled (option TransactionReceipt))
    (fetched : Settled (option string)) : World :=
  {| w_getNetwork := w_getNetwork Sample.world;
     w_getNonce := w_getNonce Sample.world;
     w_getBlock := fun _ => Resolved block;
     w_dateNow := w_dateNow Sample.world;
     w_fxrp := w_fxrp Sample.world;
     w_decimals := w_decimals Sample.world;
     w_balanceOf := w_balanceOf Sample.world;
     w_allowance := w_allowance Sample.world;
     w_relayerFee := w_relayerFee Sample.world;
     w_staticCall := fun _ _ => sim;
     w_estimateGas := fun _ _ => est;
     w_send := fun _ _ _ => sent;
     w_sendBatch := w_sendBatch Sample.world;
     w_wait := fun _ _ => waited;
     w_getTransaction := fun _ _ => fetched |}.

Definition block1000 : option Block := Some {| timestamp := 1000 |}.
Definition accepted : Settled TransactionResponse := Resolved {| hash := "0xabc" |}.
Definition mined : Settled (option TransactionReceipt) :=
  Resolved (Some {| r_blockNumber := 42; r_gasUsed := Some 25000 |}).

(** A revert that carries a reason string. *)
Definition revertWithReason : JsError :=
  {| message := "execution reverted"; reason := Some "ExpiredRequest";
     data := Some "0x12345678"; revert_name := None |}.

(** The ledger has no block to give; the local clock reads 1000500 ms. *)
Definition noBlock : World :=
  worldWith None (Resolved tt) (Resolved 21001) accepted mined
            (Resolved (Some "0x1234")).

Definition failingDryRun : World :=
  worldWith block1000 (Rejected revertWithReason) (Resolved 21001) accepted
            mined (Resolved (Some "0x1234")).

Definition failingEstimate : World :=
  worldWith block1000 (Resolved tt) (Rejected (plainError "out of gas"))
            accepted mined (Resolved (Some "0x1234")).

Definition rejectingSend : World :=
  worldWith block1000 (Resolved tt) (Resolved 21001)
            (Rejected Sample.revertWithData) mined (Resolved (Some "0x1234")).



(** A request with a fee of 3, below the minimum of 5. *)
Definition lowFee : PaymentRequest :=
  {| from := Sample.alice; to := Sample.bob; amount := "80"; fee := "3";
     deadline := 2000; signature := Sample.aliceSignature |}.

(** A request whose signature is not one the recovery accepts. *)
Definition garbled : PaymentRequest :=
  {| from := Sample.alice; to := Sample.bob; amount := "80"; fee := "10";
     deadline := 2000;
     signature := Sample.aliceSignature ++ "00" |}.

(** The parameters the sample request was signed with. *)
Definition params : SignPaymentParams :=
  {| p_forwarderAddress := Sample.forwarder; p_to := Sample.bob;
     p_amount := 80; p_fee := 10; p_nonce := 7; p_deadline := 2000;
     p_chainId := 114 |}.

End Scenario.

(* ================================================================== *)
(** ** The read-only queries and the HTTP adapter of [relayer/index.ts] *)

Module JSString.

(** [s.split(sep)] for a non-empty separator: scan left to right, cut at
    each occurrence of [sep], resume after it.  [skip] counts the code
    units of an occurrence still to be passed over, [cur] is the piece
    being collected. *)
Fixpoint splitFrom (sep : string) (skip : nat) (cur : string) (s : string)
    : list string :=
  match s with
  | EmptyString => [cur]
  | String c r =>
      match skip with
      | S k => splitFrom sep k cur r
      | O =>
          if String.prefix sep s
          then cur :: splitFrom sep (String.length sep - 1) EmptyString r
          else splitFrom sep 0 (cur ++ String c EmptyString) r
      end
  end.

Definition split (s sep : string) : list string := splitFrom sep 0 "" s.

(** No occurrence of [sep] starts in [s]. *)
Fixpoint free (sep s : string) : bool :=
  match s with
  | EmptyString => true
  | String _ r => negb (String.prefix sep s) && free sep r
  end.

End JSString.

(** [JSON.parse] of a request body, taken at the type the handler gives
    its result; it throws on text that is not JSON. *)
Class Json := {
  parseRequest : string -> Settled PaymentRequest;
  parseRequests : string -> Settled (list PaymentRequest);
}.

(** What a handler passes to [JSON.stringify], or to [res.end] as text. *)
Inductive Body :=
| NoBody
| Text (s : string)
| JsonNonce (nonce : string)
| JsonFee (fee feeFormatted : string)
| JsonResult (r : ExecuteResult)
| JsonBatchResult (r : BatchExecuteResult)
| JsonError (error : string).

(** A response as written by [setHeader], [writeHead] and [end]. *)
Record Response := mkResponse {
  status : Z;
  headers : list (string * string);
  body : Body;
}.

(** The headers set on every response (lines 443-445). *)
Definition corsHeaders : list (string * string) :=
  [ ("Access-Control-Allow-Origin", "*");
    ("Access-Control-Allow-Methods", "POST, GET, OPTIONS");
    ("Access-Control-Allow-Headers", "Content-Type") ].

Definition jsonResponse (code : Z) (b : Body) : Response :=
  {| status := code;
     headers := (corsHeaders ++ [("Content-Type", "application/json")])%list;
     body := b |}.

(** The answer to a request no route takes (lines 524-525). *)
Definition notFound : Response :=
  {| status := 404; headers := corsHeaders; body := Text "Not found" |}.


Section Server.

Context {ext : Externals} {json : Json}.
Variable config : RelayerConfig.

(** [getNonce] (lines 406-408). *)
Definition getNonce (address : string) : Async Z :=
  await (fun w t => w_getNonce w t address) (EvGetNonce address).

(** [getRelayerFee] (lines 413-415). *)
Definition getRelayerFee : Async Z := await w_relayerFee EvRelayerFee.

(** [getTokenDecimals] (lines 420-424). *)
Definition getTokenDecimals : Async Z :=
  fxrpAddress <- await w_fxrp EvFxrp ;;
  await (fun w t => w_decimals w t fxrpAddress) (EvDecimals fxrpAddress).

(** Run [m] inside [try]: its outcome as a value. *)
Definition attempt {A} (m : Async A) : Async (Outcome A) :=
  fun w tr => let (o, tr') := m w tr in (Returned o, tr').

(** The request handler of [startServer] (lines 441-526), for a request
    with the given method and URL whose body chunks concatenate to
    [reqBody].  The result is the response written, or [None] when the
    handler's promise rejects instead: no response is written and the
    rejection is handled nowhere, which [serve] below takes up. *)
Definition handleRequest (method : string) (url : option string)
    (reqBody : string) : Async (option Response) :=
  if (method =? "OPTIONS")%string then
    ret (Some {| status := 200; headers := corsHeaders; body := NoBody |})
  else if (method =? "GET")%string
          && match url with
             | Some u => JS.startsWith u "/nonce/"
             | None => false
             end then
    (* Get nonce for an address *)
    let address :=
      match url with
      | Some u => nth_error (JSString.split u "/nonce/") 1
      | None => None
      end in
    match address with
    | Some address =>
        r <- attempt (getNonce address) ;;
        match r with
        | Returned nonce =>
            ret (Some (jsonResponse 200 (JsonNonce (JS.toString nonce))))
        | Thrown f =>
            ret (Some (jsonResponse 400 (JsonError (failureMessage f))))
        end
    | None =>
        (* [undefined]: not reached, a URL that starts with the separator
           splits in at least two pieces; the call would reject it *)
        ret (Some (jsonResponse 400 (JsonError "invalid address")))
    end
  else if (method =? "GET")%string
          && match url with
             | Some u => (u =? "/fee")%string
             | None => false
             end then
    (* Get relayer fee: [Promise.all] starts both queries; only when both
       resolve is a response written.  A rejection is not caught: the
       handler's promise rejects with it *)
    fee <- attempt getRelayerFee ;;
    decimals <- attempt getTokenDecimals ;;
    match fee, decimals with
    | Returned fee, Returned decimals =>
        ret (Some (jsonResponse 200
                     (JsonFee (JS.toString fee)
                              (formatUnits fee decimals ++ " FXRP"))))
    | _, _ => ret None
    end
  else if (method =? "POST")%string
          && match url with
             | Some u =>
                 match JSString.split u "?" with
                 | p :: _ => (p =? "/execute")%string
                 | [] => false
                 end
             | None => false
             end then
    (* Execute payment *)
    r <- attempt (request <- unwrap (parseRequest reqBody) ;;
                  executePayment config request) ;;
    match r with
    | Returned result => ret (Some (jsonResponse 200 (JsonResult result)))
    | Thrown f => ret (Some (jsonResponse 400 (JsonError (failureMessage f))))
    end
  else if (method =? "POST")%string
          && match url with
             | Some u => (u =? "/execute-batch")%string
             | None => false
             end then
    (* Execute batch payments *)
    r <- attempt (requests <- unwrap (parseRequests reqBody) ;;
                  executeBatchPayments config requests) ;;
    match r with
    | Returned result => ret (Some (jsonResponse 200 (JsonBatchResult result)))
    | Thrown f => ret (Some (jsonResponse 400 (JsonError (failureMessage f))))
    end
  else
    ret (Some notFound).


End Server.

(** A parser that knows one request body and one batch body. *)
Module ServerSample.

Definition requestBody : string := "{alice pays bob 80, fee 10}".
Definition batchBody : string := "[{alice pays bob 80, fee 10}]".

Definition sampleParse {A} (known : string) (value : A) (s : string)
    : Settled A :=
  if (s =? known)%string then Resolved value
  else Rejected (plainError "Unexpected token in JSON").

#[export] Instance json : Json := {
  parseRequest := sampleParse requestBody Sample.request;
  parseRequests := sampleParse batchBody [Sample.request];
}.

End ServerSample.

(* ================================================================== *)
(** ** The contract: [contracts/GaslessPaymentForwarder.sol]

    The contract the engine submits to.  A call runs against the contract's
    storage, the token's storage and the event log, and either returns them
    updated or reverts, in which case the transaction leaves them as they
    were.  [uint256] values are integers with the checked arithmetic of
    Solidity 0.8 written out; [keccak256] over an ABI encoding is taken to
    be injective, so a hash is represented by what was hashed. *)

Module Forwarder.

Definition address : Type := Z.
Definition bytes : Type := list Byte.byte.

(** [type(uint256).max]. *)
Definition MAX_UINT256 : Z := 2 ^ 256 - 1.

(** The custom errors the contract declares (lines 62-67), then the
    reverts of the code it calls: [ECDSA.recover] refusing a signature,
    the arithmetic panic, a token call that reverts or returns false under
    [SafeERC20], and [Ownable]'s refusal. *)
Inductive Revert :=
| InvalidSignature
| ExpiredRequest
| InvalidNonce
| UnauthorizedRelayer
| InsufficientAllowance
| ZeroAddress
| ECDSAInvalidSignature
| Panic (code : Z)
| SafeERC20FailedOperation
| OwnableUnauthorizedAccount (account : address).

Inductive Result (A : Type) : Type :=
| Ok (a : A)
| Reverted (r : Revert).

Arguments Ok {A} a.
Arguments Reverted {A} r.

Definition bind {A B} (m : Result A) (k : A -> Result B) : Result B :=
  match m with
  | Ok a => k a
  | Reverted r => Reverted r
  end.

Declare Scope sol_scope.
Delimit Scope sol_scope with sol.
Notation "x <- m ;; k" := (bind m (fun x => k))
  (at level 100, m at next level, right associativity) : sol_scope.
Notation "m ;;; k" := (bind m (fun _ => k))
  (at level 100, right associativity) : sol_scope.

(** Checked [a + b] on [uint256]: [Panic(0x11)] on overflow. *)
Definition add (a b : Z) : Result Z :=
  if a + b <=? MAX_UINT256 then Ok (a + b) else Reverted (Panic 17).

(** [struct PaymentRequest] (lines 284-291). *)
Record PaymentRequest := mkPaymentRequest {
  from : address;
  to : address;
  amount : Z;
  fee : Z;
  deadline : Z;
  signature : bytes;
}.

(** What [abi.encode(PAYMENT_REQUEST_TYPEHASH, ...)] is applied to. *)
Record StructHash := mkStructHash {
  h_from : address;
  h_to : address;
  h_amount : Z;
  h_fee : Z;
  h_nonce : Z;
  h_deadline : Z;
}.

(** What [_hashTypedDataV4] hashes: the domain separator of
    [EIP712("GaslessPaymentForwarder", "1")], which adds the chain id and
    the contract's own address, and the struct hash. *)
Record Digest := mkDigest {
  d_chainid : Z;
  d_verifyingContract : address;
  d_struct : StructHash;
}.

(** The events (lines 51-59). *)
Inductive Log :=
| PaymentExecuted (from to : address) (amount fee nonce : Z)
| RelayerAuthorized (relayer : address) (authorized : bool)
| RelayerFeeUpdated (newFee : Z).

(** The token, as far as the contract uses [IFAsset]: its storage, the
    [allowance] view and [transferFrom] called by [caller], which fails
    when the token reverts or returns false.  A token call changes the
    token's storage only: it does not call back into the contract, whose
    payment functions are [nonReentrant]. *)
Class IFAsset := {
  Token : Type;
  allowance : Token -> address -> address -> Z;
  transferFrom : address -> address -> address -> Z -> Token -> option Token;
}.

(** [ECDSA.recover]: the signer of a digest, unless the signature is
    refused. *)
Class ECDSA := {
  recover : Digest -> bytes -> option address;
}.

(** The storage of the contract (lines 36-42) and the owner kept by
    [Ownable]. *)
Record State := mkState {
  nonces : address -> Z;
  authorizedRelayers : address -> bool;
  relayerFee : Z;
  owner : address;
}.

(** The context of a call. *)
Record Env := mkEnv {
  msg_sender : address;
  block_timestamp : Z;
  block_chainid : Z;
  this : address;
}.

(** The same call in a block with another timestamp. *)
Definition atTime (t : Z) (env : Env) : Env :=
  {| msg_sender := msg_sender env; block_timestamp := t;
     block_chainid := block_chainid env; this := this env |}.

(** Assignment to one key of a mapping. *)
Definition assign {V} (m : address -> V) (k : address) (v : V)
    : address -> V :=
  fun a => if a =? k then v else m a.

Section Contract.

Context {token : IFAsset} {ecdsa : ECDSA}.

(** The contract's storage, the storage of the token [fxrp()] resolves to
    and the events emitted so far. *)
Record Chain := mkChain {
  storage : State;
  fxrp : Token;
  logs : list Log;
}.

Definition setNonce (a : address) (n : Z) (c : Chain) : Chain :=
  {| storage := {| nonces := assign (nonces (storage c)) a n;
                   authorizedRelayers := authorizedRelayers (storage c);
                   relayerFee := relayerFee (storage c);
                   owner := owner (storage c) |};
     fxrp := fxrp c; logs := logs c |}.

Definition emit (l : Log) (c : Chain) : Chain :=
  {| storage := storage c; fxrp := fxrp c; logs := (logs c ++ [l])%list |}.

(** [_fxrp.safeTransferFrom(from, to, value)], called by the contract. *)
Definition safeTransferFrom (env : Env) (from to : address) (value : Z)
    (c : Chain) : Result Chain :=
  match transferFrom (this env) from to value (fxrp c) with
  | Some t => Ok {| storage := storage c; fxrp := t; logs := logs c |}
  | None => Reverted SafeERC20FailedOperation
  end.

Definition _hashTypedDataV4 (env : Env) (structHash : StructHash) : Digest :=
  {| d_chainid := block_chainid env; d_verifyingContract := this env;
     d_struct := structHash |}.

(** [hash.recover(signature)]. *)
Definition recoverSigner (hash : Digest) (signature : bytes)
    : Result address :=
  match recover hash signature with
  | Some signer => Ok signer
  | None => Reverted ECDSAInvalidSignature
  end.

#[local] Open Scope sol_scope.

(** The constructor (lines 73-77): [Ownable(msg.sender)], all mappings
    empty. *)
Definition constructor (env : Env) (_relayerFee : Z) : State :=
  {| nonces := fun _ => 0; authorizedRelayers := fun _ => false;
     relayerFee := _relayerFee; owner := msg_sender env |}.

(** [executePayment] (lines 97-153). *)
Definition executePayment (env : Env) (from to : address)
    (amount fee deadline : Z) (signature : bytes) (c : Chain)
    : Result Chain :=
  (* Validate deadline *)
  if block_timestamp env >? deadline then Reverted ExpiredRequest else
  (* Get current nonce *)
  let currentNonce := nonces (storage c) from in
  (* Build the struct hash for EIP-712 *)
  let structHash :=
    {| h_from := from; h_to := to; h_amount := amount; h_fee := fee;
       h_nonce := currentNonce; h_deadline := deadline |} in
  (* Get the full EIP-712 hash *)
  let hash := _hashTypedDataV4 env structHash in
  (* Recover signer from signature *)
  signer <- recoverSigner hash signature ;;
  (* Verify the signer is the [from] address *)
  if negb (signer =? from) then Reverted InvalidSignature else
  (* Increment nonce (prevents replay) *)
  newNonce <- add currentNonce 1 ;;
  let c := setNonce from newNonce c in
  (* Check allowance *)
  totalAmount <- add amount fee ;;
  if allowance (fxrp c) from (this env) <? totalAmount
  then Reverted InsufficientAllowance else
  (* Execute the transfer: from -> to *)
  c <- safeTransferFrom env from to amount c ;;
  (* Transfer fee to relayer *)
  c <- (if fee >? 0 then safeTransferFrom env from (msg_sender env) fee c
        else Ok c) ;;
  Ok (emit (PaymentExecuted from to amount fee currentNonce) c).

(** [_executePaymentInternal] (lines 170-207). *)
Definition _executePaymentInternal (env : Env) (req : PaymentRequest)
    (c : Chain) : Result Chain :=
  if block_timestamp env >? deadline req then Reverted ExpiredRequest else
  let currentNonce := nonces (storage c) (from req) in
  let structHash :=
    {| h_from := from req; h_to := to req; h_amount := amount req;
       h_fee := fee req; h_nonce := currentNonce;
       h_deadline := deadline req |} in
  let hash := _hashTypedDataV4 env structHash in
  signer <- recoverSigner hash (signature req) ;;
  if negb (signer =? from req) then Reverted InvalidSignature else
  newNonce <- add currentNonce 1 ;;
  let c := setNonce (from req) newNonce c in
  totalAmount <- add (amount req) (fee req) ;;
  if allowance (fxrp c) (from req) (this env) <? totalAmount
  then Reverted InsufficientAllowance else
  c <- safeTransferFrom env (from req) (to req) (amount req) c ;;
  c <- (if fee req >? 0
        then safeTransferFrom env (from req) (msg_sender env) (fee req) c
        else Ok c) ;;
  Ok (emit (PaymentExecuted (from req) (to req) (amount req) (fee req)
                            currentNonce) c).

(** [executeBatchPayments] (lines 159-165): the loop over the requests. *)
Fixpoint executeBatchPayments (env : Env) (requests : list PaymentRequest)
    (c : Chain) : Result Chain :=
  match requests with
  | [] => Ok c
  | req :: rest =>
      c <- _executePaymentInternal env req c ;;
      executeBatchPayments env rest c
  end.

(** [getNonce] (lines 216-218). *)
Definition getNonce (account : address) (c : Chain) : Z :=
  nonces (storage c) account.

(** [getPaymentRequestHash] (lines 238-258). *)
Definition getPaymentRequestHash (env : Env) (from to : address)
    (amount fee nonce deadline : Z) : Digest :=
  let structHash :=
    {| h_from := from; h_to := to; h_amount := amount; h_fee := fee;
       h_nonce := nonce; h_deadline := deadline |} in
  _hashTypedDataV4 env structHash.

(** The modifier [onlyOwner] of [Ownable]. *)
Definition onlyOwner (env : Env) (c : Chain) : Result unit :=
  if msg_sender env =? owner (storage c) then Ok tt
  else Reverted (OwnableUnauthorizedAccount (msg_sender env)).

(** [setRelayerAuthorization] (lines 265-271). *)
Definition setRelayerAuthorization (env : Env) (relayer : address)
    (authorized : bool) (c : Chain) : Result Chain :=
  onlyOwner env c ;;;
  let c :=
    {| storage :=
         {| nonces := nonces (storage c);
            authorizedRelayers :=
              assign (authorizedRelayers (storage c)) relayer authorized;
            relayerFee := relayerFee (storage c);
            owner := owner (storage c) |};
       fxrp := fxrp c; logs := logs c |} in
  Ok (emit (RelayerAuthorized relayer authorized) c).

(** [setRelayerFee] (lines 277-280). *)
Definition setRelayerFee (env : Env) (_relayerFee : Z) (c : Chain)
    : Result Chain :=
  onlyOwner env c ;;;
  let c :=
    {| storage :=
         {| nonces := nonces (storage c);
            authorizedRelayers := authorizedRelayers (storage c);
            relayerFee := _relayerFee;
            owner := owner (storage c) |};
       fxrp := fxrp c; logs := logs c |} in
  Ok (emit (RelayerFeeUpdated _relayerFee) c).

(** A call of one of the state-changing functions the contract declares. *)
Inductive Call :=
| ExecutePayment (from to : address) (amount fee deadline : Z)
                 (signature : bytes)
| ExecuteBatchPayments (requests : list PaymentRequest)
| SetRelayerAuthorization (relayer : address) (authorized : bool)
| SetRelayerFee (_relayerFee : Z).

Definition call (env : Env) (x : Call) (c : Chain) : Result Chain :=
  match x with
  | ExecutePayment from to amount fee deadline signature =>
      executePayment env from to amount fee deadline signature c
  | ExecuteBatchPayments requests => executeBatchPayments env requests c
  | SetRelayerAuthorization relayer authorized =>
      setRelayerAuthorization env relayer authorized c
  | SetRelayerFee _relayerFee => setRelayerFee env _relayerFee c
  end.

(** The histories of a deployment: transactions that call the contract
    and do not revert, in any order and from any sender, with the token's
    storage and the owner free to change in between (other holders use
    the token; [Ownable] lets the owner hand over ownership). *)
Inductive history (c0 : Chain) : Chain -> Prop :=
| history_start : history c0 c0
| history_call env x c c' :
    history c0 c -> call env x c = Ok c' -> history c0 c'
| history_token c t :
    history c0 c ->
    history c0 {| storage := storage c; fxrp := t; logs := logs c |}
| history_owner c o :
    history c0 c ->
    history c0 {| storage := {| nonces := nonces (storage c);
                                authorizedRelayers :=
                                  authorizedRelayers (storage c);
                                relayerFee := relayerFee (storage c);
                                owner := o |};
                  fxrp := fxrp c; logs := logs c |}.

(** The chain right after deployment. *)
Definition deployed (env : Env) (_relayerFee : Z) (t : Token) : Chain :=
  {| storage := constructor env _relayerFee; fxrp := t; logs := [] |}.

(** The nonces of the payments logged for [account], oldest first. *)
Fixpoint executedNonces (account : address) (l : list Log) : list Z :=
  match l with
  | [] => []
  | PaymentExecuted from _ _ _ nonce :: rest =>
      if from =? account then nonce :: executedNonces account rest
      else executedNonces account rest
  | _ :: rest => executedNonces account rest
  end.

(** A signature is bound to the nonce it was made for: over two digests
    that differ in the nonce alone it does not recover to the same
    signer. *)
Definition signaturesBindNonce : Prop :=
  forall env from to amount fee deadline n n' sig a,
    recover (getPaymentRequestHash env from to amount fee n deadline) sig
    = Some a ->
    recover (getPaymentRequestHash env from to amount fee n' deadline) sig
    = Some a ->
    n = n'.

(** The nonces logged for an account are those below its current one, in
    order. *)
Definition noncesMatchLog (c : Chain) : Prop :=
  forall a,
    0 <= nonces (storage c) a
    /\ executedNonces a (logs c)
       = map Z.of_nat (seq 0 (Z.to_nat (nonces (storage c) a))).

(** The arguments of [executePayment] that a batch entry stands for. *)
Definition asCall (req : PaymentRequest) : Call :=
  ExecutePayment (from req) (to req) (amount req) (fee req) (deadline req)
                 (signature req).

(** The contract's storage with its configuration replaced. *)
Definition configured (auth : address -> bool) (minFee : Z) (o : address)
    (c : Chain) : Chain :=
  {| storage := {| nonces := nonces (storage c);
                   authorizedRelayers := auth; relayerFee := minFee;
                   owner := o |};
     fxrp := fxrp c; logs := logs c |}.

End Contract.

(** A plain ERC-20 ledger, to run the contract on. *)
Module SampleToken.

Record Ledger := mkLedger {
  balanceOf : address -> Z;
  allowances : address -> address -> Z;
}.

Definition sampleTransferFrom (caller from to : address) (value : Z)
    (l : Ledger) : option Ledger :=
  if (value <=? allowances l from caller) && (value <=? balanceOf l from)
  then Some {| balanceOf :=
                 assign (assign (balanceOf l) from (balanceOf l from - value))
                        to
                        (assign (balanceOf l) from (balanceOf l from - value) to
                         + value);
               allowances :=
                 fun o s =>
                   if (o =? from) && (s =? caller)
                   then allowances l from caller - value
                   else allowances l o s |}
  else None.

#[export] Instance ledger : IFAsset := {
  Token := Ledger;
  allowance := fun l o s => allowances l o s;
  transferFrom := sampleTransferFrom;
}.

(** A stand-in for signature recovery: a signature of two bytes names its
    signer in the first and the nonce it was made for in the second. *)
Definition sampleRecover (d : Digest) (sig : bytes) : option address :=
  match sig with
  | [signer; nonce] =>
      if Z.of_N (Byte.to_N nonce) =? h_nonce (d_struct d)
      then Some (Z.of_N (Byte.to_N signer))
      else None
  | _ => None
  end.

#[export] Instance ecdsa : ECDSA := { recover := sampleRecover }.

Definition alice : address := 1.
Definition bob : address := 2.
Definition relayer : address := 3.
Definition forwarder : address := 100.

(** Block time 1000 on chain 114, sent by [relayer]. *)
Definition env : Env :=
  {| msg_sender := relayer; block_timestamp := 1000; block_chainid := 114;
     this := forwarder |}.

(** [alice] holds 100 and has approved the forwarder for 90. *)
Definition funded : Ledger :=
  {| balanceOf := fun a => if a =? alice then 100 else 0;
     allowances := fun o s =>
       if (o =? alice) && (s =? forwarder) then 90 else 0 |}.

(** Deployed by [bob] with a minimum fee of 5. *)
Definition genesis : Chain :=
  deployed {| msg_sender := bob; block_timestamp := 900;
              block_chainid := 114; this := forwarder |} 5 funded.

(** [alice]'s signature for nonce 0. *)
Definition aliceSig0 : bytes := [Byte.x01; Byte.x00].

(** [alice] pays [bob] 80 with a fee of 10, valid until 2000. *)
Definition payment : PaymentRequest :=
  {| from := alice; to := bob; amount := 80; fee := 10; deadline := 2000;
     signature := aliceSig0 |}.

(** The chain after [relayer] has submitted [payment]. *)
Definition afterPayment : Chain :=
  match call env (asCall payment) genesis with
  | Ok c => c
  | Reverted _ => genesis
  end.

End SampleToken.

End Forwarder.

(* ================================================================== *)
(** * Properties *)

(** ** Facts about the built-ins *)

Module JSFacts.
Import JS.

Lemma allb_app p s1 s2 : allb p (s1 ++ s2) = allb p s1 && allb p s2.
Proof.
  induction s1 as [|c r IH]; simpl; [reflexivity|].
  now rewrite IH, andb_assoc.
Qed.

Lemma allb_rev p s : allb p (rev s) = allb p s.
Proof.
  induction s as [|c r IH]; simpl; [reflexivity|].
  rewrite allb_app, IH. simpl. rewrite andb_true_r. apply andb_comm.
Qed.

Lemma append_empty_r s : s ++ "" = s.
Proof. induction s; simpl; congruence. Qed.

Lemma append_assoc s1 s2 s3 : (s1 ++ s2) ++ s3 = s1 ++ (s2 ++ s3).
Proof. induction s1; simpl; congruence. Qed.

Lemma rev_app s1 s2 : rev (s1 ++ s2) = rev s2 ++ rev s1.
Proof.
  induction s1 as [|c r IH]; simpl.
  - now rewrite append_empty_r.
  - now rewrite IH, append_assoc.
Qed.

Lemma rev_involutive s : rev (rev s) = s.
Proof.
  induction s as [|c r IH]; simpl; [reflexivity|].
  rewrite rev_app, IH. reflexivity.
Qed.

Lemma signChar_not_white c : signChar c = true -> isWhiteSpace c = false.
Proof.
  destruct c as [[|] [|] [|] [|] [|] [|] [|] [|]]; vm_compute; congruence.
Qed.

(** Lower-casing identifies exactly the code units that are the same
    letter: checked on all 256 x 256 pairs. *)
Lemma lowerChar_table :
  forallb (fun c =>
             forallb (fun d =>
                        Bool.eqb (Ascii.eqb (lowerChar c) (lowerChar d))
                                 (sameLetter c d))
                     (map ascii_of_nat (seq 0 256)))
          (map ascii_of_nat (seq 0 256))
  = true.
Proof. vm_compute. reflexivity. Qed.

Lemma codeUnit_listed c : In c (map ascii_of_nat (seq 0 256)).
Proof.
  rewrite <- (ascii_nat_embedding c). apply in_map, in_seq.
  pose proof (nat_ascii_bounded c). lia.
Qed.

Lemma lowerChar_eq_iff c d :
  lowerChar c = lowerChar d <-> sameLetter c d = true.
Proof.
  pose proof lowerChar_table as H. rewrite forallb_forall in H.
  specialize (H c (codeUnit_listed c)). rewrite forallb_forall in H.
  specialize (H d (codeUnit_listed d)). apply Bool.eqb_prop in H.
  rewrite <- H. symmetry. apply Ascii.eqb_eq.
Qed.

(** [toLowerCase] compares strings up to the case of their letters. *)
Lemma toLowerCase_eq_iff s t :
  toLowerCase s = toLowerCase t <-> equalIgnoringCase s t = true.
Proof.
  revert t. induction s as [|c s IH]; intros [|d t];
    cbn [toLowerCase equalIgnoringCase]; try (split; congruence).
  rewrite andb_true_iff, <- lowerChar_eq_iff, <- IH.
  split; [intros H; injection H; auto|intros [-> ->]; reflexivity].
Qed.

Lemma trimStart_id s : allb signChar s = true -> trimStart s = s.
Proof.
  destruct s as [|c r]; simpl; [reflexivity|].
  intros H. apply andb_prop in H as [Hc _].
  now rewrite (signChar_not_white _ Hc).
Qed.

(** Trimming leaves a string of digits and signs alone. *)
Lemma trim_id s : allb signChar s = true -> trim s = s.
Proof.
  intros H. unfold trim.
  rewrite (trimStart_id s H), trimStart_id by now rewrite allb_rev.
  apply rev_involutive.
Qed.

Lemma trimStart_app x r :
  trimStart (x ++ r)
  = if allb isWhiteSpace x then trimStart r else trimStart x ++ r.
Proof.
  induction x as [|c x IH]; cbn [append trimStart allb]; [reflexivity|].
  destruct (isWhiteSpace c); cbn [andb]; [exact IH|reflexivity].
Qed.

Lemma trimStart_white r : allb isWhiteSpace r = true -> trimStart r = "".
Proof.
  induction r as [|c r IH]; cbn [allb trimStart]; [reflexivity|].
  intros H. apply andb_prop in H as [-> Hr]. exact (IH Hr).
Qed.

(** White space on either side of a string is dropped by [trim], so a
    literal means the same to [BigInt] with or without it; the no-break
    space is white space. *)
Lemma trim_padding l s r :
  allb isWhiteSpace l = true -> allb isWhiteSpace r = true ->
  trim (l ++ s ++ r) = trim s.
Proof.
  intros Hl Hr. unfold trim.
  rewrite (trimStart_app l), Hl, (trimStart_app s).
  destruct (allb isWhiteSpace s) eqn:Hs.
  - now rewrite (trimStart_white r Hr), (trimStart_white s Hs).
  - rewrite rev_app, trimStart_app, allb_rev, Hr. reflexivity.
Qed.

Lemma StringToBigInt_padding l s r :
  allb isWhiteSpace l = true -> allb isWhiteSpace r = true ->
  StringToBigInt (l ++ s ++ r) = StringToBigInt s.
Proof.
  intros Hl Hr. unfold StringToBigInt. now rewrite trim_padding.
Qed.

Lemma noBreakSpace_is_white : isWhiteSpace (ascii_of_nat 160) = true.
Proof. reflexivity. Qed.

Lemma digits_of_uint d : allb isDecimalDigit (NilEmpty.string_of_uint d) = true.
Proof. induction d; simpl; auto. Qed.

Lemma allb_weaken (p q : ascii -> bool) s :
  (forall c, p c = true -> q c = true) -> allb p s = true -> allb q s = true.
Proof.
  intros Hpq. induction s as [|c r IH]; simpl; [reflexivity|].
  intros H. apply andb_prop in H as [Hc Hr].
  now rewrite (Hpq _ Hc), IH.
Qed.

Lemma isDecimalDigit_cases c :
  isDecimalDigit c = true ->
  (c = "0" \/ c = "1" \/ c = "2" \/ c = "3" \/ c = "4" \/
   c = "5" \/ c = "6" \/ c = "7" \/ c = "8" \/ c = "9")%char.
Proof.
  destruct c as [[|] [|] [|] [|] [|] [|] [|] [|]]; vm_compute;
    intros H; try discriminate H; tauto.
Qed.

(** On a nonempty string of decimal digits the literal is read as
    [DecimalDigits]. *)
Lemma StringToBigInt_digits s :
  s <> "" -> allb isDecimalDigit s = true ->
  StringToBigInt s = decimalDigits s.
Proof.
  intros Hne Hd. unfold StringToBigInt.
  rewrite trim_id
    by (eapply allb_weaken; [|exact Hd]; intros c Hc; unfold signChar;
        now rewrite Hc).
  destruct s as [|c r]; [congruence|].
  simpl in Hd. apply andb_prop in Hd as [Hc Hr].
  apply isDecimalDigit_cases in Hc.
  destruct r as [|c2 r2].
  - repeat (destruct Hc as [Hc|Hc]; [subst c; reflexivity|]).
    subst c; reflexivity.
  - simpl in Hr. apply andb_prop in Hr as [Hc2 _].
    apply isDecimalDigit_cases in Hc2.
    repeat (destruct Hc as [Hc|Hc]; [subst c; try reflexivity|]);
      try (subst c; reflexivity).
    repeat (destruct Hc2 as [Hc2|Hc2]; [subst c2; reflexivity|]).
    subst c2; reflexivity.
Qed.

Lemma decimalDigits_of_uint d :
  d <> Nil ->
  decimalDigits (NilEmpty.string_of_uint d) = Some (Z.of_uint d).
Proof.
  intros Hd. unfold decimalDigits.
  rewrite NilEmpty.usu. destruct d; simpl; congruence.
Qed.

Lemma string_of_uint_nonempty d : d <> Nil -> NilEmpty.string_of_uint d <> "".
Proof. destruct d; simpl; congruence. Qed.

Lemma pos_to_uint_nonnil p : Pos.to_uint p <> Nil.
Proof.
  intros H. pose proof (DecimalPos.Unsigned.of_to p) as E.
  rewrite H in E. discriminate E.
Qed.

Lemma Z_of_pos_uint p : Z.of_uint (Pos.to_uint p) = Z.pos p.
Proof.
  unfold Z.of_uint. now rewrite DecimalPos.Unsigned.of_to.
Qed.

(** [BigInt(n.toString()) === n] for every integer. *)
Lemma StringToBigInt_toString z : StringToBigInt (toString z) = Some z.
Proof.
  unfold toString. destruct z as [|p|p]; simpl.
  - reflexivity.
  - pose proof (pos_to_uint_nonnil p) as Hn.
    assert (Hs : NilZero.string_of_uint (Pos.to_uint p)
                 = NilEmpty.string_of_uint (Pos.to_uint p))
      by (unfold NilZero.string_of_uint; destruct (Pos.to_uint p); congruence).
    rewrite Hs, StringToBigInt_digits.
    + rewrite decimalDigits_of_uint by exact Hn.
      now rewrite Z_of_pos_uint.
    + now apply string_of_uint_nonempty.
    + apply digits_of_uint.
  - pose proof (pos_to_uint_nonnil p) as Hn.
    assert (Hs : NilZero.string_of_uint (Pos.to_uint p)
                 = NilEmpty.string_of_uint (Pos.to_uint p))
      by (unfold NilZero.string_of_uint; destruct (Pos.to_uint p); congruence).
    rewrite Hs. unfold StringToBigInt.
    rewrite trim_id.
    + rewrite decimalDigits_of_uint by exact Hn.
      simpl. now rewrite Z_of_pos_uint.
    + simpl. eapply allb_weaken; [|apply digits_of_uint].
      intros c Hc. unfold signChar. now rewrite Hc.
Qed.

End JSFacts.

(** ** Symbolic execution of engine code *)

Ltac unfold_engine :=
  cbv [executePayment validateRequest enrichRevertErrorAsync enrichRevertError
       bind await call unwrap ret throw BigInt dateNow].

(** Split on the innermost scrutinee that is still undetermined. *)
Ltac split_innermost :=
  match goal with
  | |- context [match ?x with _ => _ end] =>
      lazymatch x with
      | context [match _ with _ => _ end] => fail
      | _ => destruct x eqn:?
      end
  end.

Ltac run_engine :=
  unfold_engine;
  repeat (cbn [List.length List.app fst snd
               from to amount fee deadline signature hash];
          rewrite ?JSFacts.StringToBigInt_toString;
          try split_innermost).

(** A trace given event by event never contains what it does not list. *)
Ltac solve_never := unfold never; repeat constructor.

(** Case analysis of membership in a trace given event by event. *)
Ltac invert_In H :=
  cbn [In] in H;
  repeat (destruct H as [H|H]; [try discriminate H|]);
  try contradiction.

(** Membership in a trace given event by event. *)
Ltac solve_In := cbn [In]; repeat (first [left; reflexivity | right]).

(** Use the equations between settled values collected along a path. *)
Ltac simplify_settled :=
  repeat match goal with
    | H : Resolved _ = Resolved _ |- _ => injection H as H; try subst
    | H : Some _ = Some _ |- _ => injection H as H; try subst
    | H : Rejected _ = Resolved _ |- _ => discriminate H
    | H : Resolved _ = Rejected _ |- _ => discriminate H
    | H : None = Some _ |- _ => discriminate H
    | H : Some _ = None |- _ => discriminate H
    | H : ?x = ?x |- _ => clear H
    end.

(** The events a validation appends, read off a path. *)
Ltac new_events H evs :=
  rewrite <- ?app_assoc in H; apply app_inv_head in H; subst evs;
  cbn [List.app] in *.

Section EngineProperties.

Context {ext : Externals}.
Variable config : RelayerConfig.

(** *** Request normalizer *)

(** C8. A request whose sender or recipient is not an address, whose
    amount or fee is not an integer literal, or whose signature has fewer
    than 130 characters makes [executePayment] fail with an empty trace:
    no ledger read or write, nor any other interaction, is issued.  Any
    other request gets as far as the read of the chain id. *)
Theorem malformed_request_fails_before_any_call w req :
  ((exists e, getAddress (from req) = Rejected e)
   \/ (exists e, getAddress (to req) = Rejected e)
   \/ JS.StringToBigInt (amount req) = None
   \/ JS.StringToBigInt (fee req) = None
   \/ (String.length (signature req) < 130)%nat ->
   exists f, executePayment config req w [] = (Thrown f, []))
  /\ (forall sender recipient a f,
        getAddress (from req) = Resolved sender ->
        getAddress (to req) = Resolved recipient ->
        JS.StringToBigInt (amount req) = Some a ->
        JS.StringToBigInt (fee req) = Some f ->
        (130 <= String.length (signature req))%nat ->
        exists rest,
          snd (executePayment config req w [])
          = EvGetNetwork (w_getNetwork w 0) :: rest).
Proof.
  split.
  - intros H. unfold_engine.
    destruct (getAddress (from req)) eqn:Ef; [|eauto].
    destruct (getAddress (to req)) eqn:Et; [|eauto].
    destruct (JS.StringToBigInt (amount req)) eqn:Ea; [|eauto].
    destruct (JS.StringToBigInt (fee req)) eqn:Efee; [|eauto].
    destruct (String.length (signature req) <? 130)%nat eqn:El; [eauto|].
    apply Nat.ltb_ge in El.
    destruct H as [[e H]|[[e H]|[H|[H|H]]]]; try discriminate H.
    lia.
  - intros sender recipient a f Hs Hr Ha Hf Hlen.
    apply Nat.ltb_ge in Hlen. run_engine.
    all: simplify_settled; try congruence.
    all: eexists; reflexivity.
Qed.

(** *** Submission pipeline *)


(** The margin arithmetic of line 211 on a non-negative estimate. *)
Lemma gasLimit_floor E :
  0 <= E ->
  let g := Z.quot (E * 130) 100 in
  100 * g <= 130 * E < 100 * (g + 1)
  /\ (13 * E <= 10 * g <-> E mod 10 = 0)
  /\ E <= g.
Proof.
  intros HE g. subst g.
  rewrite Z.quot_div_nonneg by lia.
  split; [|split; [split; intros H|]];
    Z.to_euclidean_division_equations; lia.
Qed.

(** C3, as the code has it.  Whenever the estimate succeeds with a
    non-negative value [E], the transaction is sent, with the estimated
    arguments and the ceiling [floor (130 * E / 100)]: at most [1.3 * E],
    more than [1.3 * E - 1], equal to [1.3 * E] exactly when [E] is a
    multiple of ten, and never below [E]. *)
Theorem gas_ceiling_is_floor_of_margin w req args E :
  let run := executePayment config req w [] in
  In (EvEstimateGas args (Resolved E)) (snd run) ->
  0 <= E ->
  exists g r,
    In (EvSend args g r) (snd run)
    /\ (forall args' g' r',
          In (EvSend args' g' r') (snd run) -> args' = args /\ g' = g)
    /\ g = Z.quot (E * 130) 100
    /\ 100 * g <= 130 * E < 100 * (g + 1)
    /\ (13 * E <= 10 * g <-> E mod 10 = 0)
    /\ E <= g.
Proof.
  cbv zeta. run_engine.
  all: intros H HE; invert_In H.
  all: injection H as <- <-.
  all: do 2 eexists; split; [solve_In|].
  all: split;
    [ intros args' g' r' H'; invert_In H'; injection H' as <- <- _;
      split; reflexivity
    | split; [reflexivity | apply (gasLimit_floor _ HE)] ].
Qed.

(** *** Signature verifier *)

(** The outcome of the signature check.  For a request that normalizes
    to sender, recipient, amount and fee, with [chain] the chain id read
    from the network, [nonce] the first replay counter read for the sender
    and [fwd] the configured forwarder address: a recovery that throws
    gives the signature-format error with its message; a recovered
    address that differs from the sender in more than the case of letters
    gives the signer mismatch; one that differs in case at most gives
    neither. *)
Lemma signature_check_outcome w req sender recipient a f chain nonce fwd :
  let run := executePayment config req w [] in
  let sig := if JS.startsWith (signature req) "0x" then signature req
             else "0x" ++ signature req in
  getAddress (from req) = Resolved sender ->
  getAddress (to req) = Resolved recipient ->
  JS.StringToBigInt (amount req) = Some a ->
  JS.StringToBigInt (fee req) = Some f ->
  (130 <= String.length (signature req))%nat ->
  In (EvGetNetwork (Resolved chain)) (snd run) ->
  hd_error (nonceReads (snd run)) = Some nonce ->
  getAddress (forwarderAddress config) = Resolved fwd ->
  let recovery :=
    recoverTypedDataAddress
      {| name := EIP712_name; version := EIP712_version;
         chainId := chain; verifyingContract := fwd |}
      {| m_from := sender; m_to := recipient; m_amount := a; m_fee := f;
         m_nonce := nonce; m_deadline := deadline req |}
      sig in
  (forall e,
      recovery = Rejected e ->
      fst run = Thrown (InvalidSignatureFormat (message e)))
  /\ (forall recovered,
        recovery = Resolved recovered ->
        (equalIgnoringCase recovered sender = false ->
         fst run = Thrown (SignerMismatch recovered sender chain nonce))
        /\ (equalIgnoringCase recovered sender = true ->
            forall r e c n, fst run <> Thrown (SignerMismatch r e c n))).
Proof.
  cbv zeta. intros Hs Hr Ha Hf Hlen Hchain Hnonce Hfwd.
  revert Hchain Hnonce. run_engine.
  all: cbn [nonceReads hd_error fst snd]; intros Hchain Hnonce.
  all: simplify_settled.
  all: try (apply Nat.ltb_lt in Heqb; lia).
  all: invert_In Hchain; injection Hchain as ->; simplify_settled.
  all: repeat match goal with
         | E : negb (_ =? _)%string = true |- _ =>
             apply negb_true_iff, String.eqb_neq in E;
             rewrite JSFacts.toLowerCase_eq_iff in E;
             apply not_true_is_false in E
         | E : negb (_ =? _)%string = false |- _ =>
             apply negb_false_iff, String.eqb_eq in E;
             apply JSFacts.toLowerCase_eq_iff in E
         end.
  all: split;
    [ intros ? He; rewrite He in *; simplify_settled;
      first [reflexivity | congruence]
    | intros ? Hrec; rewrite Hrec in *; simplify_settled;
      split; intros Hcase;
      first [reflexivity | congruence | intros; discriminate] ].
Qed.


(** Sign, then verify.  A request made by [createPaymentRequest] for a
    wallet whose address, recipient and forwarder are in canonical form,
    with a signature that recovers to the wallet under the typed data
    [signPaymentRequest] signs, is not rejected by the signature verifier
    as long as the relayer reads the chain id and the counter the signer
    used. *)
Lemma created_request_passes_verification w walletAddress params sig :
  let req := createdRequest walletAddress params sig in
  let run := executePayment config req w [] in
  getAddress walletAddress = Resolved walletAddress ->
  getAddress (p_to params) = Resolved (p_to params) ->
  forwarderAddress config = p_forwarderAddress params ->
  getAddress (p_forwarderAddress params) = Resolved (p_forwarderAddress params) ->
  JS.startsWith sig "0x" = true ->
  recoverTypedDataAddress (signedDomain params)
    (signedMessage walletAddress params) sig = Resolved walletAddress ->
  In (EvGetNetwork (Resolved (p_chainId params))) (snd run) ->
  hd_error (nonceReads (snd run)) = Some (p_nonce params) ->
  (forall r e c n, fst run <> Thrown (SignerMismatch r e c n))
  /\ (forall m, fst run <> Thrown (InvalidSignatureFormat m)).
Proof.
  cbv zeta. unfold createdRequest, signedDomain, signedMessage.
  intros Hw Ht Hcfg Hf Hp Hrec Hchain Hnonce.
  revert Hchain Hnonce. run_engine.
  all: cbn [nonceReads hd_error fst snd]; intros Hchain Hnonce.
  all: try (split; intros; discriminate).
  all: simplify_settled.
  all: invert_In Hchain; injection Hchain as ->; simplify_settled.
  all: rewrite Hcfg in *; rewrite Hf in *; simplify_settled.
  all: rewrite Hrec in *; simplify_settled.
  all: rewrite String.eqb_refl in *; discriminate.
Qed.

(** *** Ledger state checker *)

(** Validation reads the latest block first and compares the deadline
    with its timestamp; the signature takes no part. *)
Lemma validateRequest_expired w req tr blk s :
  w_getBlock w (List.length tr) = Resolved (Some blk) ->
  deadline req <= timestamp blk ->
  validateRequest config (withSignature s req) w tr
  = (Thrown (RequestExpired (deadline req) (timestamp blk)),
     (tr ++ [EvGetBlock (Resolved (Some blk))])%list).
Proof.
  intros Hb Hd. unfold_engine. rewrite Hb.
  cbn [deadline withSignature].
  apply Z.leb_le in Hd. now rewrite Hd.
Qed.

(** In [executePayment] the ledger time is read only after the signature
    has been recovered and found to match. *)
Lemma executePayment_expired w req :
  let run := executePayment config req w [] in
  (forall blk,
      In (EvGetBlock (Resolved (Some blk))) (snd run) ->
      deadline req <= timestamp blk ->
      fst run = Thrown (RequestExpired (deadline req) (timestamp blk)))
  /\ (forall d c,
        fst run = Thrown (RequestExpired d c) ->
        exists sender recipient a f chain nonce fwd recovered,
          getAddress (from req) = Resolved sender
          /\ getAddress (to req) = Resolved recipient
          /\ JS.StringToBigInt (amount req) = Some a
          /\ JS.StringToBigInt (fee req) = Some f
          /\ getAddress (forwarderAddress config) = Resolved fwd
          /\ In (EvGetNetwork (Resolved chain)) (snd run)
          /\ hd_error (nonceReads (snd run)) = Some nonce
          /\ recoverTypedDataAddress
               {| name := EIP712_name; version := EIP712_version;
                  chainId := chain; verifyingContract := fwd |}
               {| m_from := sender; m_to := recipient; m_amount := a;
                  m_fee := f; m_nonce := nonce;
                  m_deadline := deadline req |}
               (if JS.startsWith (signature req) "0x" then signature req
                else "0x" ++ signature req)
             = Resolved recovered
          /\ JS.toLowerCase recovered = JS.toLowerCase sender).
Proof.
  cbv zeta. run_engine.
  all: cbn [nonceReads hd_error fst snd].
  all: split;
    [ intros blk H Hd; invert_In H; injection H as ->;
      apply Z.leb_le in Hd; congruence
    | intros d c H; try discriminate H ].
  all: match goal with
       | E : negb (_ =? _)%string = false |- _ =>
           apply negb_false_iff, String.eqb_eq in E
       end.
  all: do 8 eexists; repeat apply conj; try eassumption;
    try reflexivity; solve_In.
Qed.

(** C1, as the code has it.  [validateRequest] fails with the expiry
    error for every authorization whose expiration is at most the
    timestamp of the latest block, whatever its signature.
    [executePayment] recovers the signer before it validates: it fails
    with the expiry error whenever it reads a ledger time at or past the
    expiration, and it reports the expiry error only for a signature that
    recovered, over the typed data built from the chain id and the counter
    the run has read, to the claimed sender up to the case of letters.
    When the signature does not recover to the claimed sender the failure
    is the signature error, whatever the expiration: the format error when
    recovery throws, the signer mismatch when it yields another address. *)
Theorem expiry_checked_after_signature w req :
  let run := executePayment config req w [] in
  let sig := if JS.startsWith (signature req) "0x" then signature req
             else "0x" ++ signature req in
  (forall tr blk s,
      w_getBlock w (List.length tr) = Resolved (Some blk) ->
      deadline req <= timestamp blk ->
      validateRequest config (withSignature s req) w tr
      = (Thrown (RequestExpired (deadline req) (timestamp blk)),
         (tr ++ [EvGetBlock (Resolved (Some blk))])%list))
  /\ (forall blk,
        In (EvGetBlock (Resolved (Some blk))) (snd run) ->
        deadline req <= timestamp blk ->
        fst run = Thrown (RequestExpired (deadline req) (timestamp blk)))
  /\ (forall d c,
        fst run = Thrown (RequestExpired d c) ->
        exists sender recipient a f chain nonce fwd recovered,
          getAddress (from req) = Resolved sender
          /\ getAddress (to req) = Resolved recipient
          /\ JS.StringToBigInt (amount req) = Some a
          /\ JS.StringToBigInt (fee req) = Some f
          /\ getAddress (forwarderAddress config) = Resolved fwd
          /\ In (EvGetNetwork (Resolved chain)) (snd run)
          /\ hd_error (nonceReads (snd run)) = Some nonce
          /\ recoverTypedDataAddress
               {| name := EIP712_name; version := EIP712_version;
                  chainId := chain; verifyingContract := fwd |}
               {| m_from := sender; m_to := recipient; m_amount := a;
                  m_fee := f; m_nonce := nonce;
                  m_deadline := deadline req |}
               sig
             = Resolved recovered
          /\ equalIgnoringCase recovered sender = true)
  /\ (forall sender recipient a f chain nonce fwd,
        getAddress (from req) = Resolved sender ->
        getAddress (to req) = Resolved recipient ->
        JS.StringToBigInt (amount req) = Some a ->
        JS.StringToBigInt (fee req) = Some f ->
        (130 <= String.length (signature req))%nat ->
        In (EvGetNetwork (Resolved chain)) (snd run) ->
        hd_error (nonceReads (snd run)) = Some nonce ->
        getAddress (forwarderAddress config) = Resolved fwd ->
        let recovery :=
          recoverTypedDataAddress
            {| name := EIP712_name; version := EIP712_version;
               chainId := chain; verifyingContract := fwd |}
            {| m_from := sender; m_to := recipient; m_amount := a;
               m_fee := f; m_nonce := nonce; m_deadline := deadline req |}
            sig in
        (forall e,
            recovery = Rejected e ->
            fst run = Thrown (InvalidSignatureFormat (message e)))
        /\ (forall recovered,
              recovery = Resolved recovered ->
              equalIgnoringCase recovered sender = false ->
              fst run = Thrown (SignerMismatch recovered sender chain nonce))).
Proof.
  cbv zeta. split; [|split; [|split]].
  - intros tr blk s. apply validateRequest_expired.
  - apply (executePayment_expired w req).
  - intros d c H.
    destruct (proj2 (executePayment_expired w req) d c H)
      as (sender & recipient & a & f & chain & nonce & fwd & recovered
          & Hs & Ht & Ha & Hf & Hfwd & Hchain & Hnonce & Hrec & Hlow).
    exists sender, recipient, a, f, chain, nonce, fwd, recovered.
    apply JSFacts.toLowerCase_eq_iff in Hlow. repeat apply conj; assumption.
  - intros sender recipient a f chain nonce fwd Hs Ht Ha Hf Hlen Hchain
           Hnonce Hfwd.
    destruct (signature_check_outcome w req sender recipient a f chain nonce
                fwd Hs Ht Ha Hf Hlen Hchain Hnonce Hfwd) as [Hfmt Hrec].
    split; [exact Hfmt|].
    intros recovered Hr Hcase. exact (proj1 (Hrec recovered Hr) Hcase).
Qed.

(** C5. In a validation that reads the sender's balance, for a request
    whose amount and fee parse to [a] and [f]: the failure is the
    insufficient-balance error exactly when [balance < a + f]; at
    [balance = a + f] (and above) the check passes and the allowance is
    queried next; the error message gives [a + f] and the balance
    formatted with the decimals read from the token. *)
Theorem insufficient_balance_iff w req tr evs token balance a f :
  let run := validateRequest config req w tr in
  snd run = (tr ++ evs)%list ->
  In (EvBalanceOf token (from req) (Resolved balance)) evs ->
  JS.StringToBigInt (amount req) = Some a ->
  JS.StringToBigInt (fee req) = Some f ->
  exists decimals,
    In (EvDecimals token (Resolved decimals)) evs
    /\ ((exists r v d, fst run = Thrown (InsufficientBalance r v d))
        <-> balance < a + f)
    /\ (balance < a + f ->
        fst run = Thrown (InsufficientBalance (a + f) balance decimals))
    /\ (a + f <= balance ->
        exists r, In (EvAllowance token (from req)
                                  (forwarderAddress config) r) evs)
    /\ failureMessage (InsufficientBalance (a + f) balance decimals)
       = "Insufficient FXRP balance. Required: "
         ++ formatUnits (a + f) decimals
         ++ ", Available: " ++ formatUnits balance decimals.
Proof.
  cbv zeta. intros Hevs Hin Ha Hf. revert Hevs. run_engine.
  all: intros Hevs; new_events Hevs evs.
  all: invert_In Hin; injection Hin as -> ->; simplify_settled.
  all: eexists; split; [solve_In|].
  all: repeat match goal with
         | E : (_ <? _) = true |- _ => apply Z.ltb_lt in E
         | E : (_ <? _) = false |- _ => apply Z.ltb_ge in E
         end.
  all: split;
    [ split;
      [ intros (? & ? & ? & H); try discriminate H; assumption
      | intros H; try lia; eauto ]
    | split;
      [ intros H; try lia; reflexivity
      | split;
        [ intros H; try lia; eexists; solve_In
        | reflexivity ] ] ].
Qed.

(** C6. In an [executePayment] that reads the allowance the sender
    granted to the forwarder, with [a] and [f] the parsed amount and fee:
    if [allowance < a + f] the failure is the insufficient-allowance
    error carrying the required total [a + f], and the trace holds no
    dry-run, no cost estimate and no submission; at [allowance = a + f]
    (and above) the check passes and the minimum fee is read next. *)
Theorem insufficient_allowance_stops_pipeline
    w req sender token allowance a f :
  let run := executePayment config req w [] in
  getAddress (from req) = Resolved sender ->
  JS.StringToBigInt (amount req) = Some a ->
  JS.StringToBigInt (fee req) = Some f ->
  In (EvAllowance token sender (forwarderAddress config) (Resolved allowance))
     (snd run) ->
  (allowance < a + f ->
   exists decimals,
     fst run = Thrown (InsufficientAllowance (a + f) allowance decimals)
     /\ failureMessage (InsufficientAllowance (a + f) allowance decimals)
        = "Insufficient FXRP allowance. Required: "
          ++ formatUnits (a + f) decimals
          ++ ", Approved: " ++ formatUnits allowance decimals
     /\ never isDryRun (snd run)
     /\ never isEstimate (snd run)
     /\ never isSubmit (snd run))
  /\ (a + f <= allowance ->
      (forall r v d, fst run <> Thrown (InsufficientAllowance r v d))
      /\ exists r, In (EvRelayerFee r) (snd run)).
Proof.
  cbv zeta. intros Hs Ha Hf Hin. revert Hin. run_engine.
  all: cbn [fst snd]; intros Hin.
  all: invert_In Hin; injection Hin as -> ->; simplify_settled.
  all: repeat match goal with
         | E : (_ <? _) = true |- _ => apply Z.ltb_lt in E
         | E : (_ <? _) = false |- _ => apply Z.ltb_ge in E
         end.
  all: split; intros H; try lia.
  all: try (split; [ intros r v d; discriminate | eexists; solve_In ]).
  all: eexists; split; [reflexivity|]; split; [reflexivity|].
  all: split; [solve_never | split; solve_never].
Qed.

(** *** Batch submission path *)

(** What one validation appends to the trace. *)
Lemma validateRequest_trace w req tr :
  exists evs,
    snd (validateRequest config req w tr) = (tr ++ evs)%list
    /\ Forall (fun e => isValidationRead e = true) evs
    /\ (forall u, fst (validateRequest config req w tr) = Returned u ->
        passingValidation config req evs).
Proof.
  run_engine.
  all: eexists; split; [rewrite <- ?app_assoc; reflexivity|].
  all: cbn [List.app]; split; [repeat constructor|].
  all: intros u H; try discriminate H.
  all: repeat match goal with
         | E : (_ <? _) = false |- _ => apply Z.ltb_ge in E
         | E : (_ <=? _) = false |- _ => apply Z.leb_gt in E
         end.
  - exists [EvGetBlock (Resolved (Some b))].
    do 8 eexists. split; [left; eauto|].
    split; [reflexivity|]. repeat apply conj; eassumption.
  - exists [EvGetBlock (Resolved None); EvDateNow (w_dateNow w (List.length (tr ++ [EvGetBlock (Resolved None)])))].
    do 8 eexists. split; [right; eauto|].
    split; [reflexivity|]. repeat apply conj; eassumption.
Qed.

Lemma validateRequest_withSignature s req :
  validateRequest config (withSignature s req) = validateRequest config req.
Proof. reflexivity. Qed.

(** What the validation loop appends to the trace; when it completes,
    every request has passed its own validation, in order. *)
Lemma forOf_validate_trace w reqs :
  forall tr,
  exists evs,
    snd (forOf reqs (validateRequest config) w tr) = (tr ++ evs)%list
    /\ Forall (fun e => isValidationRead e = true) evs
    /\ (forall u,
          fst (forOf reqs (validateRequest config) w tr) = Returned u ->
          exists evss,
            Forall2 (passingValidation config) reqs evss
            /\ evs = List.concat evss).
Proof.
  induction reqs as [|r rs IH]; intros tr; cbn [forOf].
  - exists []. cbn. rewrite app_nil_r. repeat split; auto.
    intros _ _. exists []. split; [constructor | reflexivity].
  - unfold bind.
    destruct (validateRequest_trace w r tr) as (evs1 & Hsnd & Hreads & Hpass).
    destruct (validateRequest config r w tr) as [[u|f] tr1]; cbn [fst snd] in *;
      subst tr1.
    + destruct (IH (tr ++ evs1)%list) as (evs2 & Hsnd2 & Hreads2 & Hpass2).
      exists (evs1 ++ evs2)%list. rewrite Hsnd2, app_assoc.
      split; [reflexivity|]. split; [now apply Forall_app|].
      intros u' Hok. destruct (Hpass2 u' Hok) as (evss & Hall & ->).
      exists (evs1 :: evss). split; [|reflexivity].
      constructor; [now apply (Hpass u)|assumption].
    + exists evs1. repeat split; auto. intros u H; discriminate H.
Qed.

Lemma forOf_withSignature sigs w reqs :
  forall tr,
    forOf (map (fun r => withSignature (sigs r) r) reqs)
          (validateRequest config) w tr
    = forOf reqs (validateRequest config) w tr.
Proof.
  induction reqs as [|r rs IH]; intros tr; cbn [map forOf]; [reflexivity|].
  unfold bind. rewrite validateRequest_withSignature.
  destruct (validateRequest config r w tr) as [[u|f] tr1]; auto.
Qed.

Lemma formattedRequests_id (requests : list PaymentRequest) :
  map (fun r => {| from := from r; to := to r; amount := amount r;
                   fee := fee r; deadline := deadline r;
                   signature := signature r |}) requests
  = requests.
Proof.
  induction requests as [|r rs IH]; cbn [map]; [reflexivity|].
  rewrite IH. now destruct r.
Qed.

(** The three ways a batch run can go: a validation throws; the
    submission is rejected; the submission is accepted and awaited. *)
Lemma executeBatchPayments_shape w reqs :
  let checks := forOf reqs (validateRequest config) w [] in
  let run := executeBatchPayments config reqs w [] in
  match fst checks with
  | Thrown f => run = (Thrown f, snd checks)
  | Returned _ =>
      let sent :=
        w_sendBatch w (List.length (snd checks)) reqs (batchCeiling reqs) in
      match sent with
      | Rejected e =>
          run = (Thrown (Uncaught e),
                 (snd checks ++ [EvSendBatch reqs (batchCeiling reqs) sent])%list)
      | Resolved tx =>
          let waited :=
            w_wait w (S (List.length (snd checks))) (hash tx) in
          snd run
          = (snd checks ++ [EvSendBatch reqs (batchCeiling reqs) sent;
                            EvWait (hash tx) waited])%list
          /\ match waited with
             | Rejected e => fst run = Thrown (Uncaught e)
             | Resolved receipt =>
                 exists res,
                   fst run = Returned res
                   /\ paymentsProcessed res = List.length reqs
                   /\ success (base res) = true
                   /\ transactionHash (base res) = hash tx
             end
      end
  end.
Proof.
  cbv zeta. unfold executeBatchPayments, batchCeiling.
  rewrite formattedRequests_id.
  cbv [bind await call unwrap ret throw].
  destruct (forOf reqs (validateRequest config) w []) as [[u|f] tr1];
    cbn [fst snd]; [|reflexivity].
  destruct (w_sendBatch w (List.length tr1) reqs _) as [tx|e] eqn:Es;
    [|reflexivity].
  rewrite length_app, Nat.add_comm. cbn [List.length Nat.add].
  destruct (w_wait w (S (List.length tr1)) (hash tx)) as [receipt|e];
    cbn [fst snd]; rewrite <- app_assoc; cbn [List.app].
  - split; [reflexivity|]. eexists. split; [reflexivity|]. cbn. auto.
  - split; reflexivity.
Qed.

Lemma never_app p (l1 l2 : Trace) :
  never p l1 -> never p l2 -> never p (l1 ++ l2)%list.
Proof. unfold never. intros H1 H2. now apply Forall_app. Qed.

Lemma reads_never (p : Event -> bool) evs :
  (forall e, isValidationRead e = true -> p e = false) ->
  Forall (fun e => isValidationRead e = true) evs ->
  never p evs.
Proof. intros Hp. unfold never. apply Forall_impl, Hp. Qed.

Lemma never_filter p (l : Trace) : never p l -> filter p l = [].
Proof.
  induction 1 as [|e l He _ IH]; cbn [filter]; [reflexivity|].
  now rewrite He.
Qed.

Lemma reads_not_dryRun e : isValidationRead e = true -> isDryRun e = false.
Proof. destruct e; cbn; congruence. Qed.

Lemma reads_not_estimate e : isValidationRead e = true -> isEstimate e = false.
Proof. destruct e; cbn; congruence. Qed.

Lemma reads_not_submit e : isValidationRead e = true -> isSubmit e = false.
Proof. destruct e; cbn; congruence. Qed.

Lemma reads_not_nonce e : isValidationRead e = true -> isNonceRead e = false.
Proof. destruct e; cbn; congruence. Qed.

(** The trace of a batch run: the validation reads, then at most one
    submission of all the requests under the batch ceiling, then at most
    one wait. *)
Lemma executeBatchPayments_trace w reqs :
  let checks := forOf reqs (validateRequest config) w [] in
  let run := executeBatchPayments config reqs w [] in
  Forall (fun e => isValidationRead e = true) (snd checks)
  /\ ((exists f, fst checks = Thrown f /\ run = (Thrown f, snd checks))
      \/ (exists u sent,
            fst checks = Returned u
            /\ ((exists e, sent = Rejected e
                           /\ fst run = Thrown (Uncaught e)
                           /\ snd run
                              = (snd checks
                                 ++ [EvSendBatch reqs (batchCeiling reqs) sent])%list)
                \/ (exists tx waited,
                      sent = Resolved tx
                      /\ snd run
                         = (snd checks
                            ++ [EvSendBatch reqs (batchCeiling reqs) sent;
                                EvWait (hash tx) waited])%list
                      /\ forall res,
                          fst run = Returned res ->
                          paymentsProcessed res = List.length reqs
                          /\ success (base res) = true
                          /\ transactionHash (base res) = hash tx)))).
Proof.
  cbv zeta.
  pose proof (executeBatchPayments_shape w reqs) as S. cbv zeta in S.
  destruct (forOf_validate_trace w reqs []) as (evs & Hsnd & Hreads & _).
  cbn [List.app] in Hsnd. rewrite Hsnd in *. split; [assumption|].
  destruct (fst (forOf reqs (validateRequest config) w [])) as [u|f].
  - right. exists u.
    exists (w_sendBatch w (List.length evs) reqs (batchCeiling reqs)).
    split; [reflexivity|].
    destruct (w_sendBatch w (List.length evs) reqs (batchCeiling reqs))
      as [tx|e].
    + right. exists tx. eexists. destruct S as [Htr Hres].
      split; [reflexivity|]. split; [exact Htr|].
      intros res Hok.
      destruct (w_wait w (S (List.length evs)) (hash tx)).
      * destruct Hres as (res' & Hres' & Hn & Hs & Hh).
        rewrite Hres' in Hok. injection Hok as <-. auto.
      * rewrite Hres in Hok. discriminate Hok.
    + left. exists e. rewrite S. auto.
  - left. exists f. auto.
Qed.

(** C7. A batch run performs no dry-run and no cost estimate; it holds at
    most one submission, which carries all the requests under the
    ceiling [100000 * number of requests]; a returned result reports
    [paymentsProcessed] equal to the number of requests, after exactly
    one accepted submission; for three requests the ceiling is
    [3 * 100000] and [paymentsProcessed] is 3; and once the validation
    loop completes the batch is submitted, exactly once. *)
Theorem batch_is_one_submission_under_linear_ceiling w reqs :
  let run := executeBatchPayments config reqs w [] in
  never isDryRun (snd run)
  /\ never isEstimate (snd run)
  /\ (List.length (filter isSubmit (snd run)) <= 1)%nat
  /\ (forall e, In e (snd run) -> isSubmit e = true ->
       exists r, e = EvSendBatch reqs (100000 * Z.of_nat (List.length reqs)) r)
  /\ (forall res,
        fst run = Returned res ->
        paymentsProcessed res = List.length reqs
        /\ success (base res) = true
        /\ exists tx,
            filter isSubmit (snd run)
            = [EvSendBatch reqs (100000 * Z.of_nat (List.length reqs))
                           (Resolved tx)]
            /\ transactionHash (base res) = hash tx)
  /\ (List.length reqs = 3%nat ->
      100000 * Z.of_nat (List.length reqs) = 3 * 100000
      /\ forall res, fst run = Returned res -> paymentsProcessed res = 3%nat)
  /\ (forall u,
        fst (forOf reqs (validateRequest config) w []) = Returned u ->
        exists r,
          filter isSubmit (snd run)
          = [EvSendBatch reqs (100000 * Z.of_nat (List.length reqs)) r]).
Proof.
  cbv zeta.
  destruct (executeBatchPayments_trace w reqs) as [Hreads Hshape].
  cbv zeta in Hreads, Hshape. fold (batchCeiling reqs).
  set (run := executeBatchPayments config reqs w []) in *.
  set (checks := forOf reqs (validateRequest config) w []) in *.
  pose proof (reads_never _ _ reads_not_dryRun Hreads) as Hd.
  pose proof (reads_never _ _ reads_not_estimate Hreads) as He.
  pose proof (reads_never _ _ reads_not_submit Hreads) as Hs.
  assert (Hin : forall e, In e (snd checks) -> isSubmit e = true -> False).
  { intros e Hin Htrue. unfold never in Hs.
    rewrite Forall_forall in Hs. rewrite (Hs e Hin) in Htrue. discriminate. }
  assert (Hres : forall res, fst run = Returned res ->
                 paymentsProcessed res = List.length reqs
                 /\ success (base res) = true
                 /\ exists tx,
                     filter isSubmit (snd run)
                     = [EvSendBatch reqs (batchCeiling reqs) (Resolved tx)]
                     /\ transactionHash (base res) = hash tx).
  { intros res Hok.
    destruct Hshape as [(f & _ & Hrun)|(u & sent & _ & [(e & _ & Hf & _)|(tx & waited & -> & Htr & Hret)])].
    - rewrite Hrun in Hok. discriminate Hok.
    - rewrite Hf in Hok. discriminate Hok.
    - destruct (Hret res Hok) as (Hn & Hsucc & Hh).
      split; [assumption|]. split; [assumption|]. exists tx.
      split; [|assumption].
      rewrite Htr, filter_app, (never_filter _ _ Hs). reflexivity. }
  destruct Hshape as [(f & Hf & Hrun)|(u & sent & _ & [(e & -> & _ & Htr)|(tx & waited & -> & Htr & _)])].
  - rewrite Hrun in *. cbn [snd].
    split; [assumption|]. split; [assumption|].
    split; [rewrite (never_filter _ _ Hs); cbn; lia|].
    split; [intros e Hi Ht; destruct (Hin e Hi Ht)|].
    split; [intros res Hok; discriminate Hok|].
    split.
    { intros H3. split; [unfold batchCeiling; rewrite H3; reflexivity|].
      intros res Hok; discriminate Hok. }
    intros u Hu. rewrite Hf in Hu. discriminate Hu.
  - rewrite Htr.
    split; [apply never_app; [assumption|solve_never]|].
    split; [apply never_app; [assumption|solve_never]|].
    split; [rewrite filter_app, (never_filter _ _ Hs); cbn; lia|].
    split.
    { intros e' Hi Ht. apply in_app_or in Hi as [Hi|Hi];
        [destruct (Hin e' Hi Ht)|]. invert_In Hi. eauto. }
    split; [rewrite <- Htr; exact Hres|].
    split.
    { intros H3. split; [unfold batchCeiling; rewrite H3; reflexivity|].
      intros res Hok. destruct (Hres res Hok) as [Hn _]. congruence. }
    intros _ _. rewrite filter_app, (never_filter _ _ Hs). cbn. eauto.
  - rewrite Htr.
    split; [apply never_app; [assumption|solve_never]|].
    split; [apply never_app; [assumption|solve_never]|].
    split; [rewrite filter_app, (never_filter _ _ Hs); cbn; lia|].
    split.
    { intros e' Hi Ht. apply in_app_or in Hi as [Hi|Hi];
        [destruct (Hin e' Hi Ht)|]. invert_In Hi; subst e'; eauto.
      discriminate Ht. }
    split; [rewrite <- Htr; exact Hres|].
    split.
    { intros H3. split; [unfold batchCeiling; rewrite H3; reflexivity|].
      intros res Hok. destruct (Hres res Hok) as [Hn _]. congruence. }
    intros _ _. rewrite filter_app, (never_filter _ _ Hs). cbn. eauto.
Qed.

(** C10. In a batch run every submission comes after a passing
    validation (expiry, balance, allowance, minimum fee) of every
    request, in order; a validation that throws ends the run with that
    failure and without a submission; the run reads no replay counter,
    performs no dry-run and no estimate; the validation loop is the same
    whatever signatures the requests carry; and whenever the loop
    completes the batch is submitted, so a bad signature can only be
    rejected by the ledger. *)
Theorem batch_validates_ledger_state_not_signatures w reqs :
  let run := executeBatchPayments config reqs w [] in
  let checks := forOf reqs (validateRequest config) w [] in
  (forall e, In e (snd run) -> isSubmit e = true ->
     exists evss rest,
       Forall2 (passingValidation config) reqs evss
       /\ snd run = (List.concat evss ++ e :: rest)%list)
  /\ (forall f, fst checks = Thrown f ->
        run = (Thrown f, snd checks) /\ never isSubmit (snd run))
  /\ never isNonceRead (snd run)
  /\ never isDryRun (snd run)
  /\ never isEstimate (snd run)
  /\ (forall sigs,
        forOf (map (fun r => withSignature (sigs r) r) reqs)
              (validateRequest config) w []
        = checks)
  /\ (forall u, fst checks = Returned u ->
        exists r,
          In (EvSendBatch reqs (100000 * Z.of_nat (List.length reqs)) r)
             (snd run)).
Proof.
  cbv zeta.
  destruct (executeBatchPayments_trace w reqs) as [Hreads Hshape].
  destruct (forOf_validate_trace w reqs []) as (evs & Hsnd & _ & Hpass).
  cbv zeta in Hreads, Hshape. cbn [List.app] in Hsnd.
  fold (batchCeiling reqs).
  set (run := executeBatchPayments config reqs w []) in *.
  set (checks := forOf reqs (validateRequest config) w []) in *.
  pose proof (reads_never _ _ reads_not_dryRun Hreads) as Hd.
  pose proof (reads_never _ _ reads_not_estimate Hreads) as He.
  pose proof (reads_never _ _ reads_not_submit Hreads) as Hs.
  pose proof (reads_never _ _ reads_not_nonce Hreads) as Hn.
  assert (Hin : forall e, In e (snd checks) -> isSubmit e = true -> False).
  { intros e Hin Htrue. unfold never in Hs.
    rewrite Forall_forall in Hs. rewrite (Hs e Hin) in Htrue. discriminate. }
  destruct Hshape as [(f & Hf & Hrun)|(u & sent & Hu & Hsent)].
  - rewrite Hrun. cbn [snd].
    split; [intros e Hi Ht; destruct (Hin e Hi Ht)|].
    split; [intros f' Hf'; rewrite Hf in Hf'; injection Hf' as <-;
            now split|].
    repeat (split; [assumption|]).
    split; [intros sigs; apply forOf_withSignature|].
    intros u Hu. rewrite Hf in Hu. discriminate Hu.
  - destruct (Hpass u Hu) as (evss & Hall & Hevs).
    assert (Htr : exists rest,
               snd run
               = (List.concat evss
                  ++ EvSendBatch reqs (batchCeiling reqs) sent :: rest)%list
               /\ never isSubmit rest /\ never isNonceRead rest
               /\ never isDryRun rest /\ never isEstimate rest).
    { rewrite <- Hevs, <- Hsnd.
      destruct Hsent as [(e & _ & _ & Htr)|(tx & waited & _ & Htr & _)];
        rewrite Htr; eexists; (split; [reflexivity|]);
        repeat apply conj; solve_never. }
    destruct Htr as (rest & Htr & Hrs & Hrn & Hrd & Hre).
    rewrite <- Hevs, <- Hsnd in Htr. rewrite Htr.
    split.
    { intros e Hi Ht. apply in_app_or in Hi as [Hi|Hi];
        [destruct (Hin e Hi Ht)|].
      destruct Hi as [<-|Hi].
      - exists evss, rest. rewrite <- Hevs, <- Hsnd. auto.
      - unfold never in Hrs. rewrite Forall_forall in Hrs.
        rewrite (Hrs e Hi) in Ht. discriminate Ht. }
    split; [intros f Hf; rewrite Hu in Hf; discriminate Hf|].
    split; [apply never_app; [assumption|constructor; [reflexivity|assumption]]|].
    split; [apply never_app; [assumption|constructor; [reflexivity|assumption]]|].
    split; [apply never_app; [assumption|constructor; [reflexivity|assumption]]|].
    split; [intros sigs; apply forOf_withSignature|].
    intros _ _. exists sent. apply in_or_app. right. left. reflexivity.
Qed.

(** *** Failure diagnoser *)

(** C9. [parseRevertReason] reports the structured error name when the
    failure carries a non-empty one; otherwise the name decoded from
    [0x]-prefixed revert data by the forwarder's catalog; otherwise, also
    when the decode returns nothing or throws, the raw message.
    [enrichRevertErrorAsync] returns an error for every answer of the
    ledger to the fetch by hash, its message holds that diagnosis, and a
    failed fetch adds nothing to it. *)
Theorem diagnosis_precedence_and_containment (e : JsError) :
  (forall n, revert_name e = Some n -> n <> "" ->
     parseRevertReason e = "Contract reverted: " ++ n)
  /\ (JS.truthy (revert_name e) = false ->
      forall d n,
        data e = Some d -> JS.startsWith d "0x" = true ->
        parseError d = Resolved (Some n) ->
        parseRevertReason e = "Contract reverted: " ++ n)
  /\ (JS.truthy (revert_name e) = false ->
      (forall d n,
          data e = Some d -> JS.startsWith d "0x" = true ->
          parseError d <> Resolved (Some n)) ->
      parseRevertReason e = message e)
  /\ (forall w tr phase txHash,
        let fetched := w_getTransaction w (List.length tr) txHash in
        exists note,
          enrichRevertErrorAsync e phase txHash w tr
          = (Returned (Enriched phase (parseRevertReason e ++ note)
                                (explorerHint txHash)),
             (tr ++ [EvGetTransaction txHash fetched])%list)
          /\ (forall x, fetched = Rejected x -> note = "")
          /\ failureMessage (Enriched phase (parseRevertReason e ++ note)
                                      (explorerHint txHash))
             = phase ++ " failed: " ++ (parseRevertReason e ++ note)
               ++ explorerHint txHash)
  /\ (forall phase,
        enrichRevertError e phase None
        = Enriched phase (parseRevertReason e) "").
Proof.
  split; [|split; [|split; [|split]]].
  - intros n Hn Hne. unfold parseRevertReason. rewrite Hn.
    destruct n; [congruence|reflexivity].
  - intros Hr d n Hd Hp Hparse. unfold parseRevertReason.
    rewrite Hr, Hd, Hp, Hparse.
    destruct d; [discriminate Hp|reflexivity].
  - intros Hr Hno. unfold parseRevertReason. rewrite Hr.
    destruct (data e) as [d|] eqn:Hd; [|reflexivity].
    destruct (JS.truthy (Some d) && JS.startsWith d "0x") eqn:Hc;
      [|reflexivity].
    apply andb_prop in Hc as [_ Hp].
    destruct (parseError d) as [[n|]|x] eqn:Hparse; try reflexivity.
    destruct (Hno d n eq_refl Hp Hparse).
  - intros w tr phase txHash. cbv zeta.
    cbv [enrichRevertErrorAsync bind call ret].
    destruct (w_getTransaction w (List.length tr) txHash) as [[d|]|x].
    + destruct (d =? "0x")%string; eexists;
        (split; [reflexivity|]); (split; [intros x Hx; discriminate Hx|]);
        reflexivity.
    + eexists; split; [reflexivity|].
      split; [intros x Hx; discriminate Hx|reflexivity].
    + exists "". rewrite JSFacts.append_empty_r.
      split; [reflexivity|]. split; reflexivity.
  - intros phase. reflexivity.
Qed.

End EngineProperties.

(* ================================================================== *)
(** * The properties on concrete runs *)

#[local] Existing Instance Sample.externals.

#[local] Abbreviation pay := (@executePayment Sample.externals Sample.config).
#[local] Abbreviation batch := (@executeBatchPayments Sample.config).

(** An expired authorization carrying another account's signature: the
    ledger time is 1000 at every interaction, the expiration is 500, and
    the failure is the signer mismatch, raised after two reads and before
    the ledger time is consulted. *)
Lemma expired_forged_request_reports_signer_mismatch :
  (forall t, w_getBlock Sample.world t = Resolved (Some {| timestamp := 1000 |}))
  /\ deadline Sample.forgedExpired <= 1000
  /\ pay Sample.forgedExpired Sample.world []
     = (Thrown (SignerMismatch Sample.bob Sample.alice 114 7),
        [EvGetNetwork (Resolved 114); EvGetNonce Sample.alice (Resolved 7)])
  /\ forall d c,
       fst (pay Sample.forgedExpired Sample.world [])
       <> Thrown (RequestExpired d c).
Proof.
  split; [reflexivity|]. split; [vm_compute; discriminate|].
  split; [vm_compute; reflexivity|].
  intros d c. vm_compute. discriminate.
Qed.

Lemma expiry_checked_after_signature_witness :
  pay Sample.expired Sample.world []
  = (Thrown (RequestExpired 500 1000),
     [EvGetNetwork (Resolved 114); EvGetNonce Sample.alice (Resolved 7);
      EvGetBlock (Resolved (Some {| timestamp := 1000 |}))])
  /\ fst (pay Sample.expired Sample.world []) = Thrown (RequestExpired 500 1000)
  /\ fst (pay Sample.forgedExpired Sample.world [])
     = Thrown (SignerMismatch Sample.bob Sample.alice 114 7).
Proof.
  split; [vm_compute; reflexivity|]. split.
  - apply (proj1 (proj2 (@expiry_checked_after_signature Sample.externals
                           Sample.config Sample.world Sample.expired))
             {| timestamp := 1000 |}).
    + vm_compute. auto.
    + vm_compute. discriminate.
  - apply (proj2 (proj2 (proj2 (proj2
             (@expiry_checked_after_signature Sample.externals
                Sample.config Sample.world Sample.forgedExpired)))
             Sample.alice Sample.bob 80 10 114 7 Sample.forwarder
             ltac:(vm_compute; reflexivity)
             ltac:(vm_compute; reflexivity)
             ltac:(vm_compute; reflexivity)
             ltac:(vm_compute; reflexivity)
             ltac:(vm_compute; lia)
             ltac:(vm_compute; tauto)
             ltac:(vm_compute; reflexivity)
             ltac:(vm_compute; reflexivity)) Sample.bob);
      vm_compute; reflexivity.
Defined.


(** The estimate is 21001 and the transaction is sent with ceiling 27301,
    which is below 1.3 * 21001 = 27301.3. *)
Lemma gas_ceiling_below_margin :
  fst (pay Sample.request Sample.world [])
  = Returned {| success := true; transactionHash := "0xabc";
                blockNumber := Some 42; gasUsed := "25000" |}
  /\ In (EvEstimateGas Sample.args (Resolved 21001))
        (snd (pay Sample.request Sample.world []))
  /\ In (EvSend Sample.args 27301 (Resolved {| hash := "0xabc" |}))
        (snd (pay Sample.request Sample.world []))
  /\ 10 * 27301 < 13 * 21001.
Proof.
  split; [vm_compute; reflexivity|].
  split; [vm_compute; tauto|].
  split; [vm_compute; tauto|].
  reflexivity.
Qed.

Lemma gas_ceiling_is_floor_of_margin_witness :
  exists g r,
    In (EvSend Sample.args g r) (snd (pay Sample.request Sample.world []))
    /\ (forall args' g' r',
          In (EvSend args' g' r') (snd (pay Sample.request Sample.world [])) ->
          args' = Sample.args /\ g' = g)
    /\ g = Z.quot (21001 * 130) 100
    /\ 100 * g <= 130 * 21001 < 100 * (g + 1)
    /\ (13 * 21001 <= 10 * g <-> 21001 mod 10 = 0)
    /\ 21001 <= g.
Proof.
  apply (@gas_ceiling_is_floor_of_margin Sample.externals
           Sample.config Sample.world Sample.request Sample.args 21001).
  - vm_compute. tauto.
  - lia.
Defined.


Lemma insufficient_balance_iff_witness :
  exists decimals,
    In (EvDecimals Sample.token (Resolved decimals))
       [EvGetBlock (Resolved (Some {| timestamp := 1000 |}));
        EvFxrp (Resolved Sample.token);
        EvDecimals Sample.token (Resolved 6);
        EvBalanceOf Sample.token Sample.alice (Resolved 89)]
    /\ fst (validateRequest Sample.config Sample.request
              (Sample.withBalance 89 Sample.world) [])
       = Thrown (InsufficientBalance 90 89 decimals).
Proof.
  destruct (@insufficient_balance_iff Sample.externals
              Sample.config (Sample.withBalance 89 Sample.world)
              Sample.request []
              [EvGetBlock (Resolved (Some {| timestamp := 1000 |}));
               EvFxrp (Resolved Sample.token);
               EvDecimals Sample.token (Resolved 6);
               EvBalanceOf Sample.token Sample.alice (Resolved 89)]
              Sample.token 89 80 10
              ltac:(vm_compute; reflexivity)
              ltac:(vm_compute; tauto)
              ltac:(vm_compute; reflexivity)
              ltac:(vm_compute; reflexivity))
    as (decimals & Hin & _ & Hlt & _).
  exists decimals. split; [exact Hin|]. apply Hlt. lia.
Defined.

Lemma insufficient_allowance_stops_pipeline_witness :
  exists decimals,
    fst (pay Sample.request (Sample.withAllowance 85 Sample.world) [])
    = Thrown (InsufficientAllowance 90 85 decimals)
    /\ never isDryRun (snd (pay Sample.request (Sample.withAllowance 85 Sample.world) []))
    /\ never isEstimate (snd (pay Sample.request (Sample.withAllowance 85 Sample.world) []))
    /\ never isSubmit (snd (pay Sample.request (Sample.withAllowance 85 Sample.world) [])).
Proof.
  destruct (proj1 (@insufficient_allowance_stops_pipeline Sample.externals
                     Sample.config (Sample.withAllowance 85 Sample.world)
                     Sample.request Sample.alice Sample.token 85 80 10
                     ltac:(vm_compute; reflexivity)
                     ltac:(vm_compute; reflexivity)
                     ltac:(vm_compute; reflexivity)
                     ltac:(vm_compute; tauto))
              ltac:(lia))
    as (decimals & Hf & _ & Hd & He & Hs).
  exists decimals. auto.
Defined.

Lemma batch_of_three_witness :
  fst (batch [Sample.request; Sample.request; Sample.request] Sample.world [])
  = Returned {| base := {| success := true; transactionHash := "0xdef";
                           blockNumber := Some 42; gasUsed := "25000" |};
                paymentsProcessed := 3 |}
  /\ 100000 * Z.of_nat 3 = 3 * 100000
  /\ filter isSubmit
       (snd (batch [Sample.request; Sample.request; Sample.request]
               Sample.world []))
     = [EvSendBatch [Sample.request; Sample.request; Sample.request] 300000
          (Resolved {| hash := "0xdef" |})].
Proof.
  assert (Hres : fst (batch [Sample.request; Sample.request; Sample.request]
                        Sample.world [])
                 = Returned {| base := {| success := true;
                                          transactionHash := "0xdef";
                                          blockNumber := Some 42;
                                          gasUsed := "25000" |};
                               paymentsProcessed := 3 |})
    by (vm_compute; reflexivity).
  destruct (batch_is_one_submission_under_linear_ceiling
              Sample.config Sample.world
              [Sample.request; Sample.request; Sample.request])
    as (_ & _ & _ & _ & Hok & H3 & _).
  split; [exact Hres|].
  split; [exact (proj1 (H3 ltac:(reflexivity)))|].
  destruct (Hok _ Hres) as (_ & _ & tx & Hsub & Hhash).
  rewrite Hsub. cbn in Hhash. destruct tx as [h]. cbn in Hhash. subst h.
  reflexivity.
Defined.

Lemma batch_with_forged_signature_witness :
  exists r,
    In (EvSendBatch [Sample.forgedExpired; Sample.request]
          (100000 * Z.of_nat 2) r)
       (snd (batch [Sample.forgedExpired; Sample.request]
               (Sample.withBlockTime 100 Sample.world) [])).
Proof.
  apply (proj2 (proj2 (proj2 (proj2 (proj2 (proj2
           (batch_validates_ledger_state_not_signatures
              Sample.config (Sample.withBlockTime 100 Sample.world)
              [Sample.forgedExpired; Sample.request]))))))
           tt).
  vm_compute. reflexivity.
Defined.

Lemma malformed_request_witness :
  (exists f,
      pay {| from := Sample.alice; to := Sample.bob; amount := "1.5";
             fee := "10"; deadline := 2000;
             signature := Sample.aliceSignature |} Sample.world []
      = (Thrown f, []))
  /\ JS.StringToBigInt (String (ascii_of_nat 160) "10 ") = Some 10
  /\ (exists rest,
        snd (pay {| from := Sample.alice; to := Sample.bob; amount := "80";
                    fee := String (ascii_of_nat 160) "10 ";
                    deadline := 2000;
                    signature := Sample.aliceSignature |} Sample.world [])
        = EvGetNetwork (Resolved 114) :: rest).
Proof.
  split; [|split; [reflexivity|]].
  - apply (proj1 (@malformed_request_fails_before_any_call Sample.externals
                    Sample.config Sample.world _)).
    right. right. left. vm_compute. reflexivity.
  - apply (proj2 (@malformed_request_fails_before_any_call Sample.externals
                    Sample.config Sample.world _)
             Sample.alice Sample.bob 80 10);
      first [vm_compute; reflexivity | cbn; lia].
Defined.

Lemma diagnosis_witness :
  parseRevertReason Sample.revertWithData = "Contract reverted: InvalidSignature".
Proof.
  apply (proj1 (proj2 (@diagnosis_precedence_and_containment Sample.externals
                         Sample.revertWithData))
           ltac:(vm_compute; reflexivity) "0x8baa579f" "InvalidSignature"
           ltac:(vm_compute; reflexivity) ltac:(vm_compute; reflexivity)
           ltac:(vm_compute; reflexivity)).
Defined.

(** ** Further runs *)

(** [BigInt] on strings: white space is trimmed, the empty string is zero,
    prefixed literals are unsigned, and fractions, exponents and lone signs
    are rejected. *)
Example StringToBigInt_samples :
  JS.StringToBigInt "80" = Some 80
  /\ JS.StringToBigInt " 0x1f " = Some 31
  /\ JS.StringToBigInt "-12" = Some (-12)
  /\ JS.StringToBigInt "" = Some 0
  /\ JS.StringToBigInt "1.5" = None
  /\ JS.StringToBigInt "1e3" = None
  /\ JS.StringToBigInt "-0x10" = None
  /\ JS.StringToBigInt "-" = None.
Proof. repeat split; vm_compute; reflexivity. Qed.

(** The scenario of the specification passes validation with six reads:
    balance 100 and allowance 90 against a total of 90. *)
Example scenario_passes_validation :
  validateRequest Sample.config Sample.request Sample.world []
  = (Returned tt,
     [EvGetBlock (Resolved (Some {| timestamp := 1000 |}));
      EvFxrp (Resolved Sample.token);
      EvDecimals Sample.token (Resolved 6);
      EvBalanceOf Sample.token Sample.alice (Resolved 100);
      EvAllowance Sample.token Sample.alice Sample.forwarder (Resolved 90);
      EvRelayerFee (Resolved 5)]).
Proof. vm_compute. reflexivity. Qed.

(** A balance equal to the total passes; one unit less does not. *)
Example balance_boundary :
  fst (validateRequest Sample.config Sample.request
         (Sample.withBalance 90 Sample.world) [])
  = Returned tt
  /\ fst (validateRequest Sample.config Sample.request
            (Sample.withBalance 89 Sample.world) [])
     = Thrown (InsufficientBalance 90 89 6).
Proof. split; vm_compute; reflexivity. Qed.

(** A fee of 3 against a minimum of 5. *)
Example fee_below_minimum :
  fst (validateRequest Sample.config
         {| from := Sample.alice; to := Sample.bob; amount := "80";
            fee := "3"; deadline := 2000;
            signature := Sample.aliceSignature |}
         Sample.world [])
  = Thrown (FeeTooLow 5 6).
Proof. vm_compute. reflexivity. Qed.

(** A signature of 64 characters is refused before any call. *)
Example short_signature_refused :
  pay {| from := Sample.alice; to := Sample.bob; amount := "80";
         fee := "10"; deadline := 2000;
         signature :=
           "0x00000000000000000000000000000000000000000000000000000000000000" |}
      Sample.world []
  = (Thrown InvalidSignature, []).
Proof. vm_compute. reflexivity. Qed.

(** A request made by the signing side for counter 7 on chain 114 is the
    sample request and goes through to a confirmed transaction. *)
Example created_request_is_executed :
  createdRequest Sample.alice
    {| p_forwarderAddress := Sample.forwarder; p_to := Sample.bob;
       p_amount := 80; p_fee := 10; p_nonce := 7; p_deadline := 2000;
       p_chainId := 114 |}
    Sample.aliceSignature
  = Sample.request
  /\ fst (pay Sample.request Sample.world [])
     = Returned {| success := true; transactionHash := "0xabc";
                   blockNumber := Some 42; gasUsed := "25000" |}.
Proof. split; vm_compute; reflexivity. Qed.

(** A wait that fails is diagnosed with the decoded error name, the length
    of the calldata found on the ledger and the explorer link. *)
Example failed_wait_is_diagnosed :
  enrichRevertErrorAsync Sample.revertWithData "transaction" "0xabc"
    Sample.world []
  = (Returned
       (Enriched "transaction"
          "Contract reverted: InvalidSignature [calldata length: 6 chars]"
          " Inspect tx: https://coston2-explorer.flare.network/tx/0xabc"),
     [EvGetTransaction "0xabc" (Resolved (Some "0x1234"))]).
Proof. vm_compute. reflexivity. Qed.

(* ================================================================== *)
(** * Further properties of the engine *)

(** Run [executePayment] with the validation step kept whole. *)
Ltac run_pipeline :=
  cbv [executePayment enrichRevertErrorAsync enrichRevertError
       bind await call unwrap ret throw BigInt];
  repeat (cbn [List.length List.app fst snd
               from to amount fee deadline signature hash];
          try split_innermost).

Section MoreEngineProperties.

Context {ext : Externals}.
Variable config : RelayerConfig.

(** X1. In a validation that reads the minimum fee, for a request whose
    fee parses to [f]: the token and its decimals have been read before;
    validation fails with the fee-too-low error iff [f] is below the
    minimum, and the error names the minimum formatted with the decimals
    read from the token; at [f] equal to the minimum, and above,
    validation returns. *)
Theorem fee_too_low_iff w req tr evs minFee f :
  let run := validateRequest config req w tr in
  snd run = (tr ++ evs)%list ->
  In (EvRelayerFee (Resolved minFee)) evs ->
  JS.StringToBigInt (fee req) = Some f ->
  exists token decimals,
    In (EvFxrp (Resolved token)) evs
    /\ In (EvDecimals token (Resolved decimals)) evs
    /\ ((exists m d, fst run = Thrown (FeeTooLow m d)) <-> f < minFee)
    /\ (f < minFee -> fst run = Thrown (FeeTooLow minFee decimals))
    /\ (minFee <= f -> fst run = Returned tt)
    /\ failureMessage (FeeTooLow minFee decimals)
       = "Fee too low. Minimum: " ++ formatUnits minFee decimals ++ " FXRP".
Proof.
  cbv zeta. intros Hevs Hin Hf. revert Hevs. run_engine.
  all: intros Hevs; new_events Hevs evs.
  all: invert_In Hin; injection Hin as ->; simplify_settled.
  all: repeat match goal with
         | E : (_ <? _) = true |- _ => apply Z.ltb_lt in E
         | E : (_ <? _) = false |- _ => apply Z.ltb_ge in E
         end.
  all: do 2 eexists; split; [solve_In|]; split; [solve_In|].
  all: split;
    [ split;
      [ intros (? & ? & H); try discriminate H; assumption
      | intros H; try lia; eauto ]
    | split;
      [ intros H; try lia; reflexivity
      | split; [intros H; try lia; reflexivity | reflexivity] ] ].
Qed.

(** X2. When the ledger has no latest block to give, validation compares
    the deadline with the local clock in whole seconds: a deadline at or
    before [floor (Date.now() / 1000)] is reported as expired against that
    time, and a later one lets validation go on to resolve the token. *)
Theorem expiry_falls_back_to_local_clock w req tr :
  let ms := w_dateNow w (S (List.length tr)) in
  w_getBlock w (List.length tr) = Resolved None ->
  (deadline req <= ms / 1000 ->
   validateRequest config req w tr
   = (Thrown (RequestExpired (deadline req) (ms / 1000)),
      (tr ++ [EvGetBlock (Resolved None); EvDateNow ms])%list))
  /\ (ms / 1000 < deadline req ->
      exists r rest,
        snd (validateRequest config req w tr)
        = (tr ++ EvGetBlock (Resolved None) :: EvDateNow ms
              :: EvFxrp r :: rest)%list).
Proof.
  cbv zeta. intros Hb.
  assert (Hlen : List.length (tr ++ [EvGetBlock (Resolved None)]) = S (List.length tr))
    by (rewrite length_app, Nat.add_comm; reflexivity).
  split; intros Hd.
  - unfold_engine. rewrite Hb. cbn [deadline]. rewrite Hlen.
    apply Z.leb_le in Hd. rewrite Hd.
    rewrite <- app_assoc. reflexivity.
  - apply Z.leb_gt in Hd. run_engine.
    all: simplify_settled.
    all: rewrite ?Hlen in *.
    all: try congruence.
    all: do 2 eexists; rewrite <- ?app_assoc; cbn [List.app]; reflexivity.
Qed.

(** X3. A validation issues between one and seven interactions, all of
    them reads of ledger state or of the clock, and it returns exactly when
    those reads are the reads of a passing validation: the chain time is
    before the deadline, balance and allowance cover amount plus fee, and
    the fee is at least the minimum. *)
Theorem validation_returns_iff_checks_pass w req tr evs :
  let run := validateRequest config req w tr in
  snd run = (tr ++ evs)%list ->
  (fst run = Returned tt <-> passingValidation config req evs)
  /\ Forall (fun e => isValidationRead e = true) evs
  /\ (1 <= List.length evs <= 7)%nat.
Proof.
  cbv zeta. run_engine.
  all: intros Hevs; new_events Hevs evs.
  all: repeat match goal with
         | E : (_ <? _) = true |- _ => apply Z.ltb_lt in E
         | E : (_ <? _) = false |- _ => apply Z.ltb_ge in E
         | E : (_ <=? _) = true |- _ => apply Z.leb_le in E
         | E : (_ <=? _) = false |- _ => apply Z.leb_gt in E
         end.
  all: split; [|split; [repeat constructor | cbn [List.length]; lia]].
  all: split.
  all: try (intros H; discriminate H).
  all: try (intros (clock & chainTime & token & decimals & balance
                    & allowance & minFee & a' & f' & Hclock & Hevs & Ha & Hf
                    & Hlt & Hbal & Hal & Hfee);
            destruct Hclock as [(blk & -> & ->)|(ms & -> & ->)];
            cbn [List.app] in Hevs; try discriminate Hevs;
            injection Hevs as <-; intros; subst; simplify_settled;
            repeat match goal with
              | H1 : ?x = Some _, H2 : ?x = Some _ |- _ =>
                  rewrite H1 in H2; injection H2 as <-
              end;
            first [reflexivity | lia | congruence]).
  all: intros _.
  - exists [EvGetBlock (Resolved (Some b))].
    do 8 eexists. split; [left; eauto|].
    split; [reflexivity|]. repeat apply conj; eassumption.
  - eexists [EvGetBlock (Resolved None); EvDateNow _].
    do 8 eexists. split; [right; eauto|].
    split; [reflexivity|]. repeat apply conj; eassumption.
Qed.

(** *** The submission pipeline, step by step *)

Lemma in_around_checks (e e1 e2 : Event) checks post :
  Forall (fun e => isValidationRead e = true) checks ->
  isValidationRead e = false ->
  In e (e1 :: e2 :: checks ++ post)%list ->
  In e (e1 :: e2 :: post).
Proof.
  intros Hreads He [H|[H|H]]; [now left|now right; left|].
  apply in_app_or in H as [H|H]; [|now right; right].
  rewrite Forall_forall in Hreads. rewrite (Hreads e H) in He. discriminate He.
Qed.

Lemma never_around_checks (p : Event -> bool) (e1 e2 : Event) checks post :
  (forall e, isValidationRead e = true -> p e = false) ->
  Forall (fun e => isValidationRead e = true) checks ->
  never p (e1 :: e2 :: post) ->
  never p (e1 :: e2 :: checks ++ post)%list.
Proof.
  intros Hp Hreads H. unfold never in *.
  inversion H as [|? ? H1 H']; subst. inversion H' as [|? ? H2 H'']; subst.
  repeat constructor; try assumption.
  apply Forall_app. split; [|assumption].
  eapply Forall_impl; [|exact Hreads]. exact Hp.
Qed.

(** Bring in what is known of the validation step of the current path and
    put the trace in the form [e1 :: e2 :: checks ++ post]. *)
Ltac use_validation :=
  match goal with
  | E : validateRequest ?c ?r ?w ?tr = (_, ?t) |- _ =>
      let checks := fresh "checks" in
      let Hsnd := fresh "Hsnd" in
      let Hreads := fresh "Hreads" in
      let Hpass := fresh "Hpass" in
      destruct (validateRequest_trace c w r tr)
        as (checks & Hsnd & Hreads & Hpass);
      rewrite E in Hsnd, Hpass; cbn [fst snd] in Hsnd, Hpass; subst t
  end.

(** An event that is not a validation read is not among the checks. *)
Ltac reads_exclude H :=
  match type of H with
  | In ?e ?c =>
      match goal with
      | R : Forall _ c |- _ =>
          let R' := fresh in
          pose proof R as R'; rewrite Forall_forall in R';
          specialize (R' e H); discriminate R'
      end
  end.

Ltac normalize_trace :=
  rewrite <- ?app_assoc in *; cbn [List.app] in *.

(** X4. A transaction is sent only at the end of the full sequence: the
    trace up to a submission consists of the chain-id and counter reads, a
    passing validation of the normalized request, a successful dry-run with
    the submitted arguments, a second counter read returning the same
    value, and a successful cost estimate for the same arguments; nothing is
    submitted after it, so a run submits at most once. *)
Theorem submission_follows_every_check w req args g r :
  let run := executePayment config req w [] in
  In (EvSend args g r) (snd run) ->
  exists chain nonce checks E rest,
    snd run
    = ([EvGetNetwork (Resolved chain);
        EvGetNonce (a_from args) (Resolved nonce)]
       ++ checks
       ++ [EvStaticCall args (Resolved tt);
           EvGetNonce (a_from args) (Resolved nonce);
           EvEstimateGas args (Resolved E);
           EvSend args g r]
       ++ rest)%list
    /\ passingValidation config (normalizedOf args) checks
    /\ never isSubmit rest
    /\ List.length (filter isSubmit (snd run)) = 1%nat.
Proof.
  cbv zeta. run_pipeline.
  all: intros Hin; try use_validation; normalize_trace.
  all: try (apply in_around_checks in Hin; [|assumption|reflexivity]).
  all: invert_In Hin.
  all: try reads_exclude Hin.
  all: injection Hin as <- <- <-.
  all: match goal with
       | E : negb (_ =? _) = false |- _ =>
           apply negb_false_iff, Z.eqb_eq in E; subst
       end.
  all: repeat match goal with u : unit |- _ => destruct u end.
  all: do 5 eexists; split; [cbn [List.app]; reflexivity|].
  all: split; [exact (Hpass _ eq_refl)|].
  all: split; [solve_never|].
  all: cbn [filter isSubmit];
       rewrite filter_app,
         (never_filter _ _ (reads_never _ _ reads_not_submit Hreads));
       reflexivity.
Qed.

(** Process a hypothesis of membership in the trace of the current path. *)
Ltac find_event H :=
  try use_validation; normalize_trace;
  try (apply in_around_checks in H; [|assumption|reflexivity]);
  invert_In H; try reads_exclude H.

(** Absence from the trace of the current path. *)
Ltac solve_never_around Hp :=
  first [ apply never_around_checks; [exact Hp|assumption|solve_never]
        | solve_never ].

Lemma startsWith_0x s : JS.startsWith ("0x" ++ s) "0x" = true.
Proof.
  unfold JS.startsWith. cbn [append String.prefix].
  destruct (ascii_dec "0" "0") as [_|H]; [|now destruct H].
  destruct (ascii_dec "x" "x") as [_|H]; [|now destruct H].
  destruct s; reflexivity.
Qed.

(** X5. The arguments of the dry-run, and so of the estimate and of the
    submission, are the normalized fields of the request: the addresses as
    [getAddress] returns them, amount and fee as [BigInt] parses them, the
    deadline unchanged, and the signature with a [0x] prefix, added when
    the request's signature lacks it. *)
Theorem submitted_arguments_are_normalized w req args r :
  let run := executePayment config req w [] in
  In (EvStaticCall args r) (snd run) ->
  getAddress (from req) = Resolved (a_from args)
  /\ getAddress (to req) = Resolved (a_to args)
  /\ JS.StringToBigInt (amount req) = Some (a_amount args)
  /\ JS.StringToBigInt (fee req) = Some (a_fee args)
  /\ a_deadline args = deadline req
  /\ JS.startsWith (a_signature args) "0x" = true
  /\ (a_signature args = signature req
      \/ (JS.startsWith (signature req) "0x" = false
          /\ a_signature args = "0x" ++ signature req))
  /\ (130 <= String.length (signature req))%nat.
Proof.
  cbv zeta. run_pipeline.
  all: intros Hin; find_event Hin.
  all: injection Hin as <- <-.
  all: apply Nat.ltb_ge in Heqb.
  all: cbn [a_from a_to a_amount a_fee a_deadline a_signature].
  all: repeat apply conj; try assumption; try reflexivity; auto.
  all: apply startsWith_0x.
Qed.

(** X6. A dry-run that fails ends the run with the simulation failure
    whose text is the failure's [reason] when it has a non-empty one,
    otherwise ["revert data: "] followed by its non-empty [data], otherwise
    its message; the counter is not read again and nothing is estimated or
    submitted. *)
Theorem failed_dry_run_stops_pipeline w req args err :
  let run := executePayment config req w [] in
  In (EvStaticCall args (Rejected err)) (snd run) ->
  (exists msg,
      fst run = Thrown (SimulationFailed msg)
      /\ (forall r, reason err = Some r -> r <> "" -> msg = r)
      /\ (JS.truthy (reason err) = false ->
          forall d, data err = Some d -> d <> "" -> msg = "revert data: " ++ d)
      /\ (JS.truthy (reason err) = false -> JS.truthy (data err) = false ->
          msg = message err))
  /\ List.length (nonceReads (snd run)) = 1%nat
  /\ never isEstimate (snd run)
  /\ never isSubmit (snd run).
Proof.
  cbv zeta. run_pipeline.
  all: intros Hin; find_event Hin.
  all: injection Hin as <- <-.
  all: (split; [eexists; split; [reflexivity|]|]).
  all: try (split; [|split]; [idtac | solve_never_around reads_not_estimate
                                    | solve_never_around reads_not_submit]).
  all: try (repeat apply conj; intros;
            repeat match goal with
              | H : reason _ = _ |- _ => rewrite H in *
              | H : data _ = _ |- _ => rewrite H in *
              end;
            try match goal with
              | H : ?r <> "" |- _ => destruct r; [congruence|]
              end;
            cbn in *; congruence).
  all: cbn [nonceReads]; clear - Hreads.
  all: induction checks as [|c cs IH]; [reflexivity|].
  all: inversion Hreads as [|? ? Hc Hcs]; subst;
       destruct c; try discriminate Hc; cbn [List.app nonceReads];
       exact (IH Hcs).
Qed.

Lemma reads_not_wait e : isValidationRead e = true -> isWait e = false.
Proof. destruct e; cbn; congruence. Qed.

Lemma reads_not_fetch e : isValidationRead e = true -> isFetch e = false.
Proof. destruct e; cbn; congruence. Qed.

(** X7. A cost estimate that fails ends the run with the estimation
    failure carrying the estimator's message, and nothing is submitted. *)
Theorem failed_estimate_stops_before_submission w req args err :
  let run := executePayment config req w [] in
  In (EvEstimateGas args (Rejected err)) (snd run) ->
  fst run = Thrown (EstimationFailed (message err))
  /\ failureMessage (EstimationFailed (message err))
     = "Gas estimation failed (contract would revert): " ++ message err
  /\ never isSubmit (snd run).
Proof.
  cbv zeta. run_pipeline.
  all: intros Hin; find_event Hin.
  all: injection Hin as <- <-.
  all: split; [reflexivity|split; [reflexivity|]].
  all: solve_never_around reads_not_submit.
Qed.

(** X8. A submission the ledger client rejects ends the run with the
    failure ["sendTransaction failed: "] followed by the diagnosis of the
    rejection, without an explorer link; the run neither waits for a
    receipt nor fetches a transaction. *)
Theorem rejected_submission_is_diagnosed w req args g err :
  let run := executePayment config req w [] in
  In (EvSend args g (Rejected err)) (snd run) ->
  fst run = Thrown (Enriched "sendTransaction" (parseRevertReason err) "")
  /\ failureMessage (Enriched "sendTransaction" (parseRevertReason err) "")
     = "sendTransaction failed: " ++ parseRevertReason err
  /\ never isWait (snd run)
  /\ never isFetch (snd run).
Proof.
  cbv zeta. run_pipeline.
  all: intros Hin; find_event Hin.
  all: injection Hin as <- <- <-.
  all: split; [reflexivity|].
  all: split; [cbn [failureMessage]; now rewrite JSFacts.append_empty_r|].
  all: split; [solve_never_around reads_not_wait
              |solve_never_around reads_not_fetch].
Qed.


(** X10. A signature failure, whether the signature cannot be parsed or
    recovers to another address, ends the run after exactly two reads, the
    chain id and the sender's counter: no ledger state of the token or of
    the fee policy has been read, and nothing has been simulated. *)
Theorem signature_failures_precede_ledger_reads w req f :
  let run := executePayment config req w [] in
  fst run = Thrown f ->
  (exists m, f = InvalidSignatureFormat m)
  \/ (exists r e c n, f = SignerMismatch r e c n) ->
  exists chain sender nonce,
    getAddress (from req) = Resolved sender
    /\ snd run = [EvGetNetwork (Resolved chain);
                  EvGetNonce sender (Resolved nonce)].
Proof.
  cbv zeta. run_engine.
  all: intros Hf [(? & ->)|(? & ? & ? & ? & ->)]; try discriminate Hf.
  all: do 3 eexists; split; reflexivity.
Qed.

(** X11. A result is returned only for a transaction that was accepted
    and whose wait resolved: it reports success, the hash of that
    transaction, the block number of the receipt and its gas used in
    decimal; a missing receipt gives a null block number and gas ["0"], a
    receipt without gas figure gives gas ["0"]. *)
Theorem returned_result_reflects_receipt w req res :
  let run := executePayment config req w [] in
  fst run = Returned res ->
  success res = true
  /\ exists args g tx receipt,
      In (EvSend args g (Resolved tx)) (snd run)
      /\ In (EvWait (hash tx) (Resolved receipt)) (snd run)
      /\ transactionHash res = hash tx
      /\ (receipt = None -> blockNumber res = None /\ gasUsed res = "0")
      /\ (forall rc, receipt = Some rc ->
            blockNumber res = Some (r_blockNumber rc)
            /\ (r_gasUsed rc = None -> gasUsed res = "0")
            /\ (forall used, r_gasUsed rc = Some used ->
                  gasUsed res = JS.toString used)).
Proof.
  cbv zeta. run_pipeline.
  all: intros Hres; try discriminate Hres; injection Hres as <-.
  all: use_validation; normalize_trace.
  all: split; [reflexivity|].
  all: do 4 eexists.
  all: split; [cbn [In]; do 2 right; apply in_or_app; right; solve_In|].
  all: split; [cbn [In]; do 2 right; apply in_or_app; right; solve_In|].
  all: split; [reflexivity|].
  all: split; [intros H; try discriminate H; split; reflexivity|].
  all: intros rc H; try discriminate H; injection H as <-;
       cbn [option_map blockNumber gasUsed].
  all: split; [reflexivity|].
  all: split; [intros H|intros used H];
       first [congruence | rewrite H in *; congruence
             | rewrite H in *; reflexivity | reflexivity].
Qed.

(** X12. Sign, then verify.  A request made by [createPaymentRequest]
    for a wallet whose address, recipient and forwarder are in canonical
    form, with a signature of at least 130 characters that starts with
    [0x] and recovers to the wallet under the typed data
    [signPaymentRequest] signs, passes the relayer's signature check when
    the relayer reads the chain id and the counter the signer used: the
    run goes on to read the latest block for the ledger-state checks. *)
Theorem signed_request_reaches_validation w walletAddress params sig :
  let req := createdRequest walletAddress params sig in
  let run := executePayment config req w [] in
  getAddress walletAddress = Resolved walletAddress ->
  getAddress (p_to params) = Resolved (p_to params) ->
  forwarderAddress config = p_forwarderAddress params ->
  getAddress (p_forwarderAddress params)
  = Resolved (p_forwarderAddress params) ->
  JS.startsWith sig "0x" = true ->
  (130 <= String.length sig)%nat ->
  recoverTypedDataAddress (signedDomain params)
    (signedMessage walletAddress params) sig = Resolved walletAddress ->
  w_getNetwork w 0 = Resolved (p_chainId params) ->
  w_getNonce w 1 walletAddress = Resolved (p_nonce params) ->
  exists blockRead rest,
    snd run
    = EvGetNetwork (Resolved (p_chainId params))
      :: EvGetNonce walletAddress (Resolved (p_nonce params))
      :: EvGetBlock blockRead :: rest.
Proof.
  cbv zeta. unfold createdRequest, signedDomain, signedMessage.
  intros Hw Ht Hcfg Hf Hp Hlen Hrec Hchain Hnonce.
  apply Nat.ltb_ge in Hlen.
  revert Hchain Hnonce. run_engine.
  all: intros Hchain Hnonce; simplify_settled.
  all: try congruence.
  all: try (rewrite Hnonce in *; simplify_settled).
  all: try (rewrite Hcfg in *; rewrite Hf in *; simplify_settled;
            rewrite Hrec in *; simplify_settled;
            rewrite ?String.eqb_refl in *; discriminate).
  all: do 2 eexists; reflexivity.
Qed.

(** *** Batches *)

(** X13. An empty batch is not refused: with no request to validate the
    run issues no read and submits an empty batch under a ceiling of zero
    as its first interaction. *)
Theorem empty_batch_is_submitted w :
  exists rest,
    snd (executeBatchPayments config [] w [])
    = EvSendBatch [] 0 (w_sendBatch w 0 [] 0) :: rest
    /\ never isSubmit rest.
Proof.
  cbv [executeBatchPayments forOf bind await call unwrap ret throw].
  cbn [map List.length List.app Z.of_nat Z.mul].
  destruct (w_sendBatch w 0 [] 0) as [tx|e];
    cbn [fst snd List.app List.length].
  - destruct (w_wait w 1 (hash tx)); cbn [fst snd];
      (eexists; split; [reflexivity|solve_never]).
  - eexists; split; [reflexivity|solve_never].
Qed.

Lemma forOf_app {A} (l1 l2 : list A) (body : A -> Async unit) w tr :
  forOf (l1 ++ l2)%list body w tr
  = (forOf l1 body ;;; forOf l2 body)%async w tr.
Proof.
  revert tr. induction l1 as [|x l1 IH]; intros tr; cbn [List.app forOf].
  - reflexivity.
  - unfold bind in *. destruct (body x w tr) as [[u|f] tr1];
      [apply IH|reflexivity].
Qed.

(** X14. The validation loop of a batch stops at the first request that
    fails: when validating a prefix of the batch ends with a failure, the
    whole batch run ends with that failure and that trace, so the later
    requests are never read and nothing is submitted. *)
Theorem batch_stops_at_first_failure w first rest f tr :
  forOf first (validateRequest config) w [] = (Thrown f, tr) ->
  executeBatchPayments config (first ++ rest) w [] = (Thrown f, tr)
  /\ never isSubmit tr.
Proof.
  intros Hfirst.
  assert (Hloop : forOf (first ++ rest) (validateRequest config) w []
                  = (Thrown f, tr)).
  { rewrite forOf_app. unfold bind. now rewrite Hfirst. }
  destruct (executeBatchPayments_trace config w (first ++ rest))
    as [Hreads Hshape].
  cbv zeta in Hreads, Hshape. rewrite Hloop in *. cbn [fst snd] in *.
  split.
  - destruct Hshape as [(f' & Hf' & Hrun)|(u & sent & Hu & _)];
      [|discriminate Hu].
    injection Hf' as <-. exact Hrun.
  - exact (reads_never _ _ reads_not_submit Hreads).
Qed.

End MoreEngineProperties.

(* ================================================================== *)
(** * The HTTP adapter *)

Module JSStringFacts.
Import JSString.

Lemma prefix_empty s : String.prefix "" s = true.
Proof. destruct s; reflexivity. Qed.

(** A string free of the separator is one piece. *)
Lemma splitFrom_free sep s :
  free sep s = true ->
  forall cur, splitFrom sep 0 cur s = [cur ++ s].
Proof.
  induction s as [|c r IH]; intros Hfree cur; cbn [splitFrom].
  - now rewrite JSFacts.append_empty_r.
  - cbn [free] in Hfree. apply andb_prop in Hfree as [Hp Hr].
    apply negb_true_iff in Hp. rewrite Hp, (IH Hr).
    now rewrite JSFacts.append_assoc.
Qed.

(** Splitting on one character: the first piece is what precedes its
    first occurrence. *)
Lemma split_head_before c s rest :
  free (String c "") s = true ->
  exists pieces,
    split (s ++ String c rest) (String c "") = s :: pieces.
Proof.
  unfold split. intros Hfree.
  assert (H : forall cur,
             exists pieces,
               splitFrom (String c "") 0 cur (s ++ String c rest)
               = (cur ++ s) :: pieces).
  { induction s as [|d r IH]; intros cur.
    - cbn [append splitFrom String.prefix String.length Nat.sub].
      destruct (ascii_dec c c) as [_|Hn]; [|now destruct Hn].
      rewrite prefix_empty, JSFacts.append_empty_r. eauto.
    - cbn [free] in Hfree. apply andb_prop in Hfree as [Hp Hr].
      apply negb_true_iff in Hp.
      cbn [append splitFrom].
      assert (Hp' : String.prefix (String c "") (String d (r ++ String c rest))
                    = false).
      { cbn [String.prefix] in *. destruct (ascii_dec c d); [|reflexivity].
        rewrite prefix_empty in Hp. discriminate Hp. }
      rewrite Hp'. destruct (IH Hr (cur ++ String d "")) as (pieces & ->).
      rewrite JSFacts.append_assoc. eauto. }
  destruct (H "") as (pieces & ->). eauto.
Qed.

Lemma splitFrom_nonempty sep s :
  forall skip cur, splitFrom sep skip cur s <> [].
Proof.
  induction s as [|c r IH]; intros skip cur; cbn [splitFrom];
    [discriminate|].
  destruct skip; [|apply IH].
  destruct (String.prefix sep (String c r)); [discriminate|apply IH].
Qed.

(** A string that starts with a non-empty separator splits in an empty
    first piece and at least one more. *)
Lemma split_prefixed sep u :
  sep <> "" ->
  JS.startsWith u sep = true ->
  exists p rest, split u sep = "" :: p :: rest.
Proof.
  unfold JS.startsWith, split. intros Hsep Hprefix.
  destruct u as [|c r].
  - destruct sep; [congruence|discriminate Hprefix].
  - cbn [splitFrom]. rewrite Hprefix.
    destruct (splitFrom sep (String.length sep - 1) "" r) as [|p rest] eqn:E;
      [now apply splitFrom_nonempty in E|eauto].
Qed.

End JSStringFacts.

Section ServerProperties.

Context {ext : Externals} {json : Json}.
Variable config : RelayerConfig.

(** X15. Routing.  A query string is tolerated on [/execute] only: a POST
    to [/execute?...] is handled exactly as a POST to [/execute], while a
    POST to [/execute-batch?...] and a GET of [/fee?...] are answered 404
    without any ledger interaction, as is every request whose method is
    not OPTIONS, GET or POST. *)
Theorem query_string_tolerated_on_execute_only w tr reqBody q :
  handleRequest config "POST" (Some ("/execute?" ++ q)) reqBody w tr
  = handleRequest config "POST" (Some "/execute") reqBody w tr
  /\ handleRequest config "POST" (Some ("/execute-batch?" ++ q)) reqBody w tr
     = (Returned (Some notFound), tr)
  /\ handleRequest config "GET" (Some ("/fee?" ++ q)) reqBody w tr
     = (Returned (Some notFound), tr)
  /\ (forall method url,
        method <> "OPTIONS" -> method <> "GET" -> method <> "POST" ->
        handleRequest config method url reqBody w tr
        = (Returned (Some notFound), tr)).
Proof.
  split; [|split; [|split]].
  - destruct (JSStringFacts.split_head_before "?" "/execute" q eq_refl)
      as (pieces & Hsplit).
    unfold handleRequest. cbn [String.eqb Ascii.eqb Bool.eqb andb].
    change ("/execute?" ++ q) with ("/execute" ++ String "?" q).
    rewrite Hsplit. reflexivity.
  - destruct (JSStringFacts.split_head_before "?" "/execute-batch" q eq_refl)
      as (pieces & Hsplit).
    unfold handleRequest. cbn [String.eqb Ascii.eqb Bool.eqb andb].
    change ("/execute-batch?" ++ q) with ("/execute-batch" ++ String "?" q).
    rewrite Hsplit. cbn. reflexivity.
  - unfold handleRequest, JS.startsWith. cbn. reflexivity.
  - intros method url Ho Hg Hp. unfold handleRequest.
    apply String.eqb_neq in Ho, Hg, Hp. rewrite Ho, Hg, Hp. reflexivity.
Qed.

(** X16. A GET of a URL that starts with [/nonce/] always has an address
    to ask for, the second piece of the URL split at [/nonce/], which is
    all that follows the prefix when that contains no further [/nonce/].
    The handler reads the replay counter of exactly that address, once,
    and answers 200 with the counter in decimal, or 400 with the message
    of the failed read. *)
Theorem nonce_route_reads_the_named_counter w tr reqBody u :
  JS.startsWith u "/nonce/" = true ->
  exists address pieces,
    JSString.split u "/nonce/" = "" :: address :: pieces
    /\ (forall a,
          u = "/nonce/" ++ a -> JSString.free "/nonce/" a = true ->
          address = a)
    /\ let answer := w_getNonce w (List.length tr) address in
       handleRequest config "GET" (Some u) reqBody w tr
       = (Returned
            (Some (match answer with
                   | Resolved nonce =>
                       jsonResponse 200 (JsonNonce (JS.toString nonce))
                   | Rejected e => jsonResponse 400 (JsonError (message e))
                   end)),
          (tr ++ [EvGetNonce address answer])%list).
Proof.
  intros Hprefix.
  destruct (JSStringFacts.split_prefixed "/nonce/" u ltac:(discriminate)
              Hprefix) as (address & pieces & Hsplit).
  exists address, pieces. split; [exact Hsplit|]. split.
  - intros a -> Hfree. revert Hsplit. unfold JSString.split. cbn.
    rewrite JSStringFacts.prefix_empty. cbn.
    rewrite (JSStringFacts.splitFrom_free _ _ Hfree). cbn. congruence.
  - cbv zeta. unfold handleRequest.
    cbn [String.eqb Ascii.eqb Bool.eqb andb orb].
    rewrite Hprefix, Hsplit. cbn [nth_error].
    cbv [attempt getNonce bind await call unwrap ret throw].
    destruct (w_getNonce w (List.length tr) address); reflexivity.
Qed.

(** X17. A POST to [/execute] whose body is not JSON is answered 400 with
    the parser's message and without any ledger interaction; otherwise the
    handler runs [executePayment] on the parsed request and answers 200
    with its result when it returns, and 400 with the message of its
    failure when it throws. *)
Theorem execute_route_maps_outcome_to_status w tr reqBody :
  let run := handleRequest config "POST" (Some "/execute") reqBody w tr in
  (forall e, parseRequest reqBody = Rejected e ->
     run = (Returned (Some (jsonResponse 400 (JsonError (message e)))), tr))
  /\ (forall req, parseRequest reqBody = Resolved req ->
        snd run = snd (executePayment config req w tr)
        /\ (forall res,
              fst (executePayment config req w tr) = Returned res ->
              fst run = Returned (Some (jsonResponse 200 (JsonResult res))))
        /\ (forall f,
              fst (executePayment config req w tr) = Thrown f ->
              fst run
              = Returned (Some (jsonResponse 400
                                  (JsonError (failureMessage f)))))).
Proof.
  cbv zeta. unfold handleRequest.
  cbn [String.eqb Ascii.eqb Bool.eqb andb orb JSString.split
       JSString.splitFrom].
  change (String.prefix "?" "/execute") with false.
  cbn -[executePayment].
  split.
  - intros e He. cbv [attempt bind unwrap ret throw]. rewrite He. reflexivity.
  - intros req Hreq. cbv [attempt bind unwrap ret throw]. rewrite Hreq.
    destruct (executePayment config req w tr) as [[res|f] tr1];
      cbn [fst snd]; repeat split; intros ? H; try discriminate H;
      injection H as <-; reflexivity.
Qed.

(** X18. A GET of [/fee] reads the minimum fee, then resolves the token
    and reads its decimals; it answers 200 with the fee in base units and
    formatted when all three reads succeed, and writes no response at all
    when any of them fails.  The token is looked up even after the fee
    read failed. *)
Theorem fee_route_answers_only_when_all_reads_succeed w tr reqBody :
  let run := handleRequest config "GET" (Some "/fee") reqBody w tr in
  exists feeRead tokenRead rest,
    snd run = (tr ++ EvRelayerFee feeRead :: EvFxrp tokenRead :: rest)%list
    /\ ((exists resp, fst run = Returned (Some resp))
        <-> exists fee token decimals,
             feeRead = Resolved fee /\ tokenRead = Resolved token
             /\ rest = [EvDecimals token (Resolved decimals)])
    /\ (forall fee token decimals,
          feeRead = Resolved fee -> tokenRead = Resolved token ->
          rest = [EvDecimals token (Resolved decimals)] ->
          fst run
          = Returned (Some (jsonResponse 200
                              (JsonFee (JS.toString fee)
                                       (formatUnits fee decimals ++ " FXRP")))))
    /\ (fst run = Returned None
        \/ exists resp, fst run = Returned (Some resp)).
Proof.
  cbv zeta. unfold handleRequest, JS.startsWith.
  cbn [String.eqb Ascii.eqb Bool.eqb andb orb String.prefix].
  cbn.
  cbv [attempt getRelayerFee getTokenDecimals bind await call unwrap ret
       throw].
  repeat (cbn [fst snd]; try split_innermost).
  all: do 3 eexists; split; [rewrite <- ?app_assoc; cbn [List.app]; reflexivity|].
  all: split;
    [ split;
      [ intros (resp & H); try discriminate H; eauto
      | intros (? & ? & ? & H1 & H2 & H3);
        try discriminate H1; try discriminate H2; try discriminate H3;
        eauto ]
    | split;
      [ intros ? ? ? H1 H2 H3;
        try discriminate H1; try discriminate H2; try discriminate H3;
        injection H1 as <-; injection H2 as <-; injection H3 as <-;
        reflexivity
      | eauto ] ].
  do 3 eexists. repeat split.
Qed.





End ServerProperties.

(* ================================================================== *)
(** * The contract *)

(** Follow a contract function along each of its paths. *)
Ltac split_path :=
  match goal with
  | |- context [if ?c then _ else _] =>
      lazymatch c with
      | context [if _ then _ else _] => fail
      | context [match _ with _ => _ end] => fail
      | _ => destruct c eqn:?
      end
  | |- context [match ?x with _ => _ end] =>
      lazymatch x with
      | context [if _ then _ else _] => fail
      | context [match _ with _ => _ end] => fail
      | _ => destruct x eqn:?
      end
  end.

(** Comparisons of the current path as propositions. *)
Ltac path_facts :=
  repeat match goal with
    | H : (_ >? _) = true |- _ => apply Z.gtb_lt in H
    | H : (_ >? _) = false |- _ => rewrite Z.gtb_ltb in H; apply Z.ltb_ge in H
    | H : (_ <? _) = true |- _ => apply Z.ltb_lt in H
    | H : (_ <? _) = false |- _ => apply Z.ltb_ge in H
    | H : (_ <=? _) = true |- _ => apply Z.leb_le in H
    | H : (_ <=? _) = false |- _ => apply Z.leb_gt in H
    | H : negb (_ =? _) = true |- _ => apply negb_true_iff, Z.eqb_neq in H
    | H : negb (_ =? _) = false |- _ => apply negb_false_iff, Z.eqb_eq in H
    | H : (_ =? _) = true |- _ => apply Z.eqb_eq in H
    | H : (_ =? _) = false |- _ => apply Z.eqb_neq in H
    end.

Section ForwarderProperties.

Import Forwarder.

Context {token : IFAsset} {ecdsa : ECDSA}.

(** The deadline check comes first and alone decides [ExpiredRequest]. *)
Lemma contract_deadline_check env from to amount fee deadline signature c :
  executePayment env from to amount fee deadline signature c
  = Reverted ExpiredRequest
  <-> deadline < block_timestamp env.
Proof.
  cbv beta delta [executePayment recoverSigner add safeTransferFrom bind
                  _hashTypedDataV4] zeta.
  repeat split_path; path_facts; split; intros H; try discriminate H;
    try reflexivity; lia.
Qed.

Ltac run_payment :=
  cbv beta delta [executePayment _executePaymentInternal recoverSigner add
                  safeTransferFrom bind getPaymentRequestHash getNonce
                  _hashTypedDataV4] zeta;
  repeat split_path; path_facts.

(** *** One payment *)

(** X20. The contract checks the deadline first, then the signature,
    then the allowance.  It reverts with [ExpiredRequest] exactly when the
    block's timestamp is past the deadline; otherwise as a signature
    failure exactly when the signature does not recover to [from] over the
    hash [getPaymentRequestHash] gives for the payer's current nonce; and
    with [InsufficientAllowance] exactly when, with both passed and no
    overflow, the allowance is below amount plus fee.  It never reverts
    with [InvalidNonce], [UnauthorizedRelayer] or [ZeroAddress]. *)
Theorem contract_checks_deadline_then_signature
    env from to amount fee deadline signature c :
  let run := executePayment env from to amount fee deadline signature c in
  let hash :=
    getPaymentRequestHash env from to amount fee (getNonce from c) deadline in
  (run = Reverted ExpiredRequest <-> deadline < block_timestamp env)
  /\ (run = Reverted ECDSAInvalidSignature
      <-> block_timestamp env <= deadline /\ recover hash signature = None)
  /\ (run = Reverted InvalidSignature
      <-> block_timestamp env <= deadline
          /\ exists signer,
               recover hash signature = Some signer /\ signer <> from)
  /\ (run = Reverted InsufficientAllowance
      <-> block_timestamp env <= deadline
          /\ recover hash signature = Some from
          /\ getNonce from c + 1 <= MAX_UINT256
          /\ amount + fee <= MAX_UINT256
          /\ allowance (fxrp c) from (this env) < amount + fee)
  /\ (forall r,
        run = Reverted r ->
        r <> InvalidNonce /\ r <> UnauthorizedRelayer /\ r <> ZeroAddress).
Proof.
  cbv zeta. run_payment.
  all: repeat apply conj.
  all: try (intros r H; injection H as <-; repeat apply conj; discriminate).
  all: try (intros r H; discriminate H).
  all: intros H; try discriminate H; try lia; try reflexivity.
  all: repeat match goal with
         | H : _ /\ _ |- _ => destruct H
         | H : exists _, _ |- _ => destruct H
         end.
  all: try congruence; try lia.
  all: subst; repeat apply conj; eauto; try lia.
  all: cbn [fxrp setNonce] in *; lia.
Qed.

(** What a payment that does not revert has checked and done. *)
Lemma payment_effect env from to amount fee deadline signature c c' :
  executePayment env from to amount fee deadline signature c = Ok c' ->
  storage c'
  = {| nonces := assign (nonces (storage c)) from (nonces (storage c) from + 1);
       authorizedRelayers := authorizedRelayers (storage c);
       relayerFee := relayerFee (storage c);
       owner := owner (storage c) |}
  /\ logs c'
     = (logs c
        ++ [PaymentExecuted from to amount fee (nonces (storage c) from)])%list
  /\ recover (getPaymentRequestHash env from to amount fee
                (nonces (storage c) from) deadline) signature
     = Some from
  /\ block_timestamp env <= deadline
  /\ nonces (storage c) from + 1 <= MAX_UINT256
  /\ amount + fee <= allowance (fxrp c) from (this env)
  /\ exists t,
       transferFrom (this env) from to amount (fxrp c) = Some t
       /\ if fee >? 0
          then transferFrom (this env) from (msg_sender env) fee t
               = Some (fxrp c')
          else fxrp c' = t.
Proof.
  run_payment.
  all: intros H; try discriminate H; injection H as <-.
  all: subst; cbn [storage logs fxrp setNonce emit] in *.
  all: repeat apply conj; try reflexivity; try assumption; try lia.
  all: eexists; split; [eassumption|].
  - replace (fee >? 0) with true by (symmetry; now apply Z.gtb_lt).
    assumption.
  - replace (fee >? 0) with false
      by (symmetry; rewrite Z.gtb_ltb; now apply Z.ltb_ge).
    reflexivity.
Qed.

(** The body of the loop of a batch is [executePayment] on the fields of
    the entry. *)
Lemma internal_is_payment env req c :
  _executePaymentInternal env req c = call env (asCall req) c.
Proof. reflexivity. Qed.

Lemma batch_app env l1 l2 c :
  executeBatchPayments env (l1 ++ l2) c
  = bind (executeBatchPayments env l1 c) (executeBatchPayments env l2).
Proof.
  revert c. induction l1 as [|req l1 IH]; intros c; cbn [List.app].
  - reflexivity.
  - cbn [executeBatchPayments]. unfold bind at 1 3.
    destruct (_executePaymentInternal env req c); [apply IH|reflexivity].
Qed.

(** A batch that does not revert is a history of payments. *)
Lemma batch_history env requests c0 c c' :
  history c0 c ->
  executeBatchPayments env requests c = Ok c' ->
  history c0 c'.
Proof.
  revert c. induction requests as [|req rest IH]; intros c Hc;
    cbn [executeBatchPayments].
  - intros H. injection H as <-. exact Hc.
  - unfold bind. destruct (_executePaymentInternal env req c) as [c1|] eqn:E;
      [|discriminate].
    apply IH. rewrite internal_is_payment in E.
    exact (history_call _ env (asCall req) c c1 Hc E).
Qed.

(** Each call leaves every nonce where it was or higher, and the owner
    where it was. *)
Lemma call_nonces_grow env x c c' :
  call env x c = Ok c' ->
  forall a, nonces (storage c) a <= nonces (storage c') a.
Proof.
  assert (Hpay : forall from to amount fee deadline signature c c',
             executePayment env from to amount fee deadline signature c
             = Ok c' ->
             forall a, nonces (storage c) a <= nonces (storage c') a).
  { intros from to amount fee deadline signature c1 c2 H a.
    apply payment_effect in H as (-> & _). cbn [nonces]. unfold assign.
    destruct (a =? from) eqn:E; [apply Z.eqb_eq in E; subst|]; lia. }
  destruct x as [from to amount fee deadline signature|requests|r b|f];
    cbn [call].
  - apply Hpay.
  - revert c. induction requests as [|req rest IH]; intros c;
      cbn [executeBatchPayments].
    + intros H a. injection H as <-. lia.
    + unfold bind.
      destruct (_executePaymentInternal env req c) as [c1|] eqn:E;
        [|discriminate].
      intros H a. specialize (IH c1 H a).
      rewrite internal_is_payment in E. cbn [call asCall] in E.
      specialize (Hpay _ _ _ _ _ _ _ _ E a). lia.
  - unfold setRelayerAuthorization, onlyOwner, bind.
    destruct (msg_sender env =? owner (storage c)); [|discriminate].
    intros H a. injection H as <-. cbn. lia.
  - unfold setRelayerFee, onlyOwner, bind.
    destruct (msg_sender env =? owner (storage c)); [|discriminate].
    intros H a. injection H as <-. cbn. lia.
Qed.

Lemma history_nonces_grow c0 c :
  history c0 c -> forall a, nonces (storage c0) a <= nonces (storage c) a.
Proof.
  induction 1 as [|env x c c' _ IH Hcall|c t _ IH|c o _ IH]; intros a.
  - lia.
  - specialize (IH a). pose proof (call_nonces_grow _ _ _ _ Hcall a). lia.
  - apply IH.
  - apply IH.
Qed.

(** Once the nonce of [from] has moved on, a signature that was accepted
    for it is accepted no more. *)
Lemma stale_payment_reverts env from to amount fee deadline signature c
    env2 c2 :
  signaturesBindNonce ->
  recover (getPaymentRequestHash env from to amount fee
             (nonces (storage c) from) deadline) signature = Some from ->
  nonces (storage c) from < nonces (storage c2) from ->
  block_chainid env2 = block_chainid env ->
  this env2 = this env ->
  let again := executePayment env2 from to amount fee deadline signature c2 in
  again = Reverted ExpiredRequest
  \/ again = Reverted ECDSAInvalidSignature
  \/ again = Reverted InvalidSignature.
Proof.
  intros Hbind Hrec Hlt Hchain Hthis. cbv zeta.
  assert (Hstale : recover (getPaymentRequestHash env2 from to amount fee
                              (nonces (storage c2) from) deadline) signature
                   <> Some from).
  { intros H.
    assert (Hrec' : recover (getPaymentRequestHash env2 from to amount fee
                               (nonces (storage c) from) deadline) signature
                    = Some from).
    { unfold getPaymentRequestHash, _hashTypedDataV4 in *.
      now rewrite Hchain, Hthis. }
    pose proof (Hbind _ _ _ _ _ _ _ _ _ _ Hrec' H). lia. }
  revert Hstale. run_payment.
  all: intros Hstale; subst; auto.
  all: contradiction.
Qed.

(** X21. A payment that does not revert was sent no later than its
    deadline with a signature that recovers to [from] over the hash
    [getPaymentRequestHash] gives for the payer's current nonce, against
    an allowance of at least amount plus fee.  It moves the payer's nonce
    up by one and no other, leaves the relayer authorizations, the minimum
    fee and the owner as they were, has the token move the amount to the
    recipient and then, when the fee is not zero, the fee to the sender of
    the transaction, and logs one [PaymentExecuted] with the nonce it
    consumed. *)
Theorem executed_payment_effect
    env from to amount fee deadline signature c c' :
  executePayment env from to amount fee deadline signature c = Ok c' ->
  block_timestamp env <= deadline
  /\ recover (getPaymentRequestHash env from to amount fee (getNonce from c)
                deadline) signature = Some from
  /\ amount + fee <= allowance (fxrp c) from (this env)
  /\ getNonce from c' = getNonce from c + 1
  /\ (forall a, a <> from -> getNonce a c' = getNonce a c)
  /\ authorizedRelayers (storage c') = authorizedRelayers (storage c)
  /\ relayerFee (storage c') = relayerFee (storage c)
  /\ owner (storage c') = owner (storage c)
  /\ logs c'
     = (logs c ++ [PaymentExecuted from to amount fee (getNonce from c)])%list
  /\ exists t,
       transferFrom (this env) from to amount (fxrp c) = Some t
       /\ if fee >? 0
          then transferFrom (this env) from (msg_sender env) fee t
               = Some (fxrp c')
          else fxrp c' = t.
Proof.
  intros H.
  apply payment_effect in H as (Hs & Hl & Hr & Hd & _ & Ha & Ht).
  unfold getNonce. rewrite Hs. cbn [nonces authorizedRelayers relayerFee owner].
  repeat apply conj; try assumption; try reflexivity.
  - unfold assign. now rewrite Z.eqb_refl.
  - intros a Ha'. unfold assign. apply Z.eqb_neq in Ha'. now rewrite Ha'.
Qed.

(** X22. Neither the relayer authorizations nor the minimum fee nor the
    owner take part in a payment: [executePayment] and
    [executeBatchPayments] revert or succeed alike, with the same effect,
    whatever these are set to. *)
Theorem payments_ignore_relayer_authorization_and_fee
    env auth minFee o c :
  (forall from to amount fee deadline signature,
      executePayment env from to amount fee deadline signature
                     (configured auth minFee o c)
      = match executePayment env from to amount fee deadline signature c with
        | Ok c' => Ok (configured auth minFee o c')
        | Reverted r => Reverted r
        end)
  /\ (forall requests,
        executeBatchPayments env requests (configured auth minFee o c)
        = match executeBatchPayments env requests c with
          | Ok c' => Ok (configured auth minFee o c')
          | Reverted r => Reverted r
          end).
Proof.
  assert (Hpay : forall c from to amount fee deadline signature,
      executePayment env from to amount fee deadline signature
                     (configured auth minFee o c)
      = match executePayment env from to amount fee deadline signature c with
        | Ok c' => Ok (configured auth minFee o c')
        | Reverted r => Reverted r
        end).
  { intros c1 from to amount fee deadline signature.
    cbv beta delta [executePayment recoverSigner add safeTransferFrom bind
                    _hashTypedDataV4 configured setNonce emit] zeta.
    repeat (cbn [storage fxrp logs nonces authorizedRelayers relayerFee
                 owner]; split_path).
    all: reflexivity. }
  split; [apply Hpay|].
  intros requests. revert c.
  induction requests as [|req rest IH]; intros c;
    cbn [executeBatchPayments]; [reflexivity|].
  rewrite !internal_is_payment. cbn [call asCall]. rewrite Hpay.
  unfold bind.
  destruct (executePayment env (from req) (to req) (amount req) (fee req)
              (deadline req) (signature req) c); [apply IH|reflexivity].
Qed.

(** X23. A batch is the sequence of its payments: it runs
    [executePayment] on the fields of each entry in turn, each on the state
    the one before left, and reverts with the error of the first entry that
    reverts. *)
Theorem batch_is_sequence_of_payments env requests c :
  executeBatchPayments env requests c
  = fold_left (fun r req => bind r (call env (asCall req))) requests (Ok c)
  /\ (forall l1 req l2 c1 r,
        requests = (l1 ++ req :: l2)%list ->
        executeBatchPayments env l1 c = Ok c1 ->
        call env (asCall req) c1 = Reverted r ->
        executeBatchPayments env requests c = Reverted r).
Proof.
  split.
  - assert (Hrev : forall l r,
               fold_left (fun r req => bind r (call env (asCall req))) l
                         (Reverted r) = Reverted r)
      by (induction l as [|x l IH]; intros r; [reflexivity|apply IH]).
    revert c. induction requests as [|req rest IH]; intros c;
      [reflexivity|].
    cbn [executeBatchPayments fold_left]. rewrite internal_is_payment.
    unfold bind at 1 3.
    destruct (call env (asCall req) c); [apply IH|now rewrite Hrev].
  - intros l1 req l2 c1 r -> H1 Hreq.
    rewrite batch_app, H1. cbn [bind executeBatchPayments].
    rewrite internal_is_payment, Hreq. reflexivity.
Qed.

(** X24. Replay protection.  When signatures are bound to the nonce they
    were made for, a payment that has been executed is never executed
    again: in every later state of the chain, from any sender and at any
    time, the same call reverts, with [ExpiredRequest] or as a signature
    failure, and so does a batch that contains it. *)
Theorem executed_payment_cannot_be_replayed
    env from to amount fee deadline signature c c1 c2 env2 :
  signaturesBindNonce ->
  executePayment env from to amount fee deadline signature c = Ok c1 ->
  history c1 c2 ->
  block_chainid env2 = block_chainid env ->
  this env2 = this env ->
  let again := executePayment env2 from to amount fee deadline signature c2 in
  (again = Reverted ExpiredRequest
   \/ again = Reverted ECDSAInvalidSignature
   \/ again = Reverted InvalidSignature)
  /\ (forall before after c3,
        executeBatchPayments env2
          (before
           ++ {| from := from; to := to; amount := amount; fee := fee;
                 deadline := deadline; signature := signature |} :: after)
          c2
        <> Ok c3).
Proof.
  intros Hbind Hrun Hhist Hchain Hthis. cbv zeta.
  apply payment_effect in Hrun as (Hs & _ & Hrec & _).
  assert (Hlt : forall c', history c2 c' ->
                nonces (storage c) from < nonces (storage c') from).
  { intros c' Hc'.
    pose proof (history_nonces_grow _ _ Hhist from) as H1.
    pose proof (history_nonces_grow _ _ Hc' from) as H2.
    rewrite Hs in H1. cbn [nonces] in H1. unfold assign in H1.
    rewrite Z.eqb_refl in H1. lia. }
  split.
  - apply (stale_payment_reverts env from to amount fee deadline signature c
             env2 c2 Hbind Hrec); auto.
    apply Hlt. constructor.
  - intros before after c3. rewrite batch_app. unfold bind.
    destruct (executeBatchPayments env2 before c2) as [c'|] eqn:E;
      [|discriminate].
    cbn [executeBatchPayments]. rewrite internal_is_payment.
    cbn [call asCall Forwarder.from Forwarder.to Forwarder.amount
         Forwarder.fee Forwarder.deadline Forwarder.signature].
    assert (Hc' : history c2 c')
      by (eapply batch_history; [constructor|exact E]).
    destruct (stale_payment_reverts env from to amount fee deadline signature
                c env2 c' Hbind Hrec (Hlt _ Hc') Hchain Hthis)
      as [H|[H|H]]; rewrite H; discriminate.
Qed.

(** X25. When signatures are bound to the nonce they were made for, a
    batch in which the same signed request occurs twice reverts as a
    whole. *)
Theorem batch_with_repeated_request_reverts env l1 req l2 l3 c c' :
  signaturesBindNonce ->
  executeBatchPayments env (l1 ++ req :: l2 ++ req :: l3) c <> Ok c'.
Proof.
  intros Hbind. rewrite batch_app. unfold bind.
  destruct (executeBatchPayments env l1 c) as [c1|]; [|discriminate].
  cbn [executeBatchPayments]. rewrite internal_is_payment.
  cbn [call asCall]. unfold bind.
  destruct (executePayment env (from req) (to req) (amount req) (fee req)
              (deadline req) (signature req) c1) as [c2|] eqn:E1;
    [|discriminate].
  rewrite batch_app. unfold bind.
  destruct (executeBatchPayments env l2 c2) as [c3|] eqn:E2; [|discriminate].
  cbn [executeBatchPayments]. rewrite internal_is_payment.
  cbn [call asCall].
  assert (Hhist : history c2 c3)
    by (eapply batch_history; [constructor|exact E2]).
  pose proof (history_nonces_grow _ _ Hhist (from req)) as Hgrow.
  apply payment_effect in E1 as (Hs & _ & Hrec & _).
  rewrite Hs in Hgrow. cbn [nonces] in Hgrow. unfold assign in Hgrow.
  rewrite Z.eqb_refl in Hgrow.
  destruct (stale_payment_reverts env (from req) (to req) (amount req)
              (fee req) (deadline req) (signature req) c1 env c3 Hbind Hrec
              ltac:(lia) eq_refl eq_refl)
    as [H|[H|H]]; unfold bind; rewrite H; discriminate.
Qed.

Lemma executedNonces_app a l1 l2 :
  executedNonces a (l1 ++ l2)
  = (executedNonces a l1 ++ executedNonces a l2)%list.
Proof.
  induction l1 as [|[from ? ? ? n| |] l1 IH]; cbn [List.app executedNonces];
    try assumption; [reflexivity|].
  destruct (from =? a); [cbn [List.app]; now rewrite IH|assumption].
Qed.

Lemma payment_keeps_log_in_step env from to amount fee deadline signature
    c c' :
  noncesMatchLog c ->
  executePayment env from to amount fee deadline signature c = Ok c' ->
  noncesMatchLog c'.
Proof.
  intros Hinv H a. destruct (Hinv a) as (H0 & Hlog).
  apply payment_effect in H as (-> & -> & _).
  cbn [nonces]. rewrite executedNonces_app. cbn [executedNonces].
  unfold assign. rewrite (Z.eqb_sym a from).
  destruct (from =? a) eqn:E.
  - apply Z.eqb_eq in E. subst a. split; [lia|].
    replace (Z.to_nat (nonces (storage c) from + 1))
      with (S (Z.to_nat (nonces (storage c) from))) by lia.
    rewrite seq_S, map_app, Hlog. cbn [map Nat.add].
    now rewrite Z2Nat.id.
  - split; [assumption|]. now rewrite app_nil_r.
Qed.

Lemma call_keeps_log_in_step env x c c' :
  noncesMatchLog c -> call env x c = Ok c' -> noncesMatchLog c'.
Proof.
  destruct x as [from to amount fee deadline signature|requests|r b|f];
    cbn [call].
  - apply payment_keeps_log_in_step.
  - revert c. induction requests as [|req rest IH]; intros c Hinv;
      cbn [executeBatchPayments].
    + intros H. now injection H as <-.
    + unfold bind.
      destruct (_executePaymentInternal env req c) as [c1|] eqn:E;
        [|discriminate].
      apply IH. rewrite internal_is_payment in E.
      exact (payment_keeps_log_in_step _ _ _ _ _ _ _ _ _ Hinv E).
  - unfold setRelayerAuthorization, onlyOwner, bind.
    destruct (msg_sender env =? owner (storage c)); [|discriminate].
    intros Hinv H a. injection H as <-. destruct (Hinv a) as (H0 & Hlog).
    cbn [storage logs emit nonces]. rewrite executedNonces_app.
    cbn [executedNonces]. now rewrite app_nil_r.
  - unfold setRelayerFee, onlyOwner, bind.
    destruct (msg_sender env =? owner (storage c)); [|discriminate].
    intros Hinv H a. injection H as <-. destruct (Hinv a) as (H0 & Hlog).
    cbn [storage logs emit nonces]. rewrite executedNonces_app.
    cbn [executedNonces]. now rewrite app_nil_r.
Qed.

(** X26. In every state a deployment can reach, the nonce of an account
    is the number of payments executed for it, and the payments logged for
    it carry the nonces 0, 1, 2, ... in order: no two executed payments of
    one payer share a nonce. *)
Theorem nonces_count_executed_payments env0 fee0 t0 c a :
  history (deployed env0 fee0 t0) c ->
  executedNonces a (logs c) = map Z.of_nat (seq 0 (Z.to_nat (getNonce a c)))
  /\ Z.of_nat (List.length (executedNonces a (logs c))) = getNonce a c
  /\ NoDup (executedNonces a (logs c)).
Proof.
  intros Hhist.
  assert (Hinv : noncesMatchLog c).
  { induction Hhist as [|env x c c' _ IH Hcall|c t _ IH|c o _ IH].
    - intros b. cbn. split; [lia|reflexivity].
    - exact (call_keeps_log_in_step _ _ _ _ IH Hcall).
    - exact IH.
    - exact IH. }
  destruct (Hinv a) as (H0 & Hlog). unfold getNonce.
  rewrite Hlog. repeat apply conj.
  - reflexivity.
  - rewrite length_map, length_seq. lia.
  - clear Hlog.
    generalize (seq_NoDup (Z.to_nat (nonces (storage c) a)) 0).
    induction 1 as [|n l Hn _ IH]; cbn [map]; [constructor|].
    constructor; [|exact IH]. intros Hin. apply in_map_iff in Hin as (m & Hm & Hin).
    apply Nat2Z.inj in Hm. now subst m.
Qed.


End ForwarderProperties.

(* ================================================================== *)
(** * The engine against the contract *)

Section EngineAndContract.

Context {ext : Externals}.
Context {token : Forwarder.IFAsset} {ecdsa : Forwarder.ECDSA}.
Variable config : RelayerConfig.

(** X28. On the deadline itself the engine and the contract disagree.
    When the latest block carries the deadline as its timestamp, the
    engine's validation reports the request as expired; the contract, in
    a block with that timestamp, does not revert with [ExpiredRequest] and
    treats the payment exactly as in any earlier block. *)
Theorem deadline_block_refused_by_engine_not_by_contract
    w req tr blk env payer payee value tip sig c t :
  w_getBlock w (List.length tr) = Resolved (Some blk) ->
  timestamp blk = deadline req ->
  Forwarder.block_timestamp env = timestamp blk ->
  t <= deadline req ->
  let onChain :=
    Forwarder.executePayment env payer payee value tip (deadline req) sig c in
  validateRequest config req w tr
  = (Thrown (RequestExpired (deadline req) (timestamp blk)),
     (tr ++ [EvGetBlock (Resolved (Some blk))])%list)
  /\ onChain <> Forwarder.Reverted Forwarder.ExpiredRequest
  /\ onChain
     = Forwarder.executePayment (Forwarder.atTime t env) payer payee value
                                tip (deadline req) sig c.
Proof.
  intros Hblock Hblk Henv Ht. cbv zeta. split; [|split].
  - pose proof (validateRequest_expired config w req tr blk (signature req)
                  Hblock ltac:(lia)) as H.
    now destruct req.
  - intros H.
    apply (proj1 (contract_deadline_check env payer payee value tip
                    (deadline req) sig c)) in H.
    lia.
  - unfold Forwarder.executePayment.
    cbn [Forwarder.block_timestamp Forwarder.atTime].
    replace (Forwarder.block_timestamp env >? deadline req) with false
      by (symmetry; rewrite Z.gtb_ltb; apply Z.ltb_ge; lia).
    replace (t >? deadline req) with false
      by (symmetry; rewrite Z.gtb_ltb; apply Z.ltb_ge; lia).
    reflexivity.
Qed.

End EngineAndContract.

(* ================================================================== *)
(** * The further properties on concrete runs *)

Lemma fee_too_low_iff_witness :
  In (EvDecimals Sample.token (Resolved 6))
     (snd (validateRequest Sample.config Scenario.lowFee Sample.world []))
  /\ fst (validateRequest Sample.config Scenario.lowFee Sample.world [])
     = Thrown (FeeTooLow 5 6)
  /\ failureMessage (FeeTooLow 5 6)
     = "Fee too low. Minimum: " ++ formatUnits 5 6 ++ " FXRP".
Proof.
  destruct (@fee_too_low_iff Sample.externals Sample.config Sample.world
              Scenario.lowFee [] _ 5 3 eq_refl
              ltac:(vm_compute; tauto) eq_refl)
    as (token & decimals & _ & Hd & _ & Hlow & _ & Hmsg).
  assert (E : token = Sample.token /\ decimals = 6).
  { vm_compute in Hd.
    repeat (destruct Hd as [Hd|Hd]; try discriminate Hd);
      [|contradiction].
    injection Hd as <- <-. split; reflexivity. }
  destruct E as [-> ->].
  split; [vm_compute; tauto|]. split; [apply Hlow; lia|exact Hmsg].
Defined.

Lemma expiry_falls_back_to_local_clock_witness :
  exists r rest,
    snd (validateRequest Sample.config Sample.request Scenario.noBlock [])
    = EvGetBlock (Resolved None) :: EvDateNow 1000500 :: EvFxrp r :: rest.
Proof.
  apply (proj2 (expiry_falls_back_to_local_clock Sample.config
                  Scenario.noBlock Sample.request [] eq_refl)).
  vm_compute. reflexivity.
Defined.

Lemma validation_returns_iff_checks_pass_witness :
  passingValidation Sample.config Sample.request
    (snd (validateRequest Sample.config Sample.request Sample.world []))
  /\ fst (validateRequest Sample.config Sample.request Sample.world [])
     = Returned tt.
Proof.
  split; [|vm_compute; reflexivity].
  apply (proj1 (proj1 (validation_returns_iff_checks_pass Sample.config
                         Sample.world Sample.request [] _ eq_refl))).
  vm_compute. reflexivity.
Defined.

Lemma submission_follows_every_check_witness :
  In (EvSend Sample.args 27301 (Resolved {| hash := "0xabc" |}))
     (snd (pay Sample.request Sample.world []))
  /\ List.length (filter isSubmit (snd (pay Sample.request Sample.world [])))
     = 1%nat.
Proof.
  split; [vm_compute; tauto|].
  destruct (@submission_follows_every_check Sample.externals Sample.config
              Sample.world Sample.request Sample.args 27301
              (Resolved {| hash := "0xabc" |}) ltac:(vm_compute; tauto))
    as (chain & nonce & checks & E & rest & _ & _ & _ & H).
  exact H.
Defined.

Lemma submitted_arguments_are_normalized_witness :
  In (EvStaticCall Sample.args (Resolved tt))
     (snd (pay Sample.request Sample.world []))
  /\ JS.StringToBigInt (amount Sample.request) = Some (a_amount Sample.args)
  /\ a_signature Sample.args = signature Sample.request.
Proof.
  split; [vm_compute; tauto|].
  pose proof (@submitted_arguments_are_normalized Sample.externals
                Sample.config Sample.world Sample.request Sample.args
                (Resolved tt) ltac:(vm_compute; tauto))
    as (_ & _ & H & _).
  split; [exact H|reflexivity].
Defined.

Lemma failed_dry_run_stops_pipeline_witness :
  fst (pay Sample.request Scenario.failingDryRun [])
  = Thrown (SimulationFailed "ExpiredRequest")
  /\ List.length (nonceReads (snd (pay Sample.request Scenario.failingDryRun [])))
     = 1%nat
  /\ never isEstimate (snd (pay Sample.request Scenario.failingDryRun []))
  /\ never isSubmit (snd (pay Sample.request Scenario.failingDryRun [])).
Proof.
  split; [vm_compute; reflexivity|].
  apply (@failed_dry_run_stops_pipeline Sample.externals Sample.config
           Scenario.failingDryRun Sample.request Sample.args
           Scenario.revertWithReason).
  vm_compute. tauto.
Defined.

Lemma failed_estimate_stops_before_submission_witness :
  fst (pay Sample.request Scenario.failingEstimate [])
  = Thrown (EstimationFailed "out of gas")
  /\ failureMessage (EstimationFailed "out of gas")
     = "Gas estimation failed (contract would revert): out of gas"
  /\ never isSubmit (snd (pay Sample.request Scenario.failingEstimate [])).
Proof.
  apply (@failed_estimate_stops_before_submission Sample.externals
           Sample.config Scenario.failingEstimate Sample.request Sample.args
           (plainError "out of gas")).
  vm_compute. tauto.
Defined.

Lemma rejected_submission_is_diagnosed_witness :
  fst (pay Sample.request Scenario.rejectingSend [])
  = Thrown (Enriched "sendTransaction"
              (parseRevertReason Sample.revertWithData) "")
  /\ failureMessage (Enriched "sendTransaction"
                       (parseRevertReason Sample.revertWithData) "")
     = "sendTransaction failed: " ++ parseRevertReason Sample.revertWithData
  /\ never isWait (snd (pay Sample.request Scenario.rejectingSend []))
  /\ never isFetch (snd (pay Sample.request Scenario.rejectingSend [])).
Proof.
  apply (@rejected_submission_is_diagnosed Sample.externals Sample.config
           Scenario.rejectingSend Sample.request Sample.args 27301
           Sample.revertWithData).
  vm_compute. tauto.
Defined.


Lemma signature_failures_precede_ledger_reads_witness :
  exists chain sender nonce,
    getAddress (from Scenario.garbled) = Resolved sender
    /\ snd (pay Scenario.garbled Sample.world [])
       = [EvGetNetwork (Resolved chain); EvGetNonce sender (Resolved nonce)].
Proof.
  apply (@signature_failures_precede_ledger_reads Sample.externals
           Sample.config Sample.world Scenario.garbled
           (InvalidSignatureFormat "invalid signature length")).
  - vm_compute. reflexivity.
  - left. eexists. reflexivity.
Defined.

Lemma returned_result_reflects_receipt_witness :
  fst (pay Sample.request Sample.world [])
  = Returned {| success := true; transactionHash := "0xabc";
                blockNumber := Some 42; gasUsed := "25000" |}
  /\ exists args g tx receipt,
      In (EvSend args g (Resolved tx)) (snd (pay Sample.request Sample.world []))
      /\ In (EvWait (hash tx) (Resolved receipt))
            (snd (pay Sample.request Sample.world []))
      /\ "0xabc" = hash tx.
Proof.
  split; [vm_compute; reflexivity|].
  destruct (@returned_result_reflects_receipt Sample.externals Sample.config
              Sample.world Sample.request
              {| success := true; transactionHash := "0xabc";
                 blockNumber := Some 42; gasUsed := "25000" |}
              ltac:(vm_compute; reflexivity))
    as (_ & args & g & tx & receipt & H1 & H2 & H3 & _).
  exists args, g, tx, receipt. repeat apply conj; assumption.
Defined.

Lemma signed_request_reaches_validation_witness :
  createdRequest Sample.alice Scenario.params Sample.aliceSignature
  = Sample.request
  /\ exists blockRead rest,
      snd (pay Sample.request Sample.world [])
      = EvGetNetwork (Resolved 114) :: EvGetNonce Sample.alice (Resolved 7)
        :: EvGetBlock blockRead :: rest.
Proof.
  split; [reflexivity|].
  apply (@signed_request_reaches_validation Sample.externals Sample.config
           Sample.world Sample.alice Scenario.params Sample.aliceSignature);
    first [vm_compute; reflexivity | cbn; lia].
Defined.

Lemma batch_stops_at_first_failure_witness :
  exists tr,
    batch ([Sample.request; Scenario.lowFee] ++ [Sample.request])
          Sample.world []
    = (Thrown (FeeTooLow 5 6), tr)
    /\ never isSubmit tr.
Proof.
  eexists.
  apply (batch_stops_at_first_failure Sample.config Sample.world
           [Sample.request; Scenario.lowFee] [Sample.request]).
  vm_compute. reflexivity.
Defined.

Lemma nonce_route_reads_the_named_counter_witness :
  exists address pieces,
    JSString.split ("/nonce/" ++ Sample.alice) "/nonce/"
    = "" :: address :: pieces
    /\ (forall a,
          "/nonce/" ++ Sample.alice = "/nonce/" ++ a ->
          JSString.free "/nonce/" a = true -> address = a)
    /\ @handleRequest Sample.externals ServerSample.json Sample.config "GET"
         (Some ("/nonce/" ++ Sample.alice)) "" Sample.world []
       = (Returned
            (Some (match w_getNonce Sample.world 0 address with
                   | Resolved nonce =>
                       jsonResponse 200 (JsonNonce (JS.toString nonce))
                   | Rejected e => jsonResponse 400 (JsonError (message e))
                   end)),
          [EvGetNonce address (w_getNonce Sample.world 0 address)]).
Proof.
  apply (@nonce_route_reads_the_named_counter Sample.externals
           ServerSample.json Sample.config Sample.world [] ""
           ("/nonce/" ++ Sample.alice)).
  vm_compute. reflexivity.
Defined.


(** *** The contract on a plain ledger *)

#[local] Existing Instance Forwarder.SampleToken.ledger.
#[local] Existing Instance Forwarder.SampleToken.ecdsa.

(** The stand-in recovery binds a signature to its nonce. *)
Lemma sample_signatures_bind_nonce :
  @Forwarder.signaturesBindNonce Forwarder.SampleToken.ecdsa.
Proof.
  intros env from to amount fee deadline n n' sig a.
  cbn. unfold Forwarder.SampleToken.sampleRecover. cbn.
  destruct sig as [|s [|b [|? ?]]]; try discriminate.
  destruct (Z.of_N (Byte.to_N b) =? n) eqn:E1; [|discriminate].
  destruct (Z.of_N (Byte.to_N b) =? n') eqn:E2; [|discriminate].
  apply Z.eqb_eq in E1, E2. congruence.
Qed.

Lemma executed_payment_effect_witness :
  Forwarder.call Forwarder.SampleToken.env
    (Forwarder.asCall Forwarder.SampleToken.payment)
    Forwarder.SampleToken.genesis
  = Forwarder.Ok Forwarder.SampleToken.afterPayment
  /\ Forwarder.getNonce Forwarder.SampleToken.alice
       Forwarder.SampleToken.afterPayment
     = Forwarder.getNonce Forwarder.SampleToken.alice
         Forwarder.SampleToken.genesis + 1
  /\ Forwarder.logs Forwarder.SampleToken.afterPayment
     = [Forwarder.PaymentExecuted 1 2 80 10 0].
Proof.
  split; [vm_compute; reflexivity|].
  pose proof (@executed_payment_effect Forwarder.SampleToken.ledger
                Forwarder.SampleToken.ecdsa Forwarder.SampleToken.env
                Forwarder.SampleToken.alice Forwarder.SampleToken.bob
                80 10 2000 Forwarder.SampleToken.aliceSig0
                Forwarder.SampleToken.genesis
                Forwarder.SampleToken.afterPayment
                ltac:(vm_compute; reflexivity))
    as (_ & _ & _ & H & _ & _ & _ & _ & Hl & _).
  split; [exact H|exact Hl].
Defined.

Lemma executed_payment_cannot_be_replayed_witness :
  Forwarder.executePayment Forwarder.SampleToken.env
    Forwarder.SampleToken.alice Forwarder.SampleToken.bob 80 10 2000
    Forwarder.SampleToken.aliceSig0 Forwarder.SampleToken.afterPayment
  = Forwarder.Reverted Forwarder.ECDSAInvalidSignature
  /\ ((Forwarder.executePayment Forwarder.SampleToken.env
         Forwarder.SampleToken.alice Forwarder.SampleToken.bob 80 10 2000
         Forwarder.SampleToken.aliceSig0 Forwarder.SampleToken.afterPayment
       = Forwarder.Reverted Forwarder.ExpiredRequest
       \/ Forwarder.executePayment Forwarder.SampleToken.env
            Forwarder.SampleToken.alice Forwarder.SampleToken.bob 80 10 2000
            Forwarder.SampleToken.aliceSig0 Forwarder.SampleToken.afterPayment
          = Forwarder.Reverted Forwarder.ECDSAInvalidSignature
       \/ Forwarder.executePayment Forwarder.SampleToken.env
            Forwarder.SampleToken.alice Forwarder.SampleToken.bob 80 10 2000
            Forwarder.SampleToken.aliceSig0 Forwarder.SampleToken.afterPayment
          = Forwarder.Reverted Forwarder.InvalidSignature)
      /\ (forall before after c3,
            Forwarder.executeBatchPayments Forwarder.SampleToken.env
              (before ++ Forwarder.SampleToken.payment :: after)
              Forwarder.SampleToken.afterPayment
            <> Forwarder.Ok c3)).
Proof.
  split; [vm_compute; reflexivity|].
  apply (@executed_payment_cannot_be_replayed Forwarder.SampleToken.ledger
           Forwarder.SampleToken.ecdsa Forwarder.SampleToken.env
           Forwarder.SampleToken.alice Forwarder.SampleToken.bob 80 10 2000
           Forwarder.SampleToken.aliceSig0 Forwarder.SampleToken.genesis
           Forwarder.SampleToken.afterPayment
           Forwarder.SampleToken.afterPayment Forwarder.SampleToken.env
           sample_signatures_bind_nonce).
  - vm_compute. reflexivity.
  - constructor.
  - reflexivity.
  - reflexivity.
Defined.

Lemma batch_with_repeated_request_reverts_witness :
  Forwarder.executeBatchPayments Forwarder.SampleToken.env
    ([] ++ Forwarder.SampleToken.payment
        :: [] ++ Forwarder.SampleToken.payment :: [])
    Forwarder.SampleToken.genesis
  <> Forwarder.Ok Forwarder.SampleToken.afterPayment
  /\ Forwarder.executeBatchPayments Forwarder.SampleToken.env
       [Forwarder.SampleToken.payment; Forwarder.SampleToken.payment]
       Forwarder.SampleToken.genesis
     = Forwarder.Reverted Forwarder.ECDSAInvalidSignature.
Proof.
  split; [|vm_compute; reflexivity].
  apply (@batch_with_repeated_request_reverts Forwarder.SampleToken.ledger
           Forwarder.SampleToken.ecdsa Forwarder.SampleToken.env []
           Forwarder.SampleToken.payment [] []
           Forwarder.SampleToken.genesis Forwarder.SampleToken.afterPayment
           sample_signatures_bind_nonce).
Defined.

Lemma nonces_count_executed_payments_witness :
  Forwarder.executedNonces Forwarder.SampleToken.alice
    (Forwarder.logs Forwarder.SampleToken.afterPayment)
  = map Z.of_nat
        (seq 0 (Z.to_nat (Forwarder.getNonce Forwarder.SampleToken.alice
                            Forwarder.SampleToken.afterPayment)))
  /\ Z.of_nat
       (List.length
          (Forwarder.executedNonces Forwarder.SampleToken.alice
             (Forwarder.logs Forwarder.SampleToken.afterPayment)))
     = Forwarder.getNonce Forwarder.SampleToken.alice
         Forwarder.SampleToken.afterPayment
  /\ NoDup (Forwarder.executedNonces Forwarder.SampleToken.alice
              (Forwarder.logs Forwarder.SampleToken.afterPayment)).
Proof.
  apply (@nonces_count_executed_payments Forwarder.SampleToken.ledger
           Forwarder.SampleToken.ecdsa
           {| Forwarder.msg_sender := Forwarder.SampleToken.bob;
              Forwarder.block_timestamp := 900;
              Forwarder.block_chainid := 114;
              Forwarder.this := Forwarder.SampleToken.forwarder |}
           5 Forwarder.SampleToken.funded
           Forwarder.SampleToken.afterPayment Forwarder.SampleToken.alice).
  apply (Forwarder.history_call _ Forwarder.SampleToken.env
           (Forwarder.asCall Forwarder.SampleToken.payment)
           Forwarder.SampleToken.genesis).
  - constructor.
  - vm_compute. reflexivity.
Defined.

Lemma deadline_block_refused_by_engine_not_by_contract_witness :
  validateRequest Sample.config Sample.request
    (Sample.withBlockTime 2000 Sample.world) []
  = (Thrown (RequestExpired 2000 2000),
     [EvGetBlock (Resolved (Some {| timestamp := 2000 |}))])
  /\ Forwarder.executePayment
       (Forwarder.atTime 2000 Forwarder.SampleToken.env)
       Forwarder.SampleToken.alice Forwarder.SampleToken.bob 80 10 2000
       Forwarder.SampleToken.aliceSig0 Forwarder.SampleToken.genesis
     <> Forwarder.Reverted Forwarder.ExpiredRequest
  /\ Forwarder.executePayment
       (Forwarder.atTime 2000 Forwarder.SampleToken.env)
       Forwarder.SampleToken.alice Forwarder.SampleToken.bob 80 10 2000
       Forwarder.SampleToken.aliceSig0 Forwarder.SampleToken.genesis
     = Forwarder.executePayment
         (Forwarder.atTime 1000
            (Forwarder.atTime 2000 Forwarder.SampleToken.env))
         Forwarder.SampleToken.alice Forwarder.SampleToken.bob 80 10 2000
         Forwarder.SampleToken.aliceSig0 Forwarder.SampleToken.genesis.
Proof.
  apply (@deadline_block_refused_by_engine_not_by_contract
           Forwarder.SampleToken.ledger Forwarder.SampleToken.ecdsa
           Sample.config (Sample.withBlockTime 2000 Sample.world)
           Sample.request [] {| timestamp := 2000 |}
           (Forwarder.atTime 2000 Forwarder.SampleToken.env)
           Forwarder.SampleToken.alice Forwarder.SampleToken.bob 80 10
           Forwarder.SampleToken.aliceSig0 Forwarder.SampleToken.genesis
           1000).
  - reflexivity.
  - reflexivity.
  - reflexivity.
  - vm_compute. discriminate.
Defined.
